(** * The batch-normalisation notebook of wk3 (tf2_LDN)

    A shallow embedding of [wk3/EE_Batch normalisation.ipynb]: the code
    cells of the notebook become functions on the notebook's namespace,
    run one after the other in an error monad.  NumPy arrays hold float64
    numbers, with the arithmetic of IEEE 754 binary64 (round to nearest,
    ties to even): a division by zero or an overflow is no exception, it
    gives an infinity or nan in the array, and the run goes on.

    The libraries the notebook calls (NumPy, scikit-learn, Keras, pandas,
    matplotlib) are not part of the repository.  Their calls are embedded
    from the documented behaviour of the call the notebook makes; what the
    framework owns entirely (random draws, weight initialisation, the
    training of one epoch, metric evaluation, the exception for a model
    that is not compiled) is a parameter.  The builtins [print] and [len]
    and the IPython magic [%matplotlib inline] are the interpreter's: the
    embedding does not look them up in the namespace. *)

From Stdlib Require Import ZArith Psatz QArith Qround SpecFloat.
From stdpp Require Import gmap strings list fin_maps.

(** * Outcomes of a cell *)

(** The Python exceptions the embedded calls can raise. *)
Inductive exn : Type :=
  | ModuleNotFoundError (name : string)
  | NameError (name : string)
  | TypeError (name : string)
  | KeyError (key : string)
  | IndexError (index : nat)
  | ValueError (msg : string)
  | RuntimeError (msg : string)
  | OSError (msg : string).

(** [Ok a]: the value; [Raise e]: a Python exception. *)
Inductive result (A : Type) : Type :=
  | Ok (a : A)
  | Raise (e : exn).
Arguments Ok {A} a.
Arguments Raise {A} e.

#[global] Instance result_ret : MRet result := fun A a => Ok a.
#[global] Instance result_bind : MBind result := fun A B f m =>
  match m with
  | Ok a => f a
  | Raise e => Raise e
  end.
#[global] Instance result_fmap : FMap result := fun A B f m =>
  match m with
  | Ok a => Ok (f a)
  | Raise e => Raise e
  end.

(** Whether a computation returned a value. *)
Definition is_ok {A} (r : result A) : bool :=
  match r with Ok _ => true | _ => false end.

(** * float64 *)

(** A float64 number: a signed zero, a signed infinity, nan, or a finite
    number [(-1)^s * m * 2^e]. *)
Abbreviation float64 := spec_float.

#[global] Instance float64_eq_dec : EqDecision float64.
Proof. solve_decision. Defined.

Module f64.

(** The precision and the exponent bound of binary64. *)
Definition prec : Z := 53.
Definition emax : Z := 1024.

Definition add : float64 -> float64 -> float64 := SFadd prec emax.
Definition sub : float64 -> float64 -> float64 := SFsub prec emax.
Definition mul : float64 -> float64 -> float64 := SFmul prec emax.
Definition div : float64 -> float64 -> float64 := SFdiv prec emax.
Definition sqrt : float64 -> float64 := SFsqrt prec emax.

Definition zero : float64 := S754_zero false.

(** The float64 nearest to an integer; exact up to [2^53]. *)
Definition of_Z (z : Z) : float64 := binary_normalize prec emax z 0 false.
Definition of_nat (n : nat) : float64 := of_Z (Z.of_nat n).

(** [2^e] for an exponent in the normal range. *)
Definition pow2 (e : Z) : float64 := S754_finite false (2 ^ 52) (e - 52).

(** Neither nan nor an infinity. *)
Definition is_finite (x : float64) : bool :=
  match x with
  | S754_zero _ | S754_finite _ _ _ => true
  | S754_infinity _ | S754_nan => false
  end.

(** Plus or minus zero. *)
Definition is_zero (x : float64) : bool :=
  match x with S754_zero _ => true | _ => false end.

End f64.

(** * NumPy arithmetic on one-dimensional arrays *)

Module np.

(** The straight loop of NumPy's [pairwise_sum]: [res += a[i]]. *)
Definition sum_loop (res : float64) (a : list float64) : float64 :=
  foldl f64.add res a.

(** [pairwise_sum] on 8 to 128 elements: eight running sums over the
    blocks of 8, added up in pairs, and then the elements after the last
    full block. *)
Fixpoint sum_blocks (r a : list float64) (blocks : nat) : list float64 * list float64 :=
  match blocks with
  | O => (r, a)
  | S blocks' => sum_blocks (zip_with f64.add r (take 8 a)) (drop 8 a) blocks'
  end.

Definition sum_unrolled (a : list float64) : float64 :=
  match sum_blocks (take 8 a) (drop 8 a) (length a / 8 - 1) with
  | ([r0; r1; r2; r3; r4; r5; r6; r7], rest) =>
      sum_loop (f64.add (f64.add (f64.add r0 r1) (f64.add r2 r3))
                        (f64.add (f64.add r4 r5) (f64.add r6 r7))) rest
  | _ => f64.zero
  end.

(** [pairwise_sum]: the straight loop below 8 elements, the unrolled one
    up to 128, and above that the sum of the two halves, the first half
    cut to a multiple of 8.  The fuel bounds the depth of the halving. *)
Fixpoint pairwise_sum (fuel : nat) (a : list float64) : float64 :=
  if (length a <? 8)%nat then sum_loop f64.zero a
  else if (length a <=? 128)%nat then sum_unrolled a
  else
    match fuel with
    | O => f64.zero
    | S fuel' =>
        let n2 := (length a / 2 - (length a / 2) mod 8)%nat in
        f64.add (pairwise_sum fuel' (take n2 a)) (pairwise_sum fuel' (drop n2 a))
    end.

(** [add.reduce] on a contiguous float64 array: the pairwise sum, added
    to the identity 0. *)
Definition sum (a : list float64) : float64 :=
  f64.add f64.zero (pairwise_sum (length a) a).

(** [a.mean()]: the sum over the number of elements (nan on an empty
    array, with a warning). *)
Definition mean (a : list float64) : float64 :=
  f64.div (sum a) (f64.of_nat (length a)).

(** [a - c] with the scalar [c] broadcast over the array. *)
Definition subtract (a : list float64) (c : float64) : list float64 :=
  map (fun x => f64.sub x c) a.

(** [a.std()]: the square root of the mean of the squared deviations
    from the mean (ddof = 0). *)
Definition std (a : list float64) : float64 :=
  let x := subtract a (mean a) in
  f64.sqrt (f64.div (sum (map (fun d => f64.mul d d) x)) (f64.of_nat (length a))).

(** [a / c] with the scalar [c] broadcast: where [c] is zero the elements
    are infinities or nan (with a warning), and no exception. *)
Definition true_divide (a : list float64) (c : float64) : list float64 :=
  map (fun x => f64.div x c) a.

(** [np.arange(n)]. *)
Definition arange (n : nat) : list nat := seq 0 n.

End np.

(** The normalisation cell's arithmetic:
    [targets = (targets - targets.mean(axis=0)) / (targets.std())]. *)
Definition normalise (targets : list float64) : list float64 :=
  np.true_divide (np.subtract targets (np.mean targets)) (np.std targets).

(** All elements of the vector are the same number. *)
Definition constant (a : list float64) : Prop := forall x y, In x a -> In y a -> x = y.

(** * Arrays and the dataset *)

(** A two-dimensional ndarray: its rows, and the second component of its
    shape (which an array with no rows still has). *)
Record ndarray2 : Type := { rows : list (list float64); ncols : nat }.

Definition shape (X : ndarray2) : nat * nat := (length (rows X), ncols X).

(** Every row has as many entries as the shape says. *)
Definition well_shaped (X : ndarray2) : Prop :=
  Forall (fun r => length r = ncols X) (rows X).

(** What [load_diabetes()] returns, as far as the notebook reads it: the
    entries under the keys ['data'] and ['target']. *)
Record Bunch : Type := { bunch_data : ndarray2; bunch_target : list float64 }.

(** * scikit-learn: [train_test_split] *)

Module sklearn.

(** [ceil(test_size * n_samples)]. *)
Definition n_test (test_size : Q) (n_samples : nat) : nat :=
  Z.to_nat (Qceiling (test_size * inject_Z (Z.of_nat n_samples))).

(** [a[indices]]: the entries at the given positions, in that order. *)
Fixpoint safe_indexing {A} (a : list A) (indices : list nat) : result (list A) :=
  match indices with
  | [] => Ok []
  | i :: rest =>
      match a !! i with
      | Some x => xs ← safe_indexing a rest; Ok (x :: xs)
      | None => Raise (IndexError i)
      end
  end.

(** The positions the shuffle assigns to the test set and to the
    training set: the first [n_test] entries of the permutation, and the
    [n_train] entries after them. *)
Definition ind_test (permutation : list nat) (n_test : nat) : list nat :=
  take n_test permutation.
Definition ind_train (permutation : list nat) (n_test n_train : nat) : list nat :=
  take n_train (drop n_test permutation).

(** [train_test_split(X, y, test_size=test_size)], with the permutation
    its random state draws.  The result is
    [(X_train, X_test, y_train, y_test)]. *)
Definition train_test_split (permutation : list nat) (X : ndarray2) (y : list float64)
    (test_size : Q) : result (ndarray2 * ndarray2 * list float64 * list float64) :=
  let n_samples := length (rows X) in
  if decide (length y = n_samples) then
    let n_test := n_test test_size n_samples in
    let n_train := (n_samples - n_test)%nat in
    if decide (n_train = 0%nat) then
      Raise (ValueError "the resulting train set will be empty")
    else
      X_train ← safe_indexing (rows X) (ind_train permutation n_test n_train);
      X_test ← safe_indexing (rows X) (ind_test permutation n_test);
      y_train ← safe_indexing y (ind_train permutation n_test n_train);
      y_test ← safe_indexing y (ind_test permutation n_test);
      Ok ({| rows := X_train; ncols := ncols X |},
          {| rows := X_test; ncols := ncols X |}, y_train, y_test)
  else
    Raise (ValueError "Found input variables with inconsistent numbers of samples").

End sklearn.

(** * Keras: layers, models, training *)

Inductive initializer : Type :=
  | Zeros
  | Ones
  | RandomNormal (mean stddev : Q)
  | Constant (value : Q).

Inductive activation : Type := linear | relu.

(** The keyword arguments of [BatchNormalization] the notebook mentions. *)
Record batch_norm_args : Type := {
  axis : Z;
  momentum : Q;
  epsilon : Q;
  beta_initializer : initializer;
  gamma_initializer : initializer
}.

(** The defaults, as the notebook's own text lists them: momentum 0.99,
    epsilon 0.001, beta all zeros, gamma all ones, axis -1. *)
Definition batch_norm_defaults : batch_norm_args :=
  {| axis := -1; momentum := 0.99; epsilon := 0.001;
     beta_initializer := Zeros; gamma_initializer := Ones |}.

Inductive Layer : Type :=
  | Dense (units : nat) (input_shape : option (list nat)) (act : activation)
  | BatchNormalization (args : batch_norm_args)
  | Dropout (rate : Q).

(** The arguments of [model.compile]. *)
Record compile_args : Type := {
  optimizer : string;
  loss : string;
  metrics : list string
}.

(** A [Sequential] model: its layer stack, its compile configuration once
    compiled, and its weights once trained. *)
Record Model : Type := {
  layers : list Layer;
  compiled : option compile_args;
  weights : option (list float64)
}.

(** The object [model.fit] returns: [history.history] maps each logged
    name to its values, one per epoch; [history.epoch] lists the epochs. *)
Record History : Type := {
  history : gmap string (list float64);
  epoch : list nat
}.

(** What the framework owns: which packages can be imported, the dataset
    file behind [load_diabetes], the shuffle drawn by [train_test_split],
    the initial weights, the training of one epoch (which is given the
    batch size, draws the mini-batches, and returns the new weights and
    the epoch's training value of the loss and of each metric), the
    evaluation of the loss or a metric on held-out data, and the exception
    [fit] raises on a model that is not compiled (a [RuntimeError] in
    Keras 2, a [ValueError] in Keras 3). *)
Record Library : Type := {
  installed : string -> bool;
  load_diabetes : result Bunch;
  permutation : nat -> list nat;
  initial_weights : list Layer -> list float64;
  train_epoch : list Layer -> compile_args -> list float64 -> ndarray2 -> list float64 ->
                nat -> nat -> result (list float64 * (string -> float64));
  evaluate : list Layer -> compile_args -> list float64 -> ndarray2 -> list float64 ->
             string -> float64;
  uncompiled_error : exn
}.

Module keras.

(** [Sequential(layers)]. *)
Definition Sequential (ls : list Layer) : Model :=
  {| layers := ls; compiled := None; weights := None |}.

(** [model.add(layer)]. *)
Definition add (m : Model) (l : Layer) : Model :=
  {| layers := layers m ++ [l]; compiled := compiled m; weights := weights m |}.

(** [model.compile(optimizer=..., loss=..., metrics=...)]. *)
Definition compile (m : Model) (c : compile_args) : Model :=
  {| layers := layers m; compiled := Some c; weights := weights m |}.

(** The input width the first layer declares, if it declares one. *)
Definition declared_input_shape (m : Model) : option (list nat) :=
  match layers m with
  | Dense _ s _ :: _ => s
  | _ => None
  end.

(** A declared input shape has to be the width of the data. *)
Definition input_compatible (m : Model) (x : ndarray2) : bool :=
  match declared_input_shape m with
  | Some s => bool_decide (s = [ncols x])
  | None => true
  end.

(** The hold-out [fit] makes for [validation_split]: the last fraction
    of the samples, taken before any shuffling. *)
Definition train_validation_split (x : ndarray2) (y : list float64) (validation_split : Q)
    : result ((ndarray2 * list float64) * (ndarray2 * list float64)) :=
  let n := length (rows x) in
  let split_at := Z.to_nat (Qfloor (inject_Z (Z.of_nat n) * (1 - validation_split))) in
  if decide (split_at = 0%nat \/ split_at = n) then
    Raise (ValueError "Training data is not sufficient to split into training and validation")
  else
    Ok (({| rows := take split_at (rows x); ncols := ncols x |}, take split_at y),
        ({| rows := drop split_at (rows x); ncols := ncols x |}, drop split_at y)).

(** The names logged for the training data: the loss and each metric. *)
Definition log_names (c : compile_args) : list string := "loss" :: metrics c.

(** The logs of one epoch: the training values under their names, the
    values on the validation data under the same names with the prefix
    [val_]. *)
Definition epoch_logs (names : list string) (train_value val_value : string -> float64)
    : gmap string float64 :=
  list_to_map ((fun k => (k, train_value k)) <$> names) ∪
  list_to_map ((fun k => ("val_" +:+ k, val_value k)) <$> names).

(** All the names an epoch is logged under. *)
Definition log_keys (c : compile_args) : list string :=
  log_names c ++ ((fun k => "val_" +:+ k) <$> log_names c).

(** The History callback at the end of an epoch:
    [history.setdefault(k, []).append(v)] for every logged [k, v]. *)
Definition append_logs (h : gmap string (list float64)) (logs : gmap string float64)
    : gmap string (list float64) :=
  merge (fun series v =>
           match v with
           | Some v => Some (default [] series ++ [v])
           | None => series
           end) h logs.

Section Fit.
Variable L : Library.
Variables (ls : list Layer) (c : compile_args).
Variables (x : ndarray2) (y : list float64) (x_val : ndarray2) (y_val : list float64).
Variable batch_size : nat.

(** The epochs [e, e + 1, ..., e + n - 1] of the training loop. *)
Fixpoint fit_loop (n e : nat) (w : list float64) (h : gmap string (list float64))
    : result (list float64 * gmap string (list float64)) :=
  match n with
  | O => Ok (w, h)
  | S n' =>
      '(w', train_value) ← train_epoch L ls c w x y batch_size e;
      let logs := epoch_logs (log_names c) train_value
                    (evaluate L ls c w' x_val y_val) in
      fit_loop n' (S e) w' (append_logs h logs)
  end.
End Fit.

(** [model.fit(x, y, epochs=..., validation_split=..., batch_size=...)]
    for a validation split strictly between 0 and 1: the changed model
    and the History object.  [fit] first asserts that the model is
    compiled, then makes the hold-out, then builds its datasets from the
    two parts, where arrays of different lengths raise, and meets an
    input of the wrong width when it traces the first training step. *)
Definition fit (L : Library) (m : Model) (x : ndarray2) (y : list float64)
    (epochs : nat) (validation_split : Q) (batch_size : nat)
    : result (Model * History) :=
  match compiled m with
  | None => Raise (uncompiled_error L)
  | Some c =>
      '((x_train, y_train), (x_val, y_val)) ← train_validation_split x y validation_split;
      if decide (length y = length (rows x)) then
        if input_compatible m x then
          let w0 := default (initial_weights L (layers m)) (weights m) in
          '(w, h) ← fit_loop L (layers m) c x_train y_train x_val y_val batch_size
                             epochs 0 w0 ∅;
          Ok ({| layers := layers m; compiled := Some c; weights := Some w |},
              {| history := h; epoch := seq 0 epochs |})
        else Raise (ValueError "Input is incompatible with the layer: shape mismatch")
      else Raise (ValueError "Data cardinality is ambiguous")
  end.

End keras.

(** * pandas: the frame of the learning curves *)

(** A frame of float columns over a [RangeIndex] of the given length. *)
Record Frame : Type := { columns : gmap string (list float64); index : nat }.

Module pd.

(** [pd.DataFrame(d)] for a dict of lists: the lists become the columns
    and have to be of one length, which is the number of rows. *)
Definition DataFrame (d : gmap string (list float64)) : result Frame :=
  match (map_to_list d).*2 with
  | [] => Ok {| columns := d; index := 0 |}
  | col :: cols =>
      if decide (Forall (fun c => length c = length col) cols) then
        Ok {| columns := d; index := length col |}
      else Raise (ValueError "All arrays must be of the same length")
  end.

(** [len(frame)]: the number of rows. *)
Definition len (f : Frame) : nat := index f.

(** [frame[key]]. *)
Definition getitem (f : Frame) (key : string) : result (list float64) :=
  match columns f !! key with
  | Some col => Ok col
  | None => Raise (KeyError key)
  end.

End pd.

(** * matplotlib: the figure *)

Record Line2D : Type := { xdata : list nat; ydata : list float64; label : string }.

Record Axes : Type := {
  position : nat;
  lines : list Line2D;
  xlabel : string;
  ylabel : string;
  title : string;
  legend : bool
}.

Record Figure : Type := { figsize : nat * nat; axes : list Axes }.

Module plt.

(** [plt.figure(figsize=...)]. *)
Definition figure (size : nat * nat) : Figure := {| figsize := size; axes := [] |}.

(** [fig.add_subplot(pos)]: the figure with the new axes, and the place
    of the new axes in it. *)
Definition add_subplot (f : Figure) (pos : nat) : Figure * nat :=
  ({| figsize := figsize f;
      axes := axes f ++ [{| position := pos; lines := []; xlabel := ""; ylabel := "";
                            title := ""; legend := false |}] |},
   length (axes f)).

(** [ax.plot(x, y, label=...)]. *)
Definition plot (a : Axes) (x : list nat) (y : list float64) (lbl : string) : result Axes :=
  if decide (length x = length y) then
    Ok {| position := position a;
          lines := lines a ++ [{| xdata := x; ydata := y; label := lbl |}];
          xlabel := xlabel a; ylabel := ylabel a; title := title a; legend := legend a |}
  else Raise (ValueError "x and y must have same first dimension").

Definition set_xlabel (a : Axes) (s : string) : Axes :=
  {| position := position a; lines := lines a; xlabel := s; ylabel := ylabel a;
     title := title a; legend := legend a |}.

Definition set_ylabel (a : Axes) (s : string) : Axes :=
  {| position := position a; lines := lines a; xlabel := xlabel a; ylabel := s;
     title := title a; legend := legend a |}.

Definition set_title (a : Axes) (s : string) : Axes :=
  {| position := position a; lines := lines a; xlabel := xlabel a; ylabel := ylabel a;
     title := s; legend := legend a |}.

Definition show_legend (a : Axes) : Axes :=
  {| position := position a; lines := lines a; xlabel := xlabel a; ylabel := ylabel a;
     title := title a; legend := true |}.

(** A method call on the axes at place [i] of the figure. *)
Definition on_axes (f : Figure) (i : nat) (method : Axes -> result Axes) : result Figure :=
  match axes f !! i with
  | Some a => a' ← method a; Ok {| figsize := figsize f; axes := <[i := a']> (axes f) |}
  | None => Raise (IndexError i)
  end.

End plt.

(** * The namespace of the notebook *)

(** The values the notebook binds to names.  [VAxes i] refers to the axes
    at place [i] of the figure bound to [fig], which the axes object is
    shared with. *)
Inductive value : Type :=
  | VImported (name : string)
  | VBunch (b : Bunch)
  | VArray1 (a : list float64)
  | VArray2 (X : ndarray2)
  | VRange (r : list nat)
  | VModel (m : Model)
  | VHistory (h : History)
  | VFrame (f : Frame)
  | VFigure (f : Figure)
  | VAxes (i : nat).

Abbreviation namespace := (gmap string value).

(** A statement runs on the namespace; a cell is a list of statements. *)
Definition stmt : Type := namespace -> result namespace.

(** Reading a name. *)
Definition get (name : string) (ns : namespace) : result value :=
  match ns !! name with
  | Some v => Ok v
  | None => Raise (NameError name)
  end.

Definition get_imported (name : string) (ns : namespace) : result unit :=
  v ← get name ns;
  match v with VImported _ => Ok tt | _ => Raise (TypeError name) end.

Definition get_bunch (name : string) (ns : namespace) : result Bunch :=
  v ← get name ns;
  match v with VBunch b => Ok b | _ => Raise (TypeError name) end.

Definition get_array1 (name : string) (ns : namespace) : result (list float64) :=
  v ← get name ns;
  match v with VArray1 a => Ok a | _ => Raise (TypeError name) end.

Definition get_array2 (name : string) (ns : namespace) : result ndarray2 :=
  v ← get name ns;
  match v with VArray2 X => Ok X | _ => Raise (TypeError name) end.

Definition get_range (name : string) (ns : namespace) : result (list nat) :=
  v ← get name ns;
  match v with VRange r => Ok r | _ => Raise (TypeError name) end.

Definition get_model (name : string) (ns : namespace) : result Model :=
  v ← get name ns;
  match v with VModel m => Ok m | _ => Raise (TypeError name) end.

Definition get_history (name : string) (ns : namespace) : result History :=
  v ← get name ns;
  match v with VHistory h => Ok h | _ => Raise (TypeError name) end.

Definition get_frame (name : string) (ns : namespace) : result Frame :=
  v ← get name ns;
  match v with VFrame f => Ok f | _ => Raise (TypeError name) end.

Definition get_figure (name : string) (ns : namespace) : result Figure :=
  v ← get name ns;
  match v with VFigure f => Ok f | _ => Raise (TypeError name) end.

Definition get_axes (name : string) (ns : namespace) : result nat :=
  v ← get name ns;
  match v with VAxes i => Ok i | _ => Raise (TypeError name) end.

(** [name = e]. *)
Definition assign (name : string) (e : namespace -> result value) : stmt :=
  fun ns => v ← e ns; Ok (<[name := v]> ns).

(** An expression statement: evaluated, its value shown or dropped. *)
Definition expression {A} (e : namespace -> result A) : stmt :=
  fun ns => _ ← e ns; Ok ns.

(** [import module as name] and [from module import name, ...]: each name
    is bound to what it names in the module. *)
Definition import (L : Library) (module : string) (names : list string) : stmt :=
  fun ns =>
    if installed L module then
      Ok (foldr (fun name ns => <[name := VImported module]> ns) ns names)
    else Raise (ModuleNotFoundError module).

(** [bunch[key]]. *)
Definition bunch_getitem (b : Bunch) (key : string) : result value :=
  if decide (key = "data") then Ok (VArray2 (bunch_data b))
  else if decide (key = "target") then Ok (VArray1 (bunch_target b))
  else Raise (KeyError key).

(** Statements run in order; the first one that does not return ends the
    run with its outcome. *)
Fixpoint exec (ss : list stmt) (ns : namespace) : result namespace :=
  match ss with
  | [] => Ok ns
  | s :: rest => ns' ← s ns; exec rest ns'
  end.

(** A statement neither reads nor changes the name [k]: whatever [k] is
    bound to, the statement has the same outcome, and leaves [k] bound to
    that. *)
Definition ignores (k : string) (s : stmt) : Prop :=
  forall ns v, s (<[k := v]> ns) = (insert k v) <$> s ns.

(** * The cells of the notebook *)

(** The customised layer of the notebook. *)
Definition custom_batch_norm : batch_norm_args :=
  {| axis := -1; momentum := 0.95; epsilon := 0.005;
     beta_initializer := RandomNormal 0.0 0.05;
     gamma_initializer := Constant 0.9 |}.

(** The code cells, in the order of the notebook file. *)
Inductive cell_id : Type :=
  | ImportTensorflow
  | LoadDataset
  | SaveVariables
  | NormaliseTargets
  | SplitDataset
  | ImportLayers
  | BuildModel
  | PrintSummary
  | AddBatchNorm
  | AddOutputLayer
  | CompileModel
  | TrainModel
  | PlotCurves.

#[global] Instance cell_id_eq_dec : EqDecision cell_id.
Proof. solve_decision. Defined.

Definition notebook : list cell_id :=
  [ImportTensorflow; LoadDataset; SaveVariables; NormaliseTargets; SplitDataset;
   ImportLayers; BuildModel; PrintSummary; AddBatchNorm; AddOutputLayer;
   CompileModel; TrainModel; PlotCurves].

(** Cell [a] comes before cell [b] in the notebook. *)
Definition precedes (a b : cell_id) : Prop :=
  exists i j, notebook !! i = Some a /\ notebook !! j = Some b /\ (i < j)%nat.

Section Cells.

Variable L : Library.

(** [train_data, test_data, train_targets, test_targets =
     train_test_split(data, targets, test_size=0.1)] *)
Definition split_dataset : stmt := fun ns =>
  _ ← get_imported "train_test_split" ns;
  X ← get_array2 "data" ns;
  y ← get_array1 "targets" ns;
  '(X_train, X_test, y_train, y_test) ←
    sklearn.train_test_split (permutation L (length (rows X))) X y 0.1;
  Ok (<["test_targets" := VArray1 y_test]>
      (<["train_targets" := VArray1 y_train]>
       (<["test_data" := VArray2 X_test]>
        (<["train_data" := VArray2 X_train]> ns)))).

(** [model = Sequential([Dense(64, input_shape=[train_data.shape[1],],
     activation="relu"), BatchNormalization(), Dropout(0.5),
     BatchNormalization(), Dropout(0.5), Dense(256, activation='relu')])] *)
Definition build_model : stmt :=
  assign "model" (fun ns =>
    _ ← get_imported "Sequential" ns;
    _ ← get_imported "Dense" ns;
    train_data ← get_array2 "train_data" ns;
    _ ← get_imported "BatchNormalization" ns;
    _ ← get_imported "Dropout" ns;
    Ok (VModel (keras.Sequential
      [Dense 64 (Some [snd (shape train_data)]) relu;
       BatchNormalization batch_norm_defaults;
       Dropout 0.5;
       BatchNormalization batch_norm_defaults;
       Dropout 0.5;
       Dense 256 None relu]))).

(** [history = model.fit(train_data, train_targets, epochs=100,
     validation_split=0.15, batch_size=64, verbose=False)]: the call
    changes the model and returns the History object. *)
Definition train_model : stmt := fun ns =>
  m ← get_model "model" ns;
  train_data ← get_array2 "train_data" ns;
  train_targets ← get_array1 "train_targets" ns;
  '(m', h) ← keras.fit L m train_data train_targets 100 0.15 64;
  Ok (<["history" := VHistory h]> (<["model" := VModel m']> ns)).

(** [ax = fig.add_subplot(pos)]: the figure gets the new axes. *)
Definition add_subplot (pos : nat) : stmt := fun ns =>
  f ← get_figure "fig" ns;
  let '(f', i) := plt.add_subplot f pos in
  Ok (<["ax" := VAxes i]> (<["fig" := VFigure f']> ns)).

(** [ax.method(...)]: a call that changes the axes bound to [ax]. *)
Definition axes_call (method : namespace -> Axes -> result Axes) : stmt := fun ns =>
  i ← get_axes "ax" ns;
  f ← get_figure "fig" ns;
  f' ← plt.on_axes f i (method ns);
  Ok (<["fig" := VFigure f']> ns).

(** [ax.plot(epochs, frame[key], label=lbl)]. *)
Definition plot_column (key lbl : string) : stmt :=
  axes_call (fun ns a =>
    x ← get_range "epochs" ns;
    fr ← get_frame "frame" ns;
    y ← pd.getitem fr key;
    plt.plot a x y lbl).

Definition cell_source (id : cell_id) : list stmt :=
  match id with
  | ImportTensorflow =>
      [ import L "tensorflow" ["tf"];
        expression (get_imported "tf") ]
  | LoadDataset =>
      [ import L "sklearn.datasets" ["load_diabetes"];
        assign "diabetes_dataset" (fun ns =>
          _ ← get_imported "load_diabetes" ns;
          b ← load_diabetes L;
          Ok (VBunch b)) ]
  | SaveVariables =>
      [ import L "sklearn.model_selection" ["train_test_split"];
        assign "data" (fun ns =>
          b ← get_bunch "diabetes_dataset" ns; bunch_getitem b "data");
        assign "targets" (fun ns =>
          b ← get_bunch "diabetes_dataset" ns; bunch_getitem b "target") ]
  | NormaliseTargets =>
      [ assign "targets" (fun ns =>
          targets ← get_array1 "targets" ns;
          Ok (VArray1 (normalise targets))) ]
  | SplitDataset => [ split_dataset ]
  | ImportLayers =>
      [ import L "tensorflow.keras.models" ["Sequential"];
        import L "tensorflow.keras.layers"
          ["Flatten"; "Dense"; "Conv2D"; "MaxPooling2D"; "BatchNormalization"; "Dropout"] ]
  | BuildModel => [ build_model ]
  | PrintSummary => [ expression (get_model "model") ]
  | AddBatchNorm =>
      [ assign "model" (fun ns =>
          m ← get_model "model" ns;
          _ ← get_imported "tf" ns;
          Ok (VModel (keras.add m (BatchNormalization custom_batch_norm)))) ]
  | AddOutputLayer =>
      [ assign "model" (fun ns =>
          m ← get_model "model" ns;
          _ ← get_imported "Dense" ns;
          Ok (VModel (keras.add m (Dense 1 None linear)))) ]
  | CompileModel =>
      [ assign "model" (fun ns =>
          m ← get_model "model" ns;
          Ok (VModel (keras.compile m
            {| optimizer := "adam"; loss := "mse"; metrics := ["mae"] |}))) ]
  | TrainModel => [ train_model ]
  | PlotCurves =>
      [ import L "pandas" ["pd"];
        import L "numpy" ["np"];
        import L "matplotlib.pyplot" ["plt"];
        assign "frame" (fun ns =>
          _ ← get_imported "pd" ns;
          h ← get_history "history" ns;
          f ← pd.DataFrame (history h);
          Ok (VFrame f));
        assign "epochs" (fun ns =>
          _ ← get_imported "np" ns;
          f ← get_frame "frame" ns;
          Ok (VRange (np.arange (pd.len f))));
        assign "fig" (fun ns =>
          _ ← get_imported "plt" ns;
          Ok (VFigure (plt.figure (12, 4)%nat)));
        add_subplot 121;
        plot_column "loss" "Train";
        plot_column "val_loss" "Validation";
        axes_call (fun _ a => Ok (plt.set_xlabel a "Epochs"));
        axes_call (fun _ a => Ok (plt.set_ylabel a "Loss"));
        axes_call (fun _ a => Ok (plt.set_title a "Loss vs Epochs"));
        axes_call (fun _ a => Ok (plt.show_legend a));
        add_subplot 122;
        plot_column "mae" "Train";
        plot_column "val_mae" "Validation";
        axes_call (fun _ a => Ok (plt.set_xlabel a "Epochs"));
        axes_call (fun _ a => Ok (plt.set_ylabel a "Mean Absolute Error"));
        axes_call (fun _ a => Ok (plt.set_title a "Mean Absolute Error vs Epochs"));
        axes_call (fun _ a => Ok (plt.show_legend a)) ]
  end.

(** The statements of some cells, one cell after the other. *)
Definition statements (cells : list cell_id) : list stmt :=
  concat (cell_source <$> cells).

(** Running cells from a namespace, and the whole notebook from a fresh
    kernel. *)
Definition run_cells (cells : list cell_id) (ns : namespace) : result namespace :=
  exec (statements cells) ns.

Definition run_notebook : result namespace := run_cells notebook ∅.

End Cells.

(** The library with another shuffle. *)
Definition with_permutation (p : nat -> list nat) (L : Library) : Library :=
  {| installed := installed L;
     load_diabetes := load_diabetes L;
     permutation := p;
     initial_weights := initial_weights L;
     train_epoch := train_epoch L;
     evaluate := evaluate L;
     uncompiled_error := uncompiled_error L |}.

(** * A small library to run the notebook on *)

(** Eleven samples of ten features, every package installed, no shuffle
    (the identity is one of the permutations the random state can draw),
    and a trainer that leaves the weights alone and logs zeros. *)
Definition demo_data : ndarray2 :=
  {| rows := (fun i => (fun j => f64.of_nat (i + j)) <$> seq 0 10) <$> seq 0 11;
     ncols := 10 |}.

Definition demo_targets : list float64 :=
  f64.of_Z <$> [3; 1; 4; 1; 5; 9; 2; 6; 5; 3; 5]%Z.

Definition demo_with (targets : list float64) : Library :=
  {| installed := fun _ => true;
     load_diabetes := Ok {| bunch_data := demo_data; bunch_target := targets |};
     permutation := fun n => seq 0 n;
     initial_weights := fun _ => [];
     train_epoch := fun _ _ w _ _ _ _ => Ok (w, fun _ => f64.zero);
     evaluate := fun _ _ _ _ _ _ => f64.zero;
     uncompiled_error :=
       RuntimeError "You must compile your model before training/testing. Use `model.compile(optimizer, loss)`." |}.

Definition demo : Library := demo_with demo_targets.



(** The same library with a loader that cannot read the dataset file. *)
Definition demo_unreadable : Library :=
  {| installed := installed demo;
     load_diabetes := Raise (OSError "diabetes_data_raw.csv.gz not found");
     permutation := permutation demo;
     initial_weights := initial_weights demo;
     train_epoch := train_epoch demo;
     evaluate := evaluate demo;
     uncompiled_error := uncompiled_error demo |}.

(** * The states of a run, and the names of its cells *)

(** The namespace after the first three cells. *)
Definition loaded (b : Bunch) : namespace :=
  <["targets" := VArray1 (bunch_target b)]>
  (<["data" := VArray2 (bunch_data b)]>
   (<["train_test_split" := VImported "sklearn.model_selection"]>
    (<["diabetes_dataset" := VBunch b]>
     (<["load_diabetes" := VImported "sklearn.datasets"]>
      (<["tf" := VImported "tensorflow"]> ∅))))).

(** The namespace after the split cell. *)
Definition with_split (X_train X_test : ndarray2) (y_train y_test : list float64)
    (ns : namespace) : namespace :=
  <["test_targets" := VArray1 y_test]>
  (<["train_targets" := VArray1 y_train]>
   (<["test_data" := VArray2 X_test]>
    (<["train_data" := VArray2 X_train]> ns))).

(** The model of the notebook for data of a given width, before it is
    compiled and after. *)
Definition stacked (width : nat) : Model :=
  keras.add
    (keras.add
       (keras.Sequential
          [Dense 64 (Some [width]) relu;
           BatchNormalization batch_norm_defaults;
           Dropout 0.5;
           BatchNormalization batch_norm_defaults;
           Dropout 0.5;
           Dense 256 None relu])
       (BatchNormalization custom_batch_norm))
    (Dense 1 None linear).

Definition compiled_model (width : nat) : Model :=
  keras.compile (stacked width)
    {| optimizer := "adam"; loss := "mse"; metrics := ["mae"] |}.

(** The namespace after the cells from the layer imports to the compile
    cell. *)
Definition with_model (width : nat) (ns : namespace) : namespace :=
  <["model" := VModel (compiled_model width)]>
  (<["Flatten" := VImported "tensorflow.keras.layers"]>
   (<["Dense" := VImported "tensorflow.keras.layers"]>
    (<["Conv2D" := VImported "tensorflow.keras.layers"]>
     (<["MaxPooling2D" := VImported "tensorflow.keras.layers"]>
      (<["BatchNormalization" := VImported "tensorflow.keras.layers"]>
       (<["Dropout" := VImported "tensorflow.keras.layers"]>
        (<["Sequential" := VImported "tensorflow.keras.models"]> ns))))))).

(** The figure of the plotting cell for four series over [n] epochs. *)
Definition curves (n : nat) (loss val_loss mae val_mae : list float64) : Figure :=
  {| figsize := (12, 4)%nat;
     axes :=
       [ {| position := 121;
            lines := [ {| xdata := np.arange n; ydata := loss; label := "Train" |};
                       {| xdata := np.arange n; ydata := val_loss; label := "Validation" |} ];
            xlabel := "Epochs"; ylabel := "Loss"; title := "Loss vs Epochs";
            legend := true |};
         {| position := 122;
            lines := [ {| xdata := np.arange n; ydata := mae; label := "Train" |};
                       {| xdata := np.arange n; ydata := val_mae; label := "Validation" |} ];
            xlabel := "Epochs"; ylabel := "Mean Absolute Error";
            title := "Mean Absolute Error vs Epochs"; legend := true |} ] |}.

(** The modules the notebook imports, in the order of the imports. *)
Definition imported_modules : list string :=
  ["tensorflow"; "sklearn.datasets"; "sklearn.model_selection";
   "tensorflow.keras.models"; "tensorflow.keras.layers";
   "pandas"; "numpy"; "matplotlib.pyplot"].

(** A namespace with a compiled model and two samples. *)
Definition two_samples : namespace :=
  <["train_targets" := VArray1 [f64.of_Z 1; f64.of_Z 2]]>
  (<["train_data" := VArray2 {| rows := [[f64.of_Z 0]; [f64.of_Z 1]]; ncols := 1 |}]>
   (<["model" := VModel (compiled_model 1)]> ∅)).

(** The names a cell binds or changes: the targets of its assignments
    and imports, and the objects its calls change. *)
Definition written_names (id : cell_id) : list string :=
  match id with
  | ImportTensorflow => ["tf"]
  | LoadDataset => ["load_diabetes"; "diabetes_dataset"]
  | SaveVariables => ["train_test_split"; "data"; "targets"]
  | NormaliseTargets => ["targets"]
  | SplitDataset => ["train_data"; "test_data"; "train_targets"; "test_targets"]
  | ImportLayers =>
      ["Sequential"; "Flatten"; "Dense"; "Conv2D"; "MaxPooling2D"; "BatchNormalization";
       "Dropout"]
  | BuildModel => ["model"]
  | PrintSummary => []
  | AddBatchNorm => ["model"]
  | AddOutputLayer => ["model"]
  | CompileModel => ["model"]
  | TrainModel => ["model"; "history"]
  | PlotCurves => ["pd"; "np"; "plt"; "frame"; "epochs"; "fig"; "ax"]
  end.

(** A statement that returns changes no binding outside [ks] and unbinds
    nothing. *)
Definition touches_only (ks : list string) (s : stmt) : Prop :=
  forall ns ns', s ns = Ok ns' ->
    (forall k, k ∉ ks -> ns' !! k = ns !! k) /\
    (forall k, is_Some (ns !! k) -> is_Some (ns' !! k)).

(** The names a cell reads without binding them itself. *)
Definition read_names (id : cell_id) : list string :=
  match id with
  | ImportTensorflow => []
  | LoadDataset => []
  | SaveVariables => ["diabetes_dataset"]
  | NormaliseTargets => ["targets"]
  | SplitDataset => ["train_test_split"; "data"; "targets"]
  | ImportLayers => []
  | BuildModel => ["Sequential"; "Dense"; "train_data"; "BatchNormalization"; "Dropout"]
  | PrintSummary => ["model"]
  | AddBatchNorm => ["model"; "tf"]
  | AddOutputLayer => ["model"; "Dense"]
  | CompileModel => ["model"]
  | TrainModel => ["model"; "train_data"; "train_targets"]
  | PlotCurves => ["history"]
  end.

(** The packages a cell imports, in the order of its import statements,
    which are the first statements of the cell. *)
Definition cell_imports (id : cell_id) : list string :=
  match id with
  | ImportTensorflow => ["tensorflow"]
  | LoadDataset => ["sklearn.datasets"]
  | SaveVariables => ["sklearn.model_selection"]
  | ImportLayers => ["tensorflow.keras.models"; "tensorflow.keras.layers"]
  | PlotCurves => ["pandas"; "numpy"; "matplotlib.pyplot"]
  | _ => []
  end.

(** * Small target vectors *)

(** The targets 1, 2, 4. *)
Definition one_two_four : list float64 := f64.of_Z <$> [1; 2; 4]%Z.


(** 0.1 as float64, and the vector of three times 0.1. *)
Definition tenth : float64 := S754_finite false 7205759403792794 (-56).
Definition three_tenths : list float64 := [tenth; tenth; tenth].

(** Two opposite numbers whose squares are below the smallest positive
    float64. *)
Definition tiny_opposites : list float64 :=
  [f64.pow2 (-700); SFopp (f64.pow2 (-700))].

(** * Arrays in the namespace *)

(** Whether a value is an array. *)
Definition is_array (v : value) : bool :=
  match v with
  | VArray1 _ | VArray2 _ => true
  | _ => false
  end.

(** A statement that returns has bound no array: a name that is bound to
    an array after it was bound to this array before. *)
Definition binds_no_array (s : stmt) : Prop :=
  forall ns ns' k v, s ns = Ok ns' -> ns' !! k = Some v -> is_array v = true ->
    ns !! k = Some v.

(** * Running statements *)

Lemma Ok_inj {A} (a b : A) : Ok a = Ok b -> a = b.
Proof. congruence. Qed.

Lemma bind_Ok {A B} (m : result A) (f : A -> result B) (b : B) :
  m ≫= f = Ok b -> exists a, m = Ok a /\ f a = Ok b.
Proof. destruct m as [a|]; simpl; intros H; try discriminate H. eauto. Qed.

Lemma is_ok_Ok {A} (r : result A) : is_ok r = true -> exists a, r = Ok a.
Proof. destruct r; [eauto|discriminate..]. Qed.

Lemma exec_cons_Ok (s : stmt) ss ns nsf :
  exec (s :: ss) ns = Ok nsf -> exists ns', s ns = Ok ns' /\ exec ss ns' = Ok nsf.
Proof. apply bind_Ok. Qed.

Lemma exec_nil_Ok ns nsf : exec [] ns = Ok nsf -> nsf = ns.
Proof. simpl. congruence. Qed.

Lemma exec_app ss1 ss2 ns : exec (ss1 ++ ss2) ns = exec ss1 ns ≫= exec ss2.
Proof.
  revert ns. induction ss1 as [|s ss1 IH]; intros ns; simpl; [reflexivity|].
  destruct (s ns); simpl; auto.
Qed.

Lemma run_cells_app L cs1 cs2 ns :
  run_cells L (cs1 ++ cs2) ns = run_cells L cs1 ns ≫= run_cells L cs2.
Proof.
  unfold run_cells, statements. rewrite fmap_app, concat_app. apply exec_app.
Qed.

Lemma run_cells_app_Ok L cs1 cs2 ns nsf :
  run_cells L (cs1 ++ cs2) ns = Ok nsf ->
  exists ns', run_cells L cs1 ns = Ok ns' /\ run_cells L cs2 ns' = Ok nsf.
Proof. rewrite run_cells_app. apply bind_Ok. Qed.

Lemma import_Ok L p names ns ns' :
  import L p names ns = Ok ns' ->
  installed L p = true /\ ns' = foldr (fun name ns => <[name := VImported p]> ns) ns names.
Proof.
  unfold import. destruct (installed L p); [|discriminate]. intros <-%Ok_inj. auto.
Qed.

Lemma assign_Ok x e ns ns' :
  assign x e ns = Ok ns' -> exists v, e ns = Ok v /\ ns' = <[x := v]> ns.
Proof. unfold assign. intros (v & Hv & <-%Ok_inj)%bind_Ok. eauto. Qed.

Lemma expression_Ok {A} (e : namespace -> result A) ns ns' :
  expression e ns = Ok ns' -> (exists a, e ns = Ok a) /\ ns' = ns.
Proof. unfold expression. intros (v & Hv & <-%Ok_inj)%bind_Ok. eauto. Qed.

Lemma get_Ok x ns v : get x ns = Ok v -> ns !! x = Some v.
Proof. unfold get. destruct (ns !! x); [|discriminate]. congruence. Qed.

Ltac get_inv get_f :=
  unfold get_f; intros (v & Hv%get_Ok & H)%bind_Ok;
  destruct v; try discriminate H; apply Ok_inj in H; subst; eauto.

Lemma get_imported_Ok x ns u :
  get_imported x ns = Ok u -> exists q, ns !! x = Some (VImported q).
Proof. get_inv get_imported. Qed.
Lemma get_bunch_Ok x ns b : get_bunch x ns = Ok b -> ns !! x = Some (VBunch b).
Proof. get_inv get_bunch. Qed.
Lemma get_array1_Ok x ns a : get_array1 x ns = Ok a -> ns !! x = Some (VArray1 a).
Proof. get_inv get_array1. Qed.
Lemma get_array2_Ok x ns X : get_array2 x ns = Ok X -> ns !! x = Some (VArray2 X).
Proof. get_inv get_array2. Qed.
Lemma get_range_Ok x ns r : get_range x ns = Ok r -> ns !! x = Some (VRange r).
Proof. get_inv get_range. Qed.
Lemma get_model_Ok x ns m : get_model x ns = Ok m -> ns !! x = Some (VModel m).
Proof. get_inv get_model. Qed.
Lemma get_history_Ok x ns h : get_history x ns = Ok h -> ns !! x = Some (VHistory h).
Proof. get_inv get_history. Qed.
Lemma get_frame_Ok x ns f : get_frame x ns = Ok f -> ns !! x = Some (VFrame f).
Proof. get_inv get_frame. Qed.
Lemma get_figure_Ok x ns f : get_figure x ns = Ok f -> ns !! x = Some (VFigure f).
Proof. get_inv get_figure. Qed.
Lemma get_axes_Ok x ns i : get_axes x ns = Ok i -> ns !! x = Some (VAxes i).
Proof. get_inv get_axes. Qed.

Lemma get_array1_lookup x ns a : ns !! x = Some (VArray1 a) -> get_array1 x ns = Ok a.
Proof. intros H. unfold get_array1, get. rewrite H. reflexivity. Qed.

Lemma get_array2_lookup x ns X : ns !! x = Some (VArray2 X) -> get_array2 x ns = Ok X.
Proof. intros H. unfold get_array2, get. rewrite H. reflexivity. Qed.

(** Lookups in a namespace written as a chain of bindings. *)
Ltac ns_lookup :=
  repeat first
    [ rewrite lookup_insert_eq
    | rewrite lookup_insert_ne by discriminate
    | rewrite lookup_empty ].

Ltac ns_lookup_in H :=
  repeat first
    [ rewrite lookup_insert_eq in H
    | rewrite lookup_insert_ne in H by discriminate
    | rewrite lookup_empty in H ].

(** The first statement of a run that returned. *)
Ltac exec_step H Hs :=
  let ns' := fresh "ns" in
  apply exec_cons_Ok in H as (ns' & Hs & H).

Ltac import_step H :=
  let Hs := fresh "Hs" in let Hi := fresh "Hinst" in
  exec_step H Hs; apply import_Ok in Hs as [Hi ->]; cbn [foldr] in H.

Ltac some_inj H := apply (inj Some) in H.

(** * What the library calls return *)

Section LibraryLemmas.

(** The sizes for the 442 samples of the diabetes dataset: 45 test rows,
    397 training rows, of which [fit] trains on 337 and holds out 60. *)
Example n_test_diabetes : sklearn.n_test 0.1 442 = 45%nat.
Proof. reflexivity. Qed.

Example split_at_diabetes :
  Z.to_nat (Qfloor (inject_Z (Z.of_nat 397) * (1 - 0.15))) = 337%nat.
Proof. reflexivity. Qed.

Lemma epoch_logs_is_Some names (tv vv : string -> float64) k :
  is_Some (keras.epoch_logs names tv vv !! k) <->
  k ∈ names ++ ((fun k => "val_" +:+ k) <$> names).
Proof.
  unfold keras.epoch_logs. rewrite lookup_union_is_Some, elem_of_app.
  assert (Hkeys : forall (g : string -> string) (f : string -> float64),
            is_Some ((list_to_map ((fun k => (g k, f k)) <$> names) : gmap string float64) !! k)
            <-> k ∈ g <$> names).
  { intros g f. rewrite <- not_eq_None_Some, <- not_elem_of_list_to_map.
    rewrite <- list_fmap_compose.
    split; [apply dec_stable|intros H Hn; exact (Hn H)]. }
  rewrite (Hkeys (fun k => k) tv), (Hkeys (fun k => "val_" +:+ k) vv).
  rewrite list_fmap_id. reflexivity.
Qed.

Lemma append_logs_lookup h logs k :
  keras.append_logs h logs !! k =
  match logs !! k with
  | Some v => Some (default [] (h !! k) ++ [v])
  | None => h !! k
  end.
Proof.
  unfold keras.append_logs. rewrite lookup_merge.
  destruct (h !! k), (logs !! k); reflexivity.
Qed.

(** Every epoch of the loop adds one value to each logged series and
    leaves every other name alone. *)
Lemma fit_loop_history L ls c x y xv yv bs n :
  forall e w h w' h',
    keras.fit_loop L ls c x y xv yv bs n e w h = Ok (w', h') ->
    forall k,
      (k ∈ keras.log_keys c ->
         length (default [] (h' !! k)) = (length (default [] (h !! k)) + n)%nat /\
         ((0 < n)%nat -> is_Some (h' !! k))) /\
      (k ∉ keras.log_keys c -> h' !! k = h !! k).
Proof.
  induction n as [|n IH]; intros e w h w' h' Hloop k.
  - simpl in Hloop. injection Hloop as <- <-.
    split; [intros _; split; [lia|lia]|reflexivity].
  - simpl in Hloop.
    apply bind_Ok in Hloop as ([w1 tv] & _ & Hloop).
    specialize (IH _ _ _ _ _ Hloop k). destruct IH as [IHin IHout].
    pose proof (epoch_logs_is_Some (keras.log_names c) tv
                  (evaluate L ls c w1 xv yv) k) as Hlogs.
    fold (keras.log_keys c) in Hlogs.
    rewrite append_logs_lookup in IHin, IHout.
    split.
    + intros Hk. destruct (IHin Hk) as [Hlen Hsome].
      apply Hlogs in Hk as [v Hv]. rewrite Hv in Hlen. simpl in Hlen.
      rewrite length_app in Hlen. simpl in Hlen.
      split; [lia|]. intros _.
      destruct n as [|n]; [|apply Hsome; lia].
      simpl in Hloop. injection Hloop as _ <-.
      rewrite append_logs_lookup, Hv. eauto.
    + intros Hk. rewrite (IHout Hk).
      destruct (keras.epoch_logs _ _ _ !! k) eqn:Hv; [|reflexivity].
      exfalso. apply Hk, Hlogs. eauto.
Qed.

(** What a call of [fit] that returns has done. *)
Lemma fit_Ok L m x y n vs bs m' h :
  keras.fit L m x y n vs bs = Ok (m', h) ->
  exists c train val,
    compiled m = Some c /\
    length y = length (rows x) /\
    keras.input_compatible m x = true /\
    keras.train_validation_split x y vs = Ok (train, val) /\
    layers m' = layers m /\ compiled m' = Some c /\
    epoch h = seq 0 n /\
    (forall k, k ∈ keras.log_keys c ->
       length (default [] (history h !! k)) = n /\ ((0 < n)%nat -> is_Some (history h !! k))) /\
    (forall k, k ∉ keras.log_keys c -> history h !! k = None).
Proof.
  unfold keras.fit. destruct (compiled m) as [c|]; [|discriminate].
  intros ([[x_train y_train] [x_val y_val]] & Hsplit & H)%bind_Ok.
  destruct (decide (length y = length (rows x))) as [Hlen|]; [|discriminate].
  destruct (keras.input_compatible m x); [|discriminate].
  apply bind_Ok in H as ([w h1] & Hloop & H). injection H as <- <-.
  exists c, (x_train, y_train), (x_val, y_val). simpl.
  repeat (split; [done|]).
  split; intros k Hk; destruct (fit_loop_history _ _ _ _ _ _ _ _ _ _ _ _ _ _ Hloop k)
    as [Hin Hout].
  - destruct (Hin Hk) as [Hl Hs]. rewrite lookup_empty in Hl. simpl in Hl. auto.
  - rewrite (Hout Hk). apply lookup_empty.
Qed.

(** The training loop of a call of [fit] that returns runs on the two
    parts of the hold-out: it trains on the first and evaluates on the
    second. *)
Lemma fit_loop_of_fit L m x y n vs bs m' h :
  keras.fit L m x y n vs bs = Ok (m', h) ->
  exists c train val w,
    compiled m = Some c /\
    keras.train_validation_split x y vs = Ok (train, val) /\
    keras.fit_loop L (layers m) c (fst train) (snd train) (fst val) (snd val) bs n 0
      (default (initial_weights L (layers m)) (weights m)) ∅ = Ok (w, history h).
Proof.
  unfold keras.fit. destruct (compiled m) as [c|]; [|discriminate].
  intros ([[x_train y_train] [x_val y_val]] & Hsplit & H)%bind_Ok.
  destruct (decide (length y = length (rows x))) as [Hlen|]; [|discriminate].
  destruct (keras.input_compatible m x); [|discriminate].
  apply bind_Ok in H as ([w h1] & Hloop & H). injection H as <- <-.
  exists c, (x_train, y_train), (x_val, y_val), w. auto.
Qed.

Lemma split_at_le (n : nat) (vs : Q) :
  (0 <= vs)%Q ->
  (Z.to_nat (Qfloor (inject_Z (Z.of_nat n) * (1 - vs))) <= n)%nat.
Proof.
  intros Hvs.
  assert (Hq : (inject_Z (Z.of_nat n) * (1 - vs) <= inject_Z (Z.of_nat n))%Q).
  { assert (0 <= inject_Z (Z.of_nat n))%Q as Hn.
    { change 0%Q with (inject_Z 0). rewrite <- Zle_Qle. lia. }
    nra. }
  apply Qfloor_resp_le in Hq. rewrite Qfloor_Z in Hq. lia.
Qed.

(** The hold-out keeps every row: the training part and the validation
    part are the rows before and from the split point, neither empty. *)
Lemma train_validation_split_Ok x y vs train val :
  (0 <= vs)%Q ->
  keras.train_validation_split x y vs = Ok (train, val) ->
  rows (fst train) ++ rows (fst val) = rows x /\
  snd train ++ snd val = y /\
  rows (fst train) <> [] /\ rows (fst val) <> [] /\
  ncols (fst train) = ncols x /\ ncols (fst val) = ncols x.
Proof.
  intros Hvs. unfold keras.train_validation_split.
  pose proof (split_at_le (length (rows x)) vs Hvs) as Hle.
  set (k := Z.to_nat _) in *. destruct (decide _) as [|Hk]; [discriminate|].
  intros [= <- <-]. simpl. rewrite !take_drop.
  repeat split; try reflexivity.
  - intros Ht. apply Hk. left.
    apply (f_equal length) in Ht. rewrite length_take in Ht. simpl in Ht. lia.
  - intros Hd. apply Hk. right.
    apply (f_equal length) in Hd. rewrite length_drop in Hd. simpl in Hd. lia.
Qed.

(** Indexing returns entries of the array, one for each position. *)
Lemma safe_indexing_Ok {A} (a : list A) idx xs :
  sklearn.safe_indexing a idx = Ok xs -> Forall2 (fun i x => a !! i = Some x) idx xs.
Proof.
  revert xs. induction idx as [|i idx IH]; intros xs; simpl.
  - intros <-%Ok_inj. constructor.
  - destruct (a !! i) as [x|] eqn:Hx; [|discriminate].
    intros (xs' & Hxs & <-%Ok_inj)%bind_Ok. constructor; auto.
Qed.

Lemma safe_indexing_Forall {A} (P : A -> Prop) (a : list A) idx xs :
  sklearn.safe_indexing a idx = Ok xs -> Forall P a -> Forall P xs.
Proof.
  intros H%safe_indexing_Ok Ha. rewrite Forall_forall in Ha.
  induction H as [|i x idx xs Hx _ IH]; constructor; [|exact IH].
  apply Ha. eapply list_elem_of_lookup_2, Hx.
Qed.

Lemma safe_indexing_map (f : float64 -> float64) t idx :
  sklearn.safe_indexing (map f t) idx = (map f) <$> sklearn.safe_indexing t idx.
Proof.
  induction idx as [|i idx IH]; [reflexivity|]. simpl.
  change (map f t) with (f <$> t) at 1. rewrite list_lookup_fmap.
  destruct (t !! i) as [x|]; simpl; [|reflexivity].
  rewrite IH. destruct (sklearn.safe_indexing t idx); reflexivity.
Qed.


Lemma safe_indexing_elem (t : list float64) idx xs i a :
  sklearn.safe_indexing t idx = Ok xs -> i ∈ idx -> t !! i = Some a -> a ∈ xs.
Proof.
  intros H%safe_indexing_Ok Hi Ha.
  induction H as [|j x idx xs Hx _ IH]; [by apply elem_of_nil in Hi|].
  apply elem_of_cons in Hi as [->|Hi]; [|right; auto].
  rewrite Ha in Hx. injection Hx as ->. left.
Qed.


(** What a split that returns has returned. *)
Lemma train_test_split_Ok perm X y test_size X_train X_test y_train y_test :
  sklearn.train_test_split perm X y test_size = Ok (X_train, X_test, y_train, y_test) ->
  let n_test := sklearn.n_test test_size (length (rows X)) in
  let n_train := (length (rows X) - n_test)%nat in
  length y = length (rows X) /\ n_train <> 0%nat /\
  ncols X_train = ncols X /\ ncols X_test = ncols X /\
  sklearn.safe_indexing (rows X) (sklearn.ind_train perm n_test n_train) = Ok (rows X_train) /\
  sklearn.safe_indexing (rows X) (sklearn.ind_test perm n_test) = Ok (rows X_test) /\
  sklearn.safe_indexing y (sklearn.ind_train perm n_test n_train) = Ok y_train /\
  sklearn.safe_indexing y (sklearn.ind_test perm n_test) = Ok y_test.
Proof.
  unfold sklearn.train_test_split.
  destruct (decide (length y = length (rows X))) as [Hlen|]; [|discriminate].
  destruct (decide _) as [|Hn]; [discriminate|].
  intros (r1 & H1 & H)%bind_Ok. apply bind_Ok in H as (r2 & H2 & H).
  apply bind_Ok in H as (r3 & H3 & H). apply bind_Ok in H as (r4 & H4 & H).
  injection H as <- <- <- <-. simpl. auto 10.
Qed.

(** A frame made from a dict has the dict's lists as columns, all of the
    length of the frame. *)
Lemma DataFrame_Ok d f :
  pd.DataFrame d = Ok f ->
  columns f = d /\ forall k col, d !! k = Some col -> length col = index f.
Proof.
  unfold pd.DataFrame. destruct ((map_to_list d).*2) as [|col0 cols] eqn:Hl.
  - intros <-%Ok_inj. split; [reflexivity|]. intros k col Hk.
    apply fmap_nil_inv in Hl. apply map_to_list_empty_iff in Hl. subst d.
    rewrite lookup_empty in Hk. discriminate Hk.
  - destruct (decide _) as [Hall|]; [|discriminate].
    intros <-%Ok_inj. split; [reflexivity|]. intros k col Hk. simpl.
    apply elem_of_map_to_list in Hk.
    apply (list_elem_of_fmap_2 snd) in Hk. rewrite Hl in Hk. simpl in Hk.
    apply elem_of_cons in Hk as [->|Hk]; [reflexivity|].
    rewrite Forall_forall in Hall. apply Hall, Hk.
Qed.

End LibraryLemmas.

(** * What the cells do *)

Section CellLemmas.

Variable L : Library.

(** The cells that load the dataset and save its two arrays. *)
Lemma run_load_Ok ns :
  run_cells L [ImportTensorflow; LoadDataset; SaveVariables] ∅ = Ok ns ->
  exists b, load_diabetes L = Ok b /\
    ns = <["targets" := VArray1 (bunch_target b)]>
         (<["data" := VArray2 (bunch_data b)]>
          (<["train_test_split" := VImported "sklearn.model_selection"]>
           (<["diabetes_dataset" := VBunch b]>
            (<["load_diabetes" := VImported "sklearn.datasets"]>
             (<["tf" := VImported "tensorflow"]> ∅))))).
Proof.
  unfold run_cells, statements.
  cbn [fmap list_fmap cell_source concat app]. intros H.
  import_step H.
  exec_step H Hs. apply expression_Ok in Hs as [_ ->].
  import_step H.
  exec_step H Hs. apply assign_Ok in Hs as (v & Hv & ->).
  apply bind_Ok in Hv as (_ & _ & Hv). apply bind_Ok in Hv as (b & Hb & <-%Ok_inj).
  import_step H.
  exec_step H Hs. apply assign_Ok in Hs as (v & Hv & ->).
  apply bind_Ok in Hv as (b' & Hb'%get_bunch_Ok & Hv).
  ns_lookup_in Hb'. some_inj Hb'. injection Hb' as <-.
  apply Ok_inj in Hv as <-.
  exec_step H Hs. apply assign_Ok in Hs as (v & Hv & ->).
  apply bind_Ok in Hv as (b' & Hb'%get_bunch_Ok & Hv).
  ns_lookup_in Hb'. some_inj Hb'. injection Hb' as <-.
  apply Ok_inj in Hv as <-.
  apply exec_nil_Ok in H as ->. eauto.
Qed.

(** The normalisation cell. *)
Lemma run_normalise_Ok ns0 ns :
  run_cells L [NormaliseTargets] ns0 = Ok ns ->
  exists t t', ns0 !! "targets" = Some (VArray1 t) /\ normalise t = t' /\
    ns = <["targets" := VArray1 t']> ns0.
Proof.
  unfold run_cells, statements.
  cbn [fmap list_fmap cell_source concat app]. intros H.
  exec_step H Hs. apply assign_Ok in Hs as (v & Hv & ->).
  apply bind_Ok in Hv as (t & Ht%get_array1_Ok & <-%Ok_inj).
  apply exec_nil_Ok in H as ->. eauto.
Qed.

Lemma run_normalise ns0 t :
  ns0 !! "targets" = Some (VArray1 t) ->
  run_cells L [NormaliseTargets] ns0 = Ok (<["targets" := VArray1 (normalise t)]> ns0).
Proof.
  intros Hl. unfold run_cells, statements. cbn [fmap list_fmap cell_source concat app exec].
  unfold assign, get_array1, get. rewrite Hl. reflexivity.
Qed.

(** The split cell. *)
Lemma run_split_Ok ns0 ns :
  run_cells L [SplitDataset] ns0 = Ok ns ->
  exists X y X_train X_test y_train y_test,
    ns0 !! "data" = Some (VArray2 X) /\ ns0 !! "targets" = Some (VArray1 y) /\
    sklearn.train_test_split (permutation L (length (rows X))) X y 0.1
      = Ok (X_train, X_test, y_train, y_test) /\
    ns = <["test_targets" := VArray1 y_test]>
         (<["train_targets" := VArray1 y_train]>
          (<["test_data" := VArray2 X_test]>
           (<["train_data" := VArray2 X_train]> ns0))).
Proof.
  unfold run_cells, statements.
  cbn [fmap list_fmap cell_source concat app]. intros H.
  exec_step H Hs. unfold split_dataset in Hs.
  apply bind_Ok in Hs as (_ & _ & Hs).
  apply bind_Ok in Hs as (X & HX%get_array2_Ok & Hs).
  apply bind_Ok in Hs as (y & Hy%get_array1_Ok & Hs).
  apply bind_Ok in Hs as ([[[X_train X_test] y_train] y_test] & Hsplit & <-%Ok_inj).
  apply exec_nil_Ok in H as ->.
  exists X, y, X_train, X_test, y_train, y_test. auto.
Qed.

(** The cells that build and compile the model. *)
Lemma run_build_Ok ns0 ns :
  run_cells L [ImportLayers; BuildModel; PrintSummary; AddBatchNorm; AddOutputLayer;
               CompileModel] ns0 = Ok ns ->
  exists X m,
    ns0 !! "train_data" = Some (VArray2 X) /\
    layers m = [Dense 64 (Some [ncols X]) relu;
                BatchNormalization batch_norm_defaults; Dropout 0.5;
                BatchNormalization batch_norm_defaults; Dropout 0.5;
                Dense 256 None relu;
                BatchNormalization custom_batch_norm;
                Dense 1 None linear] /\
    compiled m = Some {| optimizer := "adam"; loss := "mse"; metrics := ["mae"] |} /\
    weights m = None /\
    ns !! "model" = Some (VModel m) /\
    forall k, k ∉ ["model"; "Sequential"; "Flatten"; "Dense"; "Conv2D"; "MaxPooling2D";
                   "BatchNormalization"; "Dropout"] -> ns !! k = ns0 !! k.
Proof.
  unfold run_cells, statements.
  cbn [fmap list_fmap cell_source concat app]. intros H.
  import_step H. import_step H.
  exec_step H Hs. apply assign_Ok in Hs as (v & Hv & ->).
  apply bind_Ok in Hv as (_ & _ & Hv). apply bind_Ok in Hv as (_ & _ & Hv).
  apply bind_Ok in Hv as (X & HX%get_array2_Ok & Hv). ns_lookup_in HX.
  apply bind_Ok in Hv as (_ & _ & Hv). apply bind_Ok in Hv as (_ & _ & <-%Ok_inj).
  exec_step H Hs. apply expression_Ok in Hs as [_ ->].
  exec_step H Hs. apply assign_Ok in Hs as (v & Hv & ->).
  apply bind_Ok in Hv as (m1 & Hm1%get_model_Ok & Hv).
  ns_lookup_in Hm1. some_inj Hm1. injection Hm1 as <-.
  apply bind_Ok in Hv as (_ & _ & <-%Ok_inj).
  exec_step H Hs. apply assign_Ok in Hs as (v & Hv & ->).
  apply bind_Ok in Hv as (m2 & Hm2%get_model_Ok & Hv).
  ns_lookup_in Hm2. some_inj Hm2. injection Hm2 as <-.
  apply bind_Ok in Hv as (_ & _ & <-%Ok_inj).
  exec_step H Hs. apply assign_Ok in Hs as (v & Hv & ->).
  apply bind_Ok in Hv as (m3 & Hm3%get_model_Ok & Hv).
  ns_lookup_in Hm3. some_inj Hm3. injection Hm3 as <-.
  apply Ok_inj in Hv as <-.
  apply exec_nil_Ok in H as ->.
  eexists X, _. split; [exact HX|].
  assert (forall A B C D E : Prop, D -> (D -> A /\ B /\ C) -> E -> A /\ B /\ C /\ D /\ E)
    as Hand by tauto.
  apply Hand; clear Hand.
  - ns_lookup. reflexivity.
  - intros _. split; [reflexivity|]. split; reflexivity.
  - intros k Hk. rewrite !not_elem_of_cons in Hk.
    destruct Hk as (? & ? & ? & ? & ? & ? & ? & ? & _).
    rewrite !lookup_insert_ne by congruence. reflexivity.
Qed.

(** The training cell. *)
Lemma run_train_Ok ns0 ns :
  run_cells L [TrainModel] ns0 = Ok ns ->
  exists m X y m' h,
    ns0 !! "model" = Some (VModel m) /\
    ns0 !! "train_data" = Some (VArray2 X) /\
    ns0 !! "train_targets" = Some (VArray1 y) /\
    keras.fit L m X y 100 0.15 64 = Ok (m', h) /\
    ns = <["history" := VHistory h]> (<["model" := VModel m']> ns0).
Proof.
  unfold run_cells, statements.
  cbn [fmap list_fmap cell_source concat app]. intros H.
  exec_step H Hs. unfold train_model in Hs.
  apply bind_Ok in Hs as (m & Hm%get_model_Ok & Hs).
  apply bind_Ok in Hs as (X & HX%get_array2_Ok & Hs).
  apply bind_Ok in Hs as (y & Hy%get_array1_Ok & Hs).
  apply bind_Ok in Hs as ([m' h] & Hfit & <-%Ok_inj).
  apply exec_nil_Ok in H as ->.
  exists m, X, y, m', h. auto.
Qed.

(** An exception of the loader, of the split or of the fit is the outcome
    of the cell that makes the call. *)
Lemma run_load_raises ns e :
  installed L "sklearn.datasets" = true ->
  load_diabetes L = Raise e ->
  run_cells L [LoadDataset] ns = Raise e.
Proof.
  intros Hinst Hload. unfold run_cells, statements. simpl.
  unfold import. rewrite Hinst. simpl.
  unfold assign, get_imported, get. ns_lookup. simpl. rewrite Hload. reflexivity.
Qed.

Lemma run_split_raises ns q X y e :
  ns !! "train_test_split" = Some (VImported q) ->
  ns !! "data" = Some (VArray2 X) ->
  ns !! "targets" = Some (VArray1 y) ->
  sklearn.train_test_split (permutation L (length (rows X))) X y 0.1 = Raise e ->
  run_cells L [SplitDataset] ns = Raise e.
Proof.
  intros Hq HX Hy Hsplit. unfold run_cells, statements. simpl.
  unfold split_dataset, get_imported, get_array2, get_array1, get.
  rewrite Hq, HX, Hy. simpl. rewrite Hsplit. reflexivity.
Qed.

Lemma run_train_raises ns m X y e :
  ns !! "model" = Some (VModel m) ->
  ns !! "train_data" = Some (VArray2 X) ->
  ns !! "train_targets" = Some (VArray1 y) ->
  keras.fit L m X y 100 0.15 64 = Raise e ->
  run_cells L [TrainModel] ns = Raise e.
Proof.
  intros Hm HX Hy Hfit. unfold run_cells, statements. simpl.
  unfold train_model, get_model, get_array2, get_array1, get.
  rewrite Hm, HX, Hy. simpl. rewrite Hfit. reflexivity.
Qed.

Lemma add_subplot_Ok pos ns ns' :
  add_subplot pos ns = Ok ns' ->
  exists f, ns !! "fig" = Some (VFigure f) /\
    ns' = <["ax" := VAxes (length (axes f))]>
          (<["fig" := VFigure (fst (plt.add_subplot f pos))]> ns).
Proof.
  unfold add_subplot. intros (f & Hf%get_figure_Ok & H)%bind_Ok.
  simpl in H. apply Ok_inj in H as <-. eauto.
Qed.

Lemma axes_call_Ok method ns ns' :
  axes_call method ns = Ok ns' ->
  exists i f a a',
    ns !! "ax" = Some (VAxes i) /\ ns !! "fig" = Some (VFigure f) /\
    axes f !! i = Some a /\ method ns a = Ok a' /\
    ns' = <["fig" := VFigure {| figsize := figsize f; axes := <[i := a']> (axes f) |}]> ns.
Proof.
  unfold axes_call. intros (i & Hi%get_axes_Ok & H)%bind_Ok.
  apply bind_Ok in H as (f & Hf%get_figure_Ok & H).
  apply bind_Ok in H as (f' & Hon & <-%Ok_inj).
  unfold plt.on_axes in Hon. destruct (axes f !! i) as [a|] eqn:Ha; [|discriminate].
  apply bind_Ok in Hon as (a' & Hm & <-%Ok_inj).
  exists i, f, a, a'. auto.
Qed.

Lemma plot_column_Ok key lbl ns ns' :
  plot_column key lbl ns = Ok ns' ->
  exists i f a fr x y,
    ns !! "ax" = Some (VAxes i) /\ ns !! "fig" = Some (VFigure f) /\
    axes f !! i = Some a /\
    ns !! "epochs" = Some (VRange x) /\ ns !! "frame" = Some (VFrame fr) /\
    columns fr !! key = Some y /\ length x = length y /\
    ns' = <["fig" := VFigure
              {| figsize := figsize f;
                 axes := <[i := {| position := position a;
                                   lines := lines a ++ [{| xdata := x; ydata := y; label := lbl |}];
                                   xlabel := xlabel a; ylabel := ylabel a; title := title a;
                                   legend := legend a |}]> (axes f) |}]> ns.
Proof.
  unfold plot_column. intros (i & f & a & a' & Hi & Hf & Ha & Hm & ->)%axes_call_Ok.
  apply bind_Ok in Hm as (x & Hx%get_range_Ok & Hm).
  apply bind_Ok in Hm as (fr & Hfr%get_frame_Ok & Hm).
  apply bind_Ok in Hm as (y & Hy & Hm).
  unfold pd.getitem in Hy. destruct (columns fr !! key) as [col|] eqn:Hcol; [|discriminate].
  apply Ok_inj in Hy as ->.
  unfold plt.plot in Hm. destruct (decide (length x = length y)) as [Hlen|]; [|discriminate].
  apply Ok_inj in Hm as <-.
  exists i, f, a, fr, x, y. auto 10.
Qed.

Ltac axes_step H :=
  let Hs := fresh "Hs" in
  let i := fresh "i" in let f := fresh "f" in
  let a := fresh "a" in let a' := fresh "a'" in
  let Hi := fresh "Hi" in let Hf := fresh "Hf" in
  let Ha := fresh "Ha" in let Hm := fresh "Hm" in
  exec_step H Hs;
  apply axes_call_Ok in Hs as (i & f & a & a' & Hi & Hf & Ha & Hm & ->);
  ns_lookup_in Hi; ns_lookup_in Hf; some_inj Hi; some_inj Hf;
  injection Hi as <-; injection Hf as <-;
  cbn in Ha; some_inj Ha; subst a; apply Ok_inj in Hm; subst a';
  cbn [figsize axes plt.set_xlabel plt.set_ylabel plt.set_title plt.show_legend
       position lines xlabel ylabel title legend length app list_insert insert] in H;
  rewrite ?insert_insert_eq in H.

Tactic Notation "plot_step" hyp(H) ident(y) ident(Hy) ident(Hlen) :=
  let Hs := fresh "Hs" in
  let i := fresh "i" in let f := fresh "f" in
  let a := fresh "a" in let fr := fresh "fr" in let x := fresh "x" in
  let Hi := fresh "Hi" in let Hf := fresh "Hf" in
  let Ha := fresh "Ha" in let Hx := fresh "Hx" in let Hfr := fresh "Hfr" in
  exec_step H Hs;
  apply plot_column_Ok in Hs as (i & f & a & fr & x & y & Hi & Hf & Ha & Hx & Hfr & Hy & Hlen & ->);
  ns_lookup_in Hi; ns_lookup_in Hf; ns_lookup_in Hx; ns_lookup_in Hfr;
  some_inj Hi; some_inj Hf; some_inj Hx; some_inj Hfr;
  injection Hi as <-; injection Hf as <-; injection Hx as <-; injection Hfr as <-;
  cbn in Ha; some_inj Ha; subst a;
  cbn [figsize axes position lines xlabel ylabel title legend length app list_insert insert] in H;
  rewrite ?insert_insert_eq in H.

(** The plotting cell. *)
Lemma run_plot_Ok ns0 ns :
  run_cells L [PlotCurves] ns0 = Ok ns ->
  exists h f loss val_loss mae val_mae,
    ns0 !! "history" = Some (VHistory h) /\
    pd.DataFrame (history h) = Ok f /\
    columns f !! "loss" = Some loss /\ columns f !! "val_loss" = Some val_loss /\
    columns f !! "mae" = Some mae /\ columns f !! "val_mae" = Some val_mae /\
    ns !! "frame" = Some (VFrame f) /\
    ns !! "epochs" = Some (VRange (np.arange (pd.len f))) /\
    ns !! "fig" = Some (VFigure
      {| figsize := (12, 4)%nat;
         axes :=
           [ {| position := 121;
                lines := [ {| xdata := np.arange (pd.len f); ydata := loss; label := "Train" |};
                           {| xdata := np.arange (pd.len f); ydata := val_loss;
                              label := "Validation" |} ];
                xlabel := "Epochs"; ylabel := "Loss"; title := "Loss vs Epochs";
                legend := true |};
             {| position := 122;
                lines := [ {| xdata := np.arange (pd.len f); ydata := mae; label := "Train" |};
                           {| xdata := np.arange (pd.len f); ydata := val_mae;
                              label := "Validation" |} ];
                xlabel := "Epochs"; ylabel := "Mean Absolute Error";
                title := "Mean Absolute Error vs Epochs"; legend := true |} ] |}) /\
    forall k, k ∉ ["pd"; "np"; "plt"; "frame"; "epochs"; "fig"; "ax"] -> ns !! k = ns0 !! k.
Proof.
  unfold run_cells, statements.
  cbn [fmap list_fmap cell_source concat app]. intros H.
  import_step H. import_step H. import_step H.
  exec_step H Hs. apply assign_Ok in Hs as (v & Hv & ->).
  apply bind_Ok in Hv as (_ & _ & Hv).
  apply bind_Ok in Hv as (h & Hh%get_history_Ok & Hv). ns_lookup_in Hh.
  apply bind_Ok in Hv as (f & Hf & <-%Ok_inj).
  exec_step H Hs. apply assign_Ok in Hs as (v & Hv & ->).
  apply bind_Ok in Hv as (_ & _ & Hv).
  apply bind_Ok in Hv as (f' & Hf'%get_frame_Ok & <-%Ok_inj).
  ns_lookup_in Hf'. some_inj Hf'. injection Hf' as <-.
  exec_step H Hs. apply assign_Ok in Hs as (v & Hv & ->).
  apply bind_Ok in Hv as (_ & _ & <-%Ok_inj).
  exec_step H Hs. apply add_subplot_Ok in Hs as (fg & Hfg & ->).
  ns_lookup_in Hfg. some_inj Hfg. injection Hfg as <-.
  cbn [plt.figure plt.add_subplot fst figsize axes length app] in H.
  plot_step H loss Hloss Hlen1.
  plot_step H val_loss Hval_loss Hlen2.
  axes_step H. axes_step H. axes_step H. axes_step H.
  exec_step H Hs. apply add_subplot_Ok in Hs as (fg & Hfg & ->).
  ns_lookup_in Hfg. some_inj Hfg. injection Hfg as <-.
  cbn [plt.figure plt.add_subplot fst figsize axes length app] in H.
  plot_step H mae Hmae Hlen3.
  plot_step H val_mae Hval_mae Hlen4.
  axes_step H. axes_step H. axes_step H. axes_step H.
  apply exec_nil_Ok in H as ->.
  exists h, f, loss, val_loss, mae, val_mae.
  repeat (split; [first [assumption | ns_lookup; reflexivity]|]).
  intros k Hk. rewrite !not_elem_of_cons in Hk.
  destruct Hk as (? & ? & ? & ? & ? & ? & ? & _).
  rewrite !lookup_insert_ne by congruence. reflexivity.
Qed.

End CellLemmas.

(** A name that is not among some listed names. *)
Ltac notin :=
  rewrite ?not_elem_of_cons; repeat split; try discriminate; apply not_elem_of_nil.

(** ** The shape of a run *)

(** Every run that gets through the compile cell loaded a dataset,
    normalised its targets, split the result, and built and compiled the
    model on the training part. *)
Lemma run_to_compile_Ok L ns :
  run_cells L (take 11 notebook) ∅ = Ok ns ->
  exists b t' X_train X_test y_train y_test m,
    load_diabetes L = Ok b /\
    normalise (bunch_target b) = t' /\
    sklearn.train_test_split (permutation L (length (rows (bunch_data b))))
      (bunch_data b) t' 0.1 = Ok (X_train, X_test, y_train, y_test) /\
    layers m = [Dense 64 (Some [ncols X_train]) relu;
                BatchNormalization batch_norm_defaults; Dropout 0.5;
                BatchNormalization batch_norm_defaults; Dropout 0.5;
                Dense 256 None relu;
                BatchNormalization custom_batch_norm;
                Dense 1 None linear] /\
    compiled m = Some {| optimizer := "adam"; loss := "mse"; metrics := ["mae"] |} /\
    ns !! "targets" = Some (VArray1 t') /\
    ns !! "train_data" = Some (VArray2 X_train) /\
    ns !! "test_data" = Some (VArray2 X_test) /\
    ns !! "train_targets" = Some (VArray1 y_train) /\
    ns !! "test_targets" = Some (VArray1 y_test) /\
    ns !! "model" = Some (VModel m) /\
    ns !! "history" = None.
Proof.
  change (take 11 notebook)
    with ([ImportTensorflow; LoadDataset; SaveVariables] ++ [NormaliseTargets] ++
          [SplitDataset] ++
          [ImportLayers; BuildModel; PrintSummary; AddBatchNorm; AddOutputLayer;
           CompileModel]).
  intros H.
  apply run_cells_app_Ok in H as (ns1 & H1 & H).
  apply run_cells_app_Ok in H as (ns2 & H2 & H).
  apply run_cells_app_Ok in H as (ns3 & H3 & H4).
  apply run_load_Ok in H1 as (b & Hb & ->).
  apply run_normalise_Ok in H2 as (t & t' & Ht & Hnorm & ->).
  ns_lookup_in Ht. some_inj Ht. injection Ht as <-.
  apply run_split_Ok in H3 as (X & y & X_train & X_test & y_train & y_test & HX & Hy & Hsplit & ->).
  ns_lookup_in HX. ns_lookup_in Hy. some_inj HX. some_inj Hy.
  injection HX as <-. injection Hy as <-.
  apply run_build_Ok in H4 as (X & m & HX & Hlayers & Hcompiled & _ & Hm & Hframe).
  ns_lookup_in HX. some_inj HX. injection HX as <-.
  exists b, t', X_train, X_test, y_train, y_test, m.
  repeat (split; [assumption|]).
  rewrite Hm, !Hframe by notin. ns_lookup. done.
Qed.

(** Every run that gets through the training cell has, after that, fitted
    the compiled model on the training part. *)
Lemma run_to_train_Ok L ns :
  run_cells L (take 12 notebook) ∅ = Ok ns ->
  exists b t' X_train X_test y_train y_test m m' h,
    load_diabetes L = Ok b /\
    normalise (bunch_target b) = t' /\
    sklearn.train_test_split (permutation L (length (rows (bunch_data b))))
      (bunch_data b) t' 0.1 = Ok (X_train, X_test, y_train, y_test) /\
    layers m = [Dense 64 (Some [ncols X_train]) relu;
                BatchNormalization batch_norm_defaults; Dropout 0.5;
                BatchNormalization batch_norm_defaults; Dropout 0.5;
                Dense 256 None relu;
                BatchNormalization custom_batch_norm;
                Dense 1 None linear] /\
    compiled m = Some {| optimizer := "adam"; loss := "mse"; metrics := ["mae"] |} /\
    keras.fit L m X_train y_train 100 0.15 64 = Ok (m', h) /\
    ns !! "targets" = Some (VArray1 t') /\
    ns !! "train_data" = Some (VArray2 X_train) /\
    ns !! "test_data" = Some (VArray2 X_test) /\
    ns !! "train_targets" = Some (VArray1 y_train) /\
    ns !! "test_targets" = Some (VArray1 y_test) /\
    ns !! "model" = Some (VModel m') /\
    ns !! "history" = Some (VHistory h).
Proof.
  change (take 12 notebook) with (take 11 notebook ++ [TrainModel]).
  intros (ns' & H & H5)%run_cells_app_Ok.
  apply run_to_compile_Ok in H
    as (b & t' & X_train & X_test & y_train & y_test & m & Hb & Hnorm & Hsplit & Hlayers &
        Hcompiled & Ht & HX & HXt & Hy & Hyt & Hm & _).
  apply run_train_Ok in H5 as (m0 & X & y & m' & h & Hm0 & HX0 & Hy0 & Hfit & ->).
  rewrite Hm in Hm0. some_inj Hm0. injection Hm0 as <-.
  rewrite HX in HX0. some_inj HX0. injection HX0 as <-.
  rewrite Hy in Hy0. some_inj Hy0. injection Hy0 as <-.
  exists b, t', X_train, X_test, y_train, y_test, m, m', h.
  repeat (split; [assumption|]).
  ns_lookup. done.
Qed.

Lemma run_notebook_Ok L ns :
  run_notebook L = Ok ns ->
  exists ns', run_cells L (take 12 notebook) ∅ = Ok ns' /\
    run_cells L [PlotCurves] ns' = Ok ns.
Proof.
  unfold run_notebook.
  change notebook with (take 12 notebook ++ [PlotCurves]) at 1.
  apply run_cells_app_Ok.
Qed.

(** * Names a statement leaves alone *)

Section Frame.

Variable L : Library.
Variable k : string.

Lemma ignores_exec ss :
  Forall (ignores k) ss ->
  forall ns v, exec ss (<[k := v]> ns) = (insert k v) <$> exec ss ns.
Proof.
  induction 1 as [|s ss Hs _ IH]; intros ns v; [reflexivity|].
  simpl. rewrite Hs. destruct (s ns) as [ns'|]; simpl; [apply IH|reflexivity..].
Qed.

Lemma ignores_import p names : k ∉ names -> ignores k (import L p names).
Proof.
  intros Hk ns v. unfold import. destruct (installed L p); [|reflexivity].
  simpl. f_equal. induction names as [|x names IH]; [reflexivity|].
  apply not_elem_of_cons in Hk as [Hx Hk]. simpl.
  rewrite IH by exact Hk. apply insert_insert_ne. congruence.
Qed.

Lemma ignores_assign x e :
  x <> k -> (forall ns v, e (<[k := v]> ns) = e ns) -> ignores k (assign x e).
Proof.
  intros Hx He ns v. unfold assign. rewrite He.
  destruct (e ns) as [w|]; simpl; [|reflexivity..].
  f_equal. apply insert_insert_ne. exact Hx.
Qed.

Lemma ignores_expression {A} (e : namespace -> result A) :
  (forall ns v, e (<[k := v]> ns) = e ns) -> ignores k (expression e).
Proof.
  intros He ns v. unfold expression. rewrite He.
  destruct (e ns) as [w|]; reflexivity.
Qed.

Lemma get_insert_ne x ns v : x <> k -> get x (<[k := v]> ns) = get x ns.
Proof. intros Hx. unfold get. rewrite lookup_insert_ne by congruence. reflexivity. Qed.

End Frame.

(** The statements that come after the split do not mention the names of
    the test split. *)
Ltac no_read :=
  intros;
  unfold get_imported, get_bunch, get_array1, get_array2, get_range, get_model,
    get_history, get_frame, get_figure, get_axes;
  rewrite ?get_insert_ne by discriminate; reflexivity.

Section TestSplit.

Variable L : Library.
Variable k : string.
Hypothesis test_name : k = "test_data" \/ k = "test_targets".

Lemma ignores_train_model : ignores k (train_model L).
Proof.
  intros ns v. unfold train_model.
  assert (Hm : get_model "model" (<[k := v]> ns) = get_model "model" ns)
    by (destruct test_name as [-> | ->]; no_read).
  assert (HX : get_array2 "train_data" (<[k := v]> ns) = get_array2 "train_data" ns)
    by (destruct test_name as [-> | ->]; no_read).
  assert (Hy : get_array1 "train_targets" (<[k := v]> ns) = get_array1 "train_targets" ns)
    by (destruct test_name as [-> | ->]; no_read).
  rewrite Hm, HX, Hy.
  destruct (get_model "model" ns) as [m|]; simpl; [|reflexivity..].
  destruct (get_array2 "train_data" ns) as [X|]; simpl; [|reflexivity..].
  destruct (get_array1 "train_targets" ns) as [y|]; simpl; [|reflexivity..].
  destruct (keras.fit L m X y 100 0.15 64) as [[m' h]|]; simpl; [|reflexivity..].
  f_equal. rewrite (insert_insert_ne _ "model") by (destruct test_name as [-> | ->]; discriminate).
  rewrite (insert_insert_ne _ "history") by (destruct test_name as [-> | ->]; discriminate).
  reflexivity.
Qed.

Lemma ignores_add_subplot pos : ignores k (add_subplot pos).
Proof.
  intros ns v. unfold add_subplot.
  assert (Hf : get_figure "fig" (<[k := v]> ns) = get_figure "fig" ns)
    by (destruct test_name as [-> | ->]; no_read).
  rewrite Hf. destruct (get_figure "fig" ns) as [f|]; simpl; [|reflexivity..].
  f_equal. rewrite (insert_insert_ne _ "fig") by (destruct test_name as [-> | ->]; discriminate).
  rewrite (insert_insert_ne _ "ax") by (destruct test_name as [-> | ->]; discriminate).
  reflexivity.
Qed.

Lemma ignores_axes_call method :
  (forall ns v a, method (<[k := v]> ns) a = method ns a) -> ignores k (axes_call method).
Proof.
  intros Hmethod ns v. unfold axes_call.
  assert (Hi : get_axes "ax" (<[k := v]> ns) = get_axes "ax" ns)
    by (destruct test_name as [-> | ->]; no_read).
  assert (Hf : get_figure "fig" (<[k := v]> ns) = get_figure "fig" ns)
    by (destruct test_name as [-> | ->]; no_read).
  rewrite Hi, Hf.
  destruct (get_axes "ax" ns) as [i|]; simpl; [|reflexivity..].
  destruct (get_figure "fig" ns) as [f|]; simpl; [|reflexivity..].
  unfold plt.on_axes. destruct (axes f !! i) as [a|]; simpl; [|reflexivity].
  rewrite Hmethod. destruct (method ns a) as [a'|]; simpl; [|reflexivity..].
  f_equal. apply insert_insert_ne. destruct test_name as [-> | ->]; discriminate.
Qed.

Lemma ignores_plot_column key lbl : ignores k (plot_column key lbl).
Proof.
  apply ignores_axes_call. intros ns v a.
  assert (Hx : get_range "epochs" (<[k := v]> ns) = get_range "epochs" ns)
    by (destruct test_name as [-> | ->]; no_read).
  assert (Hf : get_frame "frame" (<[k := v]> ns) = get_frame "frame" ns)
    by (destruct test_name as [-> | ->]; no_read).
  rewrite Hx, Hf. reflexivity.
Qed.

(** Every statement of the cells after the split cell. *)
Lemma ignores_after_split : Forall (ignores k) (statements L (drop 5 notebook)).
Proof.
  unfold statements. cbn [drop notebook fmap list_fmap cell_source concat app].
  repeat apply Forall_cons_2; try apply Forall_nil_2;
    first
      [ apply ignores_import; destruct test_name as [-> | ->]; notin
      | apply ignores_train_model
      | apply ignores_add_subplot
      | apply ignores_plot_column
      | apply ignores_axes_call; reflexivity
      | apply ignores_expression; destruct test_name as [-> | ->]; no_read
      | apply ignores_assign;
        [destruct test_name as [-> | ->]; discriminate
        |destruct test_name as [-> | ->]; no_read] ].
Qed.

End TestSplit.

(** * Runs on the small library *)

Lemma demo_load_run t :
  run_cells (demo_with t) [ImportTensorflow; LoadDataset; SaveVariables] ∅ =
  Ok (<["targets" := VArray1 t]>
      (<["data" := VArray2 demo_data]>
       (<["train_test_split" := VImported "sklearn.model_selection"]>
        (<["diabetes_dataset" := VBunch {| bunch_data := demo_data; bunch_target := t |}]>
         (<["load_diabetes" := VImported "sklearn.datasets"]>
          (<["tf" := VImported "tensorflow"]> ∅)))))).
Proof. reflexivity. Qed.

(** The notebook runs through on the small library. *)
Lemma demo_run : exists ns, run_notebook demo = Ok ns.
Proof. apply is_ok_Ok. vm_compute. reflexivity. Qed.

Lemma demo_run_prefix n : exists ns, run_cells demo (take n notebook) ∅ = Ok ns.
Proof.
  destruct demo_run as [ns Hns]. unfold run_notebook in Hns.
  rewrite <- (take_drop n notebook) in Hns.
  apply run_cells_app_Ok in Hns as (ns' & Hns' & _). eauto.
Qed.

(** * The split *)

(** A tenth of the rows, rounded up. *)
Lemma n_test_tenth n : sklearn.n_test 0.1 n = ((n + 9) / 10)%nat.
Proof.
  unfold sklearn.n_test, Qceiling, Qfloor, Qopp, Qmult, inject_Z. cbn [Qnum Qden].
  rewrite Z.mul_1_l. change (Z.pos (10 * 1)) with 10%Z.
  apply Nat2Z.inj. rewrite Nat2Z.inj_div, Nat2Z.inj_add.
  rewrite Z2Nat.id.
  - change (Z.of_nat 9) with 9%Z. change (Z.of_nat 10) with 10%Z.
    Z.div_mod_to_equations. lia.
  - Z.div_mod_to_equations. lia.
Qed.

Lemma n_test_tenth_bounds n :
  (n <= 1 -> n - sklearn.n_test 0.1 n = 0)%nat /\
  (2 <= n -> 1 <= sklearn.n_test 0.1 n < n)%nat.
Proof.
  rewrite n_test_tenth.
  pose proof (Nat.div_mod_eq (n + 9) 10) as H.
  pose proof (Nat.mod_upper_bound (n + 9) 10) as H'. lia.
Qed.

(** Indexing with positions that are all in range returns. *)
Lemma safe_indexing_in_range {A} (a : list A) idx :
  Forall (fun i => (i < length a)%nat) idx ->
  exists xs, sklearn.safe_indexing a idx = Ok xs /\ length xs = length idx.
Proof.
  induction 1 as [|i idx Hi _ (xs & Hxs & Hlen)]; [exists []; auto|].
  apply lookup_lt_is_Some_2 in Hi as [x Hx].
  exists (x :: xs). simpl. rewrite Hx, Hxs. simpl. auto.
Qed.

Lemma safe_indexing_length {A} (a : list A) idx xs :
  sklearn.safe_indexing a idx = Ok xs -> length xs = length idx.
Proof. intros H%safe_indexing_Ok. symmetry. eapply Forall2_length, H. Qed.

Lemma safe_indexing_app {A} (a : list A) idx1 idx2 xs1 xs2 :
  sklearn.safe_indexing a idx1 = Ok xs1 -> sklearn.safe_indexing a idx2 = Ok xs2 ->
  sklearn.safe_indexing a (idx1 ++ idx2) = Ok (xs1 ++ xs2).
Proof.
  revert xs1. induction idx1 as [|i idx1 IH]; intros xs1; simpl.
  - intros <-%Ok_inj H2. exact H2.
  - destruct (a !! i) as [x|]; [|discriminate].
    intros (xs & Hxs & <-%Ok_inj)%bind_Ok H2. rewrite (IH _ Hxs H2). reflexivity.
Qed.

Lemma safe_indexing_zip {A B} (a : list A) (b : list B) idx xs ys :
  sklearn.safe_indexing a idx = Ok xs -> sklearn.safe_indexing b idx = Ok ys ->
  sklearn.safe_indexing (zip a b) idx = Ok (zip xs ys).
Proof.
  revert xs ys. induction idx as [|i idx IH]; intros xs ys; simpl.
  - intros <-%Ok_inj <-%Ok_inj. reflexivity.
  - destruct (a !! i) as [x|] eqn:Hx; [|discriminate].
    destruct (b !! i) as [y|] eqn:Hy; [|discriminate].
    intros (xs' & Hxs & <-%Ok_inj)%bind_Ok (ys' & Hys & <-%Ok_inj)%bind_Ok.
    rewrite (proj2 (lookup_zip_Some a b i x y) (conj Hx Hy)), (IH _ _ Hxs Hys).
    reflexivity.
Qed.

(** Indexing with rearranged positions returns the same entries,
    rearranged. *)
Lemma safe_indexing_Permutation {A} (a : list A) idx idx' xs :
  idx ≡ₚ idx' -> sklearn.safe_indexing a idx = Ok xs ->
  exists xs', sklearn.safe_indexing a idx' = Ok xs' /\ xs ≡ₚ xs'.
Proof.
  intros Hp. revert xs. induction Hp as [|i l l' _ IH|i j l|l l' l'' _ IH1 _ IH2]; intros xs; simpl.
  - intros <-%Ok_inj. exists []. auto.
  - destruct (a !! i) as [x|]; [|discriminate].
    intros (xs0 & Hxs & <-%Ok_inj)%bind_Ok.
    destruct (IH _ Hxs) as (xs' & -> & Hperm). exists (x :: xs'). simpl.
    split; [reflexivity|]. by constructor.
  - destruct (a !! j) as [y|]; [|discriminate].
    destruct (a !! i) as [x|]; [|intros (? & ? & ?)%bind_Ok; discriminate].
    intros (xs0 & (xs1 & Hxs & <-%Ok_inj)%bind_Ok & <-%Ok_inj)%bind_Ok.
    exists (x :: y :: xs1). rewrite Hxs. simpl. split; [reflexivity|]. apply perm_swap.
  - intros Hxs. destruct (IH1 _ Hxs) as (xs' & Hxs' & Hp1).
    destruct (IH2 _ Hxs') as (xs'' & Hxs'' & Hp2). exists xs''. split; [exact Hxs''|].
    etrans; eassumption.
Qed.

Lemma safe_indexing_seq {A} (pre a : list A) :
  sklearn.safe_indexing (pre ++ a) (seq (length pre) (length a)) = Ok a.
Proof.
  revert pre. induction a as [|x a IH]; intros pre; [reflexivity|]. simpl.
  rewrite lookup_app_r, Nat.sub_diag by lia. simpl.
  specialize (IH (pre ++ [x])). rewrite <- app_assoc, length_app in IH. simpl in IH.
  rewrite Nat.add_1_r in IH. rewrite IH. reflexivity.
Qed.

(** Indexing with a shuffle of all positions returns a shuffle of the
    array. *)
Lemma safe_indexing_shuffle {A} (a : list A) idx xs :
  idx ≡ₚ seq 0 (length a) -> sklearn.safe_indexing a idx = Ok xs -> xs ≡ₚ a.
Proof.
  intros Hp Hxs. destruct (safe_indexing_Permutation a _ _ _ Hp Hxs) as (xs' & Hxs' & Hperm).
  pose proof (safe_indexing_seq [] a) as Hseq. cbn [app length] in Hseq.
  rewrite Hseq in Hxs'. apply Ok_inj in Hxs' as <-. exact Hperm.
Qed.

(** The training positions and the test positions are all the positions
    of the shuffle. *)
Lemma ind_train_test perm n_test n_train :
  length perm = (n_test + n_train)%nat ->
  sklearn.ind_test perm n_test ++ sklearn.ind_train perm n_test n_train = perm.
Proof.
  intros Hlen. unfold sklearn.ind_test, sklearn.ind_train.
  rewrite (take_ge (drop _ _)) by (rewrite length_drop; lia). apply take_drop.
Qed.

(** The split returns on two samples or more, with a shuffle of all
    positions. *)
Lemma split_returns (perm : list nat) (X : ndarray2) (y : list float64) (n : nat) :
  length (rows X) = n -> perm ≡ₚ seq 0 n -> length y = n -> (2 <= n)%nat ->
  exists X_train X_test y_train y_test,
    sklearn.train_test_split perm X y 0.1 = Ok (X_train, X_test, y_train, y_test) /\
    length (rows X_test) = ((n + 9) / 10)%nat /\
    length (rows X_train) = (n - (n + 9) / 10)%nat /\
    length y_test = length (rows X_test) /\
    length y_train = length (rows X_train) /\
    (1 <= length y_test)%nat /\ (1 <= length y_train)%nat /\
    ncols X_train = ncols X /\ ncols X_test = ncols X.
Proof.
  intros HX Hperm Hlen Hn. unfold sklearn.train_test_split. rewrite HX.
  destruct (n_test_tenth_bounds n) as [_ Hlarge].
  destruct (decide (length y = n)); [|done].
  specialize (Hlarge Hn).
  destruct (decide _) as [H0|_]; [lia|].
  assert (Hrange : Forall (fun i => (i < n)%nat) perm).
  { apply Forall_forall. intros i Hi. rewrite Hperm in Hi.
    apply elem_of_seq in Hi. lia. }
  assert (Hplen : length perm = n) by (rewrite Hperm; apply length_seq).
  set (nt := sklearn.n_test 0.1 n) in *.
  assert (Htrain : Forall (fun i => (i < n)%nat) (sklearn.ind_train perm nt (n - nt))).
  { unfold sklearn.ind_train. apply Forall_take, Forall_drop, Hrange. }
  assert (Htest : Forall (fun i => (i < n)%nat) (sklearn.ind_test perm nt)).
  { unfold sklearn.ind_test. apply Forall_take, Hrange. }
  assert (Hltrain : length (sklearn.ind_train perm nt (n - nt)) = (n - nt)%nat).
  { unfold sklearn.ind_train. rewrite length_take, length_drop. lia. }
  assert (Hltest : length (sklearn.ind_test perm nt) = nt).
  { unfold sklearn.ind_test. rewrite length_take. lia. }
  assert (HtrainX : Forall (fun i => (i < length (rows X))%nat)
                      (sklearn.ind_train perm nt (n - nt)))
    by (rewrite HX; exact Htrain).
  assert (HtestX : Forall (fun i => (i < length (rows X))%nat) (sklearn.ind_test perm nt))
    by (rewrite HX; exact Htest).
  destruct (safe_indexing_in_range (rows X) _ HtrainX) as (Xtr & -> & HXtr).
  destruct (safe_indexing_in_range (rows X) _ HtestX) as (Xte & -> & HXte).
  assert (Htrain' : Forall (fun i => (i < length y)%nat) (sklearn.ind_train perm nt (n - nt)))
    by (rewrite Hlen; exact Htrain).
  assert (Htest' : Forall (fun i => (i < length y)%nat) (sklearn.ind_test perm nt))
    by (rewrite Hlen; exact Htest).
  destruct (safe_indexing_in_range y _ Htrain') as (ytr & -> & Hytr).
  destruct (safe_indexing_in_range y _ Htest') as (yte & -> & Hyte).
  cbn [mbind result_bind].
  eexists _, _, _, _. split; [reflexivity|]. cbn [rows ncols].
  rewrite <- n_test_tenth. fold nt. repeat split; lia.
Qed.

(** What the two parts of a split are, with a shuffle of all
    positions. *)
Lemma split_parts {A} (perm : list nat) (a : list A) n_test xs_train xs_test :
  perm ≡ₚ seq 0 (length a) -> (length a - n_test <> 0)%nat ->
  sklearn.safe_indexing a (sklearn.ind_train perm n_test (length a - n_test)) = Ok xs_train ->
  sklearn.safe_indexing a (sklearn.ind_test perm n_test) = Ok xs_test ->
  xs_train ++ xs_test ≡ₚ a.
Proof.
  intros Hperm Hn Htrain Htest.
  rewrite (Permutation_app_comm xs_train).
  apply (safe_indexing_shuffle a perm); [exact Hperm|].
  rewrite <- (ind_train_test perm n_test (length a - n_test)).
  - apply safe_indexing_app; assumption.
  - rewrite Hperm, length_seq. lia.
Qed.

(** The pairs of a row and its target in the two parts of a split. *)
Lemma split_pairs (perm : list nat) (X : ndarray2) (y : list float64) (test_size : Q)
    X_train X_test y_train y_test :
  perm ≡ₚ seq 0 (length (rows X)) ->
  sklearn.train_test_split perm X y test_size = Ok (X_train, X_test, y_train, y_test) ->
  zip (rows X_train) y_train ++ zip (rows X_test) y_test ≡ₚ zip (rows X) y.
Proof.
  intros Hperm (Hlen & Hn & _ & _ & HXtr & HXte & Hytr & Hyte)%train_test_split_Ok.
  set (nt := sklearn.n_test test_size (length (rows X))) in *.
  apply (split_parts perm (zip (rows X) y) nt).
  - rewrite length_zip. rewrite Hlen, Nat.min_id. exact Hperm.
  - rewrite length_zip, Hlen, Nat.min_id. exact Hn.
  - rewrite length_zip, Hlen, Nat.min_id. apply safe_indexing_zip; assumption.
  - apply safe_indexing_zip; assumption.
Qed.

(** The split of the small dataset. *)
Lemma demo_split :
  exists X_train X_test y_train y_test,
    sklearn.train_test_split (seq 0 11) demo_data demo_targets 0.1
      = Ok (X_train, X_test, y_train, y_test).
Proof.
  destruct (is_ok_Ok (sklearn.train_test_split (seq 0 11) demo_data demo_targets 0.1))
    as [[[[Xtr Xte] ytr] yte] H]; [vm_compute; reflexivity|].
  exists Xtr, Xte, ytr, yte. exact H.
Qed.

(** * Running the cells forward *)

Lemma exec_cons (s : stmt) ss ns : exec (s :: ss) ns = s ns ≫= exec ss.
Proof. reflexivity. Qed.

Lemma import_installed L p names ns :
  installed L p = true ->
  import L p names ns = Ok (foldr (fun name ns => <[name := VImported p]> ns) ns names).
Proof. intros H. unfold import. rewrite H. reflexivity. Qed.

Lemma import_missing L p names ns :
  installed L p = false -> import L p names ns = Raise (ModuleNotFoundError p).
Proof. intros H. unfold import. rewrite H. reflexivity. Qed.

Ltac get_fwd get_f := intros H; unfold get_f, get; rewrite H; reflexivity.

Lemma get_imported_lookup x ns q : ns !! x = Some (VImported q) -> get_imported x ns = Ok tt.
Proof. get_fwd get_imported. Qed.

Lemma get_bunch_lookup x ns b : ns !! x = Some (VBunch b) -> get_bunch x ns = Ok b.
Proof. get_fwd get_bunch. Qed.

Lemma get_range_lookup x ns r : ns !! x = Some (VRange r) -> get_range x ns = Ok r.
Proof. get_fwd get_range. Qed.

Lemma get_model_lookup x ns m : ns !! x = Some (VModel m) -> get_model x ns = Ok m.
Proof. get_fwd get_model. Qed.

Lemma get_history_lookup x ns h : ns !! x = Some (VHistory h) -> get_history x ns = Ok h.
Proof. get_fwd get_history. Qed.

Lemma get_frame_lookup x ns f : ns !! x = Some (VFrame f) -> get_frame x ns = Ok f.
Proof. get_fwd get_frame. Qed.

Lemma get_figure_lookup x ns f : ns !! x = Some (VFigure f) -> get_figure x ns = Ok f.
Proof. get_fwd get_figure. Qed.

Lemma get_axes_lookup x ns i : ns !! x = Some (VAxes i) -> get_axes x ns = Ok i.
Proof. get_fwd get_axes. Qed.

Lemma exec_assign x e ss ns :
  exec (assign x e :: ss) ns = v ← e ns; exec ss (<[x := v]> ns).
Proof. cbn [exec]. unfold assign. destruct (e ns); reflexivity. Qed.

Lemma exec_expression {A} (e : namespace -> result A) ss ns :
  exec (expression e :: ss) ns = _ ← e ns; exec ss ns.
Proof. cbn [exec]. unfold expression. destruct (e ns); reflexivity. Qed.

Lemma exec_import L p names ss ns :
  exec (import L p names :: ss) ns =
  if installed L p then exec ss (foldr (fun name ns => <[name := VImported p]> ns) ns names)
  else Raise (ModuleNotFoundError p).
Proof. cbn [exec]. unfold import. destruct (installed L p); reflexivity. Qed.

Ltac lookup_solve := ns_lookup; first [reflexivity | eassumption].

(** Reading the names of an expression whose bindings are known. *)
Ltac eval_getters :=
  repeat (first
    [ erewrite get_imported_lookup by lookup_solve
    | erewrite get_bunch_lookup by lookup_solve
    | erewrite get_array1_lookup by lookup_solve
    | erewrite get_array2_lookup by lookup_solve
    | erewrite get_range_lookup by lookup_solve
    | erewrite get_model_lookup by lookup_solve
    | erewrite get_history_lookup by lookup_solve
    | erewrite get_frame_lookup by lookup_solve
    | erewrite get_figure_lookup by lookup_solve
    | erewrite get_axes_lookup by lookup_solve ];
    cbn [mbind result_bind]).

Lemma run_load_eq L :
  run_cells L [ImportTensorflow; LoadDataset; SaveVariables] ∅ =
  if installed L "tensorflow" then
    if installed L "sklearn.datasets" then
      b ← load_diabetes L;
      if installed L "sklearn.model_selection" then Ok (loaded b)
      else Raise (ModuleNotFoundError "sklearn.model_selection")
    else Raise (ModuleNotFoundError "sklearn.datasets")
  else Raise (ModuleNotFoundError "tensorflow").
Proof.
  unfold run_cells, statements. cbn [fmap list_fmap cell_source concat app exec].
  unfold import.
  destruct (installed L "tensorflow"); [|reflexivity].
  destruct (installed L "sklearn.datasets"); [|reflexivity].
  destruct (load_diabetes L) as [b|]; [|reflexivity..].
  destruct (installed L "sklearn.model_selection"); reflexivity.
Qed.

Lemma run_normalise_eq L ns t :
  ns !! "targets" = Some (VArray1 t) ->
  run_cells L [NormaliseTargets] ns =
  Ok (<["targets" := VArray1 (normalise t)]> ns).
Proof.
  intros Ht. unfold run_cells, statements. cbn [fmap list_fmap cell_source concat app exec].
  unfold assign, get_array1, get. rewrite Ht. cbn [mbind result_bind].
  reflexivity.
Qed.

Lemma run_split_eq L ns q X y :
  ns !! "train_test_split" = Some (VImported q) ->
  ns !! "data" = Some (VArray2 X) ->
  ns !! "targets" = Some (VArray1 y) ->
  run_cells L [SplitDataset] ns =
  '(X_train, X_test, y_train, y_test) ←
    sklearn.train_test_split (permutation L (length (rows X))) X y 0.1;
  Ok (with_split X_train X_test y_train y_test ns).
Proof.
  intros Hq HX Hy. unfold run_cells, statements.
  cbn [fmap list_fmap cell_source concat app exec].
  unfold split_dataset, get_imported, get_array1, get_array2, get. rewrite Hq, HX, Hy.
  cbn [mbind result_bind].
  destruct (sklearn.train_test_split _ _ _ _) as [[[[Xtr Xte] ytr] yte]|]; reflexivity.
Qed.

Lemma run_build_eq L ns q X :
  ns !! "tf" = Some (VImported q) ->
  ns !! "train_data" = Some (VArray2 X) ->
  run_cells L [ImportLayers; BuildModel; PrintSummary; AddBatchNorm; AddOutputLayer;
               CompileModel] ns =
  if installed L "tensorflow.keras.models" then
    if installed L "tensorflow.keras.layers" then Ok (with_model (ncols X) ns)
    else Raise (ModuleNotFoundError "tensorflow.keras.layers")
  else Raise (ModuleNotFoundError "tensorflow.keras.models").
Proof.
  intros Hq HX. unfold run_cells, statements.
  cbn [fmap list_fmap cell_source concat app].
  rewrite exec_import. destruct (installed L "tensorflow.keras.models"); [|reflexivity].
  rewrite exec_import. destruct (installed L "tensorflow.keras.layers"); [|reflexivity].
  cbn [foldr]. unfold build_model.
  rewrite exec_assign. eval_getters.
  rewrite exec_expression. eval_getters.
  rewrite exec_assign. eval_getters.
  rewrite exec_assign. eval_getters.
  rewrite exec_assign. eval_getters.
  cbn [exec]. rewrite !insert_insert_eq. reflexivity.
Qed.

Lemma run_train_eq L ns m X y :
  ns !! "model" = Some (VModel m) ->
  ns !! "train_data" = Some (VArray2 X) ->
  ns !! "train_targets" = Some (VArray1 y) ->
  run_cells L [TrainModel] ns =
  '(m', h) ← keras.fit L m X y 100 0.15 64;
  Ok (<["history" := VHistory h]> (<["model" := VModel m']> ns)).
Proof.
  intros Hm HX Hy. unfold run_cells, statements.
  cbn [fmap list_fmap cell_source concat app exec].
  unfold train_model, get_model, get_array1, get_array2, get. rewrite Hm, HX, Hy.
  cbn [mbind result_bind].
  destruct (keras.fit _ _ _ _ _ _ _) as [[m' h]|]; reflexivity.
Qed.

(** * The hold-out and the training loop *)

(** The rows [fit] trains on when it holds out 15 percent. *)
Lemma split_at_fifteen n :
  Z.to_nat (Qfloor (inject_Z (Z.of_nat n) * (1 - 0.15))) = (17 * n / 20)%nat.
Proof.
  unfold Qfloor, Qmult, Qminus, Qplus, Qopp, inject_Z. cbn [Qnum Qden].
  apply Nat2Z.inj. rewrite Nat2Z.inj_div, Nat2Z.inj_mul.
  rewrite Z2Nat.id.
  - change (Z.of_nat 17) with 17%Z. change (Z.of_nat 20) with 20%Z.
    Z.div_mod_to_equations. lia.
  - Z.div_mod_to_equations. lia.
Qed.

Lemma split_at_fifteen_bounds n :
  (n <= 1 -> 17 * n / 20 = 0)%nat /\ (2 <= n -> 1 <= 17 * n / 20 < n)%nat.
Proof.
  pose proof (Nat.div_mod_eq (17 * n) 20) as H.
  pose proof (Nat.mod_upper_bound (17 * n) 20) as H'. lia.
Qed.

(** The training loop returns when every epoch does. *)
Lemma fit_loop_total L ls c x y xv yv bs :
  (forall w e, is_ok (train_epoch L ls c w x y bs e) = true) ->
  forall n e w h, is_ok (keras.fit_loop L ls c x y xv yv bs n e w h) = true.
Proof.
  intros Htotal. induction n as [|n IH]; intros e w h; [reflexivity|].
  cbn [keras.fit_loop]. specialize (Htotal w e).
  destruct (train_epoch L ls c w x y bs e) as [[w' tv]|]; [|discriminate..].
  cbn [mbind result_bind]. apply IH.
Qed.

Lemma hold_out_Ok x y :
  (2 <= length (rows x))%nat ->
  exists train val, keras.train_validation_split x y 0.15 = Ok (train, val).
Proof.
  intros Hn. unfold keras.train_validation_split. rewrite split_at_fifteen.
  destruct (split_at_fifteen_bounds (length (rows x))) as [_ Hlarge]. specialize (Hlarge Hn).
  destruct (decide _) as [[H0|Hk]|_]; [lia..|]. eauto.
Qed.

Lemma hold_out_Raise x y :
  (length (rows x) <= 1)%nat ->
  keras.train_validation_split x y 0.15 =
  Raise (ValueError "Training data is not sufficient to split into training and validation").
Proof.
  intros Hn. unfold keras.train_validation_split. rewrite split_at_fifteen.
  destruct (split_at_fifteen_bounds (length (rows x))) as [Hsmall _].
  destruct (decide _) as [|Hne]; [reflexivity|]. exfalso. apply Hne. left. auto.
Qed.

(** [fit] returns on a compiled model and two samples or more, when
    every epoch returns. *)
Lemma fit_total L m c x y epochs bs :
  compiled m = Some c -> length y = length (rows x) ->
  keras.input_compatible m x = true -> (2 <= length (rows x))%nat ->
  (forall ls c w x y bs e, is_ok (train_epoch L ls c w x y bs e) = true) ->
  is_ok (keras.fit L m x y epochs 0.15 bs) = true.
Proof.
  intros Hc Hlen Hcompat Hn Htotal. unfold keras.fit. rewrite Hc.
  destruct (hold_out_Ok x y Hn) as ([xt yt] & [xv yv] & ->). cbn [mbind result_bind].
  destruct (decide _); [|done]. rewrite Hcompat.
  pose proof (fit_loop_total L (layers m) c xt yt xv yv bs (fun w e => Htotal _ _ _ _ _ _ _)
                epochs 0%nat (default (initial_weights L (layers m)) (weights m)) ∅) as Hloop.
  destruct (keras.fit_loop _ _ _ _ _ _ _ _ _ _ _ _) as [[w h]|]; [reflexivity|discriminate..].
Qed.

Lemma hold_out_pairs x y train val :
  length y = length (rows x) ->
  keras.train_validation_split x y 0.15 = Ok (train, val) ->
  zip (rows (fst train)) (snd train) ++ zip (rows (fst val)) (snd val) = zip (rows x) y /\
  length (rows (fst train)) = (17 * length (rows x) / 20)%nat /\
  length (snd train) = length (rows (fst train)) /\
  length (snd val) = length (rows (fst val)) /\
  (length (rows (fst train)) + length (rows (fst val)))%nat = length (rows x).
Proof.
  intros Hlen. unfold keras.train_validation_split. rewrite split_at_fifteen.
  assert (Hle : (17 * length (rows x) / 20 <= length (rows x))%nat).
  { pose proof (Nat.div_mod_eq (17 * length (rows x)) 20). lia. }
  remember (17 * length (rows x) / 20)%nat as k eqn:Hkdef.
  destruct (decide _) as [|Hk]; [discriminate|]. intros [= <- <-]. cbn [fst snd rows].
  rewrite !length_take, !length_drop, Hlen.
  split; [|lia].
  rewrite <- (zip_with_take pair k (rows x) y), <- (zip_with_drop pair k (rows x) y).
  apply take_drop.
Qed.

(** The series of a history that [fit] returned for the compile
    arguments of the notebook. *)
Lemma fit_history L m x y n vs bs m' h :
  compiled m = Some {| optimizer := "adam"; loss := "mse"; metrics := ["mae"] |} ->
  (0 < n)%nat ->
  keras.fit L m x y n vs bs = Ok (m', h) ->
  (forall k col, history h !! k = Some col -> length col = n) /\
  (exists loss val_loss mae val_mae,
     history h !! "loss" = Some loss /\ history h !! "val_loss" = Some val_loss /\
     history h !! "mae" = Some mae /\ history h !! "val_mae" = Some val_mae).
Proof.
  intros Hc Hn (c & train & val & Hc' & _ & _ & _ & _ & _ & _ & Hin & Hout)%fit_Ok.
  rewrite Hc in Hc'. injection Hc' as <-.
  assert (Hkey : forall k, k ∈ ["loss"; "mae"; "val_loss"; "val_mae"] ->
            exists col, history h !! k = Some col /\ length col = n).
  { intros k Hk. destruct (Hin k Hk) as [Hlen Hsome]. destruct (Hsome Hn) as [col Hcol].
    rewrite Hcol in Hlen. exists col. auto. }
  split.
  - intros k col Hk.
    destruct (decide (k ∈ ["loss"; "mae"; "val_loss"; "val_mae"])) as [Hk'|Hk'].
    + destruct (Hkey k Hk') as (col' & Hcol' & Hlen). congruence.
    + rewrite (Hout k Hk') in Hk. discriminate.
  - destruct (Hkey "loss") as (c1 & H1 & _); [rewrite !elem_of_cons; auto 10|].
    destruct (Hkey "val_loss") as (c2 & H2 & _); [rewrite !elem_of_cons; auto 10|].
    destruct (Hkey "mae") as (c3 & H3 & _); [rewrite !elem_of_cons; auto 10|].
    destruct (Hkey "val_mae") as (c4 & H4 & _); [rewrite !elem_of_cons; auto 10|].
    eauto 10.
Qed.

Lemma n_train_bounds n :
  (3 <= n -> 2 <= n - (n + 9) / 10)%nat /\ (n <= 2 -> n - (n + 9) / 10 <= 1)%nat.
Proof.
  pose proof (Nat.div_mod_eq (n + 9) 10) as H.
  pose proof (Nat.mod_upper_bound (n + 9) 10) as H'. lia.
Qed.

Lemma input_compatible_compiled X : keras.input_compatible (compiled_model (ncols X)) X = true.
Proof. unfold keras.input_compatible. cbn. apply bool_decide_eq_true. reflexivity. Qed.

Lemma fit_weights L m x y n vs bs m' h :
  keras.fit L m x y n vs bs = Ok (m', h) ->
  exists c train val w,
    compiled m = Some c /\
    keras.train_validation_split x y vs = Ok (train, val) /\
    keras.fit_loop L (layers m) c (fst train) (snd train) (fst val) (snd val) bs n 0
      (default (initial_weights L (layers m)) (weights m)) ∅ = Ok (w, history h) /\
    m' = {| layers := layers m; compiled := Some c; weights := Some w |} /\
    epoch h = seq 0 n.
Proof.
  unfold keras.fit. destruct (compiled m) as [c|]; [|discriminate].
  destruct (keras.train_validation_split x y vs) as [[[xt yt] [xv yv]]|]; [|discriminate..].
  cbn [mbind result_bind].
  destruct (decide _); [|discriminate].
  destruct (keras.input_compatible m x); [|discriminate].
  destruct (keras.fit_loop _ _ _ _ _ _ _ _ _ _ _ _) as [[w h']|] eqn:E; [|discriminate..].
  intros [= <- <-]. exists c, (xt, yt), (xv, yv), w. auto.
Qed.

Lemma fit_series_length L m x y n vs bs m' h k col :
  keras.fit L m x y n vs bs = Ok (m', h) -> history h !! k = Some col -> length col = n.
Proof.
  intros (c & train & val & _ & _ & _ & _ & _ & _ & _ & Hin & Hout)%fit_Ok Hk.
  destruct (decide (k ∈ keras.log_keys c)) as [Hk'|Hk'].
  - destruct (Hin k Hk') as [Hlen _]. rewrite Hk in Hlen. exact Hlen.
  - rewrite (Hout k Hk') in Hk. discriminate.
Qed.

Lemma safe_indexing_raises {A} (a : list A) idx e :
  sklearn.safe_indexing a idx = Raise e -> exists i, e = IndexError i.
Proof.
  induction idx as [|i idx IH]; [discriminate|]. simpl.
  destruct (a !! i); [|intros [= <-]; eauto].
  destruct (sklearn.safe_indexing a idx); [discriminate|auto].
Qed.

Lemma train_test_split_raises perm X y test_size e :
  sklearn.train_test_split perm X y test_size = Raise e ->
  (exists msg, e = ValueError msg) \/ (exists i, e = IndexError i).
Proof.
  unfold sklearn.train_test_split.
  destruct (decide _); [|intros [= <-]; eauto].
  destruct (decide _); [intros [= <-]; eauto|].
  destruct (sklearn.safe_indexing (rows X) (sklearn.ind_train _ _ _)) eqn:E1;
    [|intros [= <-]; right; eapply safe_indexing_raises, E1].
  destruct (sklearn.safe_indexing (rows X) (sklearn.ind_test _ _)) eqn:E2;
    [|intros [= <-]; right; eapply safe_indexing_raises, E2].
  destruct (sklearn.safe_indexing y (sklearn.ind_train _ _ _)) eqn:E3;
    [|intros [= <-]; right; eapply safe_indexing_raises, E3].
  destruct (sklearn.safe_indexing y (sklearn.ind_test _ _)) eqn:E4;
    [discriminate|intros [= <-]; right; eapply safe_indexing_raises, E4].
Qed.

Lemma fit_loop_raises L ls c x y xv yv bs n ex :
  forall e w h,
    keras.fit_loop L ls c x y xv yv bs n e w h = Raise ex ->
    exists w' e', train_epoch L ls c w' x y bs e' = Raise ex.
Proof.
  induction n as [|n IH]; intros e w h; [discriminate|].
  cbn [keras.fit_loop].
  destruct (train_epoch L ls c w x y bs e) as [[w' tv]|] eqn:E;
    [|intros [= <-]; eauto].
  cbn [mbind result_bind]. apply IH.
Qed.

Lemma fit_raises L m c x y epochs vs bs ex :
  compiled m = Some c ->
  keras.fit L m x y epochs vs bs = Raise ex ->
  (exists msg, ex = ValueError msg) \/
  (exists ls c w x y bs e, train_epoch L ls c w x y bs e = Raise ex).
Proof.
  intros Hc. unfold keras.fit. rewrite Hc.
  unfold keras.train_validation_split.
  destruct (decide (_ \/ _)); [intros [= <-]; eauto|].
  cbn [mbind result_bind].
  destruct (decide (length y = length (rows x))); [|intros [= <-]; eauto].
  destruct (keras.input_compatible m x); [|intros [= <-]; eauto].
  destruct (keras.fit_loop _ _ _ _ _ _ _ _ _ _ _ _) as [[w h]|] eqn:E;
    [discriminate|].
  intros [= <-]. right. apply fit_loop_raises in E as (w' & e' & E). eauto 10.
Qed.

(** * The frame and the figure *)

Lemma DataFrame_uniform d n k0 col0 :
  d !! k0 = Some col0 ->
  (forall k col, d !! k = Some col -> length col = n) ->
  pd.DataFrame d = Ok {| columns := d; index := n |}.
Proof.
  intros Hk0 Hall. unfold pd.DataFrame.
  assert (Hcols : Forall (fun c => length c = n) (map_to_list d).*2).
  { apply Forall_forall. intros col ([k col'] & -> & Hin)%list_elem_of_fmap.
    apply elem_of_map_to_list in Hin. eapply Hall, Hin. }
  destruct ((map_to_list d).*2) as [|col cols] eqn:E.
  - exfalso. assert (Hin : col0 ∈ (map_to_list d).*2).
    { apply list_elem_of_fmap. exists (k0, col0). split; [reflexivity|].
      apply elem_of_map_to_list, Hk0. }
    rewrite E in Hin. by apply elem_of_nil in Hin.
  - apply Forall_cons in Hcols as [Hcol Hcols].
    destruct (decide _) as [|Hne]; [rewrite Hcol; reflexivity|].
    exfalso. apply Hne. rewrite Hcol. exact Hcols.
Qed.

Lemma exec_add_subplot pos ss ns f :
  ns !! "fig" = Some (VFigure f) ->
  exec (add_subplot pos :: ss) ns =
  exec ss (<["ax" := VAxes (length (axes f))]>
           (<["fig" := VFigure (fst (plt.add_subplot f pos))]> ns)).
Proof.
  intros Hf. cbn [exec]. unfold add_subplot. rewrite (get_figure_lookup _ _ _ Hf). reflexivity.
Qed.

Lemma exec_axes_call method ss ns i f a a' :
  ns !! "ax" = Some (VAxes i) -> ns !! "fig" = Some (VFigure f) ->
  axes f !! i = Some a -> method ns a = Ok a' ->
  exec (axes_call method :: ss) ns =
  exec ss (<["fig" := VFigure {| figsize := figsize f; axes := <[i := a']> (axes f) |}]> ns).
Proof.
  intros Hi Hf Ha Hm. cbn [exec]. unfold axes_call.
  rewrite (get_axes_lookup _ _ _ Hi), (get_figure_lookup _ _ _ Hf). cbn [mbind result_bind].
  unfold plt.on_axes. rewrite Ha, Hm. reflexivity.
Qed.

Lemma exec_plot_column key lbl ss ns i f a fr x y :
  ns !! "ax" = Some (VAxes i) -> ns !! "fig" = Some (VFigure f) ->
  axes f !! i = Some a ->
  ns !! "epochs" = Some (VRange x) -> ns !! "frame" = Some (VFrame fr) ->
  columns fr !! key = Some y -> length x = length y ->
  exec (plot_column key lbl :: ss) ns =
  exec ss (<["fig" := VFigure
              {| figsize := figsize f;
                 axes := <[i := {| position := position a;
                                   lines := lines a ++ [{| xdata := x; ydata := y; label := lbl |}];
                                   xlabel := xlabel a; ylabel := ylabel a; title := title a;
                                   legend := legend a |}]> (axes f) |}]> ns).
Proof.
  intros Hi Hf Ha Hx Hfr Hy Hlen. unfold plot_column.
  apply (exec_axes_call _ ss ns i f a); try assumption.
  rewrite (get_range_lookup _ _ _ Hx), (get_frame_lookup _ _ _ Hfr). cbn [mbind result_bind].
  unfold pd.getitem. rewrite Hy. cbn [mbind result_bind].
  unfold plt.plot. destruct (decide _); [reflexivity|done].
Qed.

(** The record the last call on the figure has built. *)
Ltac fig_simpl :=
  cbn [plt.add_subplot plt.figure plt.set_xlabel plt.set_ylabel plt.set_title
       plt.show_legend fst snd axes figsize position lines xlabel ylabel title legend
       app length insert list_insert];
  rewrite ?insert_insert_eq.

(** The plotting cell on a history whose four series have one length. *)
Lemma run_plot_eq L ns h n loss val_loss mae val_mae :
  ns !! "history" = Some (VHistory h) ->
  (forall k col, history h !! k = Some col -> length col = n) ->
  history h !! "loss" = Some loss -> history h !! "val_loss" = Some val_loss ->
  history h !! "mae" = Some mae -> history h !! "val_mae" = Some val_mae ->
  run_cells L [PlotCurves] ns =
  if installed L "pandas" then
    if installed L "numpy" then
      if installed L "matplotlib.pyplot" then
        Ok (<["fig" := VFigure (curves n loss val_loss mae val_mae)]>
            (<["ax" := VAxes 1]>
             (<["epochs" := VRange (np.arange n)]>
              (<["frame" := VFrame {| columns := history h; index := n |}]>
               (<["plt" := VImported "matplotlib.pyplot"]>
                (<["np" := VImported "numpy"]>
                 (<["pd" := VImported "pandas"]> ns)))))))
      else Raise (ModuleNotFoundError "matplotlib.pyplot")
    else Raise (ModuleNotFoundError "numpy")
  else Raise (ModuleNotFoundError "pandas").
Proof.
  intros Hh Hall Hloss Hvloss Hmae Hvmae.
  assert (Hlen : forall k col, history h !! k = Some col -> length (np.arange n) = length col).
  { intros k col Hk. unfold np.arange. rewrite length_seq. symmetry. eapply Hall, Hk. }
  unfold run_cells, statements. cbn [fmap list_fmap cell_source concat app].
  rewrite exec_import. destruct (installed L "pandas"); [|reflexivity].
  rewrite exec_import. destruct (installed L "numpy"); [|reflexivity].
  rewrite exec_import. destruct (installed L "matplotlib.pyplot"); [|reflexivity].
  cbn [foldr].
  rewrite exec_assign. eval_getters.
  rewrite (DataFrame_uniform _ n _ _ Hloss Hall). cbn [mbind result_bind].
  rewrite exec_assign. eval_getters.
  rewrite exec_assign. eval_getters.
  erewrite exec_add_subplot by lookup_solve. fig_simpl.
  erewrite (exec_plot_column "loss") by first [lookup_solve | eapply Hlen, Hloss]. fig_simpl.
  erewrite (exec_plot_column "val_loss") by first [lookup_solve | eapply Hlen, Hvloss].
  fig_simpl.
  do 4 (erewrite exec_axes_call by lookup_solve; fig_simpl).
  erewrite exec_add_subplot by lookup_solve. fig_simpl.
  erewrite (exec_plot_column "mae") by first [lookup_solve | eapply Hlen, Hmae]. fig_simpl.
  erewrite (exec_plot_column "val_mae") by first [lookup_solve | eapply Hlen, Hvmae].
  fig_simpl.
  do 4 (erewrite exec_axes_call by lookup_solve; fig_simpl).
  cbn [exec]. f_equal.
  apply map_eq. intros k.
  destruct (decide (k = "fig")) as [->|Hfig]; [ns_lookup; reflexivity|].
  destruct (decide (k = "ax")) as [->|Hax]; [ns_lookup; reflexivity|].
  repeat first [ rewrite (lookup_insert_ne _ "fig") by congruence
               | rewrite (lookup_insert_ne _ "ax") by congruence ].
  reflexivity.
Qed.

(** Two namespaces written as chains of bindings of the same names. *)
Ltac chain_eq :=
  let k := fresh "k" in
  apply map_eq; intros k;
  repeat match goal with
    | |- context [<[?x := _]> _ !! k] =>
        destruct (decide (k = x)) as [->|?];
        [ns_lookup; reflexivity|repeat (rewrite lookup_insert_ne by congruence)]
    end;
  reflexivity.

Lemma run_cell L id ns : run_cells L [id] ns = exec (cell_source L id) ns.
Proof. unfold run_cells, statements. cbn [fmap list_fmap concat]. by rewrite app_nil_r. Qed.

(** * The sums of NumPy *)

(** The fuel of the pairwise sum is enough: with as much fuel as the
    array has elements the halving never runs out, and more fuel gives
    the same sum. *)
Lemma pairwise_sum_fuel fuel :
  forall fuel' a, (length a <= fuel)%nat -> (length a <= fuel')%nat ->
    np.pairwise_sum fuel a = np.pairwise_sum fuel' a.
Proof.
  induction fuel as [|fuel IH]; intros fuel' a Hf Hf'.
  - destruct a; [|simpl in Hf; lia]. destruct fuel'; reflexivity.
  - destruct fuel' as [|fuel'].
    { destruct a; [reflexivity|simpl in Hf'; lia]. }
    cbn [np.pairwise_sum].
    destruct (length a <? 8)%nat eqn:H8; [reflexivity|].
    destruct (length a <=? 128)%nat eqn:H128; [reflexivity|].
    apply Nat.leb_gt in H128.
    pose proof (Nat.div_mod_eq (length a) 2) as Hdiv.
    pose proof (Nat.mod_upper_bound (length a) 2 ltac:(lia)) as Hmod2.
    pose proof (Nat.mod_upper_bound (length a / 2) 8 ltac:(lia)) as Hmod8.
    f_equal; apply IH; rewrite ?length_take, ?length_drop; lia.
Qed.

(** The unrolled loop keeps its eight running sums: on 8 elements or
    more it never takes its last branch. *)
Lemma sum_blocks_length blocks :
  forall r a, length r = 8%nat -> (8 * blocks <= length a)%nat ->
    length (np.sum_blocks r a blocks).1 = 8%nat.
Proof.
  induction blocks as [|blocks IH]; intros r a Hr Ha; [exact Hr|].
  cbn [np.sum_blocks]. apply IH.
  - rewrite length_zip_with, length_take. lia.
  - rewrite length_drop. lia.
Qed.

Lemma sum_unrolled_blocks a :
  (8 <= length a)%nat ->
  exists r0 r1 r2 r3 r4 r5 r6 r7 rest,
    np.sum_blocks (take 8 a) (drop 8 a) (length a / 8 - 1) =
      ([r0; r1; r2; r3; r4; r5; r6; r7], rest).
Proof.
  intros Ha.
  pose proof (sum_blocks_length (length a / 8 - 1) (take 8 a) (drop 8 a)) as Hlen.
  destruct (np.sum_blocks _ _ _) as [r rest]. cbn [fst] in Hlen.
  rewrite length_take, length_drop in Hlen.
  pose proof (Nat.div_mod_eq (length a) 8) as Hdiv.
  specialize (Hlen ltac:(lia) ltac:(lia)).
  do 8 (destruct r as [|? r]; [discriminate Hlen|]).
  destruct r; [|discriminate Hlen]. eauto 12.
Qed.

(** The mean and the standard deviation of 1, 2, 4: the float64 numbers
    2.3333333333333335 and 1.247219128924647. *)
Example mean_one_two_four :
  np.mean one_two_four = S754_finite false 5254199565265579 (-51).
Proof. vm_compute. reflexivity. Qed.

Example std_one_two_four :
  np.std one_two_four = S754_finite false 5616975604274395 (-52).
Proof. vm_compute. reflexivity. Qed.

(** * The normalisation *)

(** The normalisation is elementwise, with the mean and the standard
    deviation of the whole vector. *)
Lemma normalise_map t :
  normalise t = map (fun x => f64.div (f64.sub x (np.mean t)) (np.std t)) t.
Proof. unfold normalise, np.true_divide, np.subtract. apply map_map. Qed.

Lemma normalise_length t : length (normalise t) = length t.
Proof. rewrite normalise_map. apply length_map. Qed.


(** A division by zero gives an infinity or nan. *)
Lemma div_zero_not_finite x s :
  f64.is_zero s = true -> f64.is_finite (f64.div x s) = false.
Proof. destruct s; [|discriminate..]. intros _. destruct x; reflexivity. Qed.

Lemma normalise_zero_std t :
  f64.is_zero (np.std t) = true ->
  Forall (fun x => f64.is_finite x = false) (normalise t).
Proof.
  intros Hs. rewrite normalise_map. apply Forall_forall. intros y Hy.
  apply list_elem_of_In, in_map_iff in Hy as (x & <- & _).
  apply div_zero_not_finite, Hs.
Qed.



(** * Statements that bind no array *)

Lemma binds_no_array_exec ss :
  Forall binds_no_array ss -> binds_no_array (exec ss).
Proof.
  induction 1 as [|s ss Hs _ IH]; intros ns ns' k v Hrun Hk Hv.
  - apply exec_nil_Ok in Hrun as ->. exact Hk.
  - apply exec_cons_Ok in Hrun as (ns1 & Hs1 & Hrun).
    eapply Hs; [exact Hs1| |exact Hv]. eapply IH; eassumption.
Qed.

Lemma insert_no_array x (w : value) (ns : namespace) k v :
  is_array w = false -> <[x := w]> ns !! k = Some v -> is_array v = true -> ns !! k = Some v.
Proof.
  intros Hw Hk Hv. destruct (decide (x = k)) as [->|Hne].
  - rewrite lookup_insert_eq in Hk. some_inj Hk. subst v. congruence.
  - rewrite lookup_insert_ne in Hk by exact Hne. exact Hk.
Qed.

Lemma binds_no_array_import L p names : binds_no_array (import L p names).
Proof.
  intros ns ns' k v [_ ->]%import_Ok. induction names as [|x names IH]; [auto|].
  simpl. intros Hk Hv. apply IH; [|exact Hv]. eapply insert_no_array; [|exact Hk|exact Hv].
  reflexivity.
Qed.

Lemma binds_no_array_assign x e :
  (forall ns w, e ns = Ok w -> is_array w = false) -> binds_no_array (assign x e).
Proof.
  intros He ns ns' k v (w & Hw & ->)%assign_Ok. apply insert_no_array. eapply He, Hw.
Qed.

Lemma binds_no_array_expression {A} (e : namespace -> result A) :
  binds_no_array (expression e).
Proof. intros ns ns' k v [_ ->]%expression_Ok. auto. Qed.

Lemma binds_no_array_train L : binds_no_array (train_model L).
Proof.
  intros ns ns' k v H. unfold train_model in H.
  apply bind_Ok in H as (m & _ & H). apply bind_Ok in H as (X & _ & H).
  apply bind_Ok in H as (y & _ & H). apply bind_Ok in H as ([m' h] & _ & <-%Ok_inj).
  intros Hk Hv.
  apply insert_no_array in Hk; [|reflexivity|exact Hv].
  apply insert_no_array in Hk; [exact Hk|reflexivity|exact Hv].
Qed.

Lemma binds_no_array_add_subplot pos : binds_no_array (add_subplot pos).
Proof.
  intros ns ns' k v (f & _ & ->)%add_subplot_Ok Hk Hv.
  apply insert_no_array in Hk; [|reflexivity|exact Hv].
  apply insert_no_array in Hk; [exact Hk|reflexivity|exact Hv].
Qed.

Lemma binds_no_array_axes_call method : binds_no_array (axes_call method).
Proof.
  intros ns ns' k v (i & f & a & a' & _ & _ & _ & _ & ->)%axes_call_Ok Hk Hv.
  apply insert_no_array in Hk; [exact Hk|reflexivity|exact Hv].
Qed.

(** The value of an expression that ends in a constructor other than an
    array. *)
Ltac no_array_value :=
  let H := fresh "H" in
  intros ? ? H;
  repeat (apply bind_Ok in H as (? & _ & H));
  apply Ok_inj in H as <-; reflexivity.

Lemma binds_no_array_cell L id :
  id ∉ [SaveVariables; NormaliseTargets; SplitDataset] ->
  Forall binds_no_array (cell_source L id).
Proof.
  intros Hid. destruct id; cbn [cell_source]; unfold build_model, plot_column;
    try (exfalso; apply Hid; rewrite !elem_of_cons; auto 10; fail);
    repeat first
      [ apply Forall_nil_2
      | apply Forall_cons_2
      | apply binds_no_array_import
      | apply binds_no_array_expression
      | apply binds_no_array_train
      | apply binds_no_array_add_subplot
      | apply binds_no_array_axes_call
      | apply binds_no_array_assign; no_array_value ].
Qed.

(** The shuffle is drawn for the split cell alone. *)
Lemma cell_with_permutation p L id ns :
  id <> SplitDataset ->
  run_cells (with_permutation p L) [id] ns = run_cells L [id] ns.
Proof.
  intros Hid. rewrite !run_cell. destruct id; first [reflexivity | done].
Qed.

(** The epochs of the training loop: each one is a training step on the
    training data with the batch size of the loop. *)
Lemma fit_loop_app L ls c x y xv yv bs k n :
  forall e w h,
    keras.fit_loop L ls c x y xv yv bs (k + n) e w h =
    '(w', h') ← keras.fit_loop L ls c x y xv yv bs k e w h;
    keras.fit_loop L ls c x y xv yv bs n (e + k) w' h'.
Proof.
  induction k as [|k IH]; intros e w h.
  - cbn [keras.fit_loop Nat.add mbind result_bind]. rewrite Nat.add_0_r. reflexivity.
  - cbn [keras.fit_loop Nat.add].
    destruct (train_epoch L ls c w x y bs e) as [[w' tv]|]; [|reflexivity].
    cbn [mbind result_bind]. rewrite IH. rewrite <- Nat.add_succ_comm. reflexivity.
Qed.

Lemma fit_loop_epoch L ls c x y xv yv bs n k w h w' h' :
  keras.fit_loop L ls c x y xv yv bs n 0 w h = Ok (w', h') -> (k < n)%nat ->
  exists wk hk wk' tv,
    keras.fit_loop L ls c x y xv yv bs k 0 w h = Ok (wk, hk) /\
    train_epoch L ls c wk x y bs k = Ok (wk', tv).
Proof.
  intros Hloop Hk. replace n with (k + S (n - S k))%nat in Hloop by lia.
  rewrite fit_loop_app in Hloop.
  apply bind_Ok in Hloop as ([wk hk] & Hfirst & Hrest). cbn [keras.fit_loop Nat.add] in Hrest.
  apply bind_Ok in Hrest as ([wk' tv] & Hstep & _).
  exists wk, hk, wk', tv. auto.
Qed.

Lemma fit_loop_epoch_raises L ls c x y xv yv bs n k w h wk hk e :
  (k < n)%nat ->
  keras.fit_loop L ls c x y xv yv bs k 0 w h = Ok (wk, hk) ->
  train_epoch L ls c wk x y bs k = Raise e ->
  keras.fit_loop L ls c x y xv yv bs n 0 w h = Raise e.
Proof.
  intros Hk Hfirst Hstep. replace n with (k + S (n - S k))%nat by lia.
  rewrite fit_loop_app, Hfirst. cbn [mbind result_bind keras.fit_loop Nat.add].
  rewrite Hstep. reflexivity.
Qed.

(** * Exceptions of the plotting cell *)

Lemma exec_plot_column_raises key lbl ss ns i f a fr x e :
  ns !! "ax" = Some (VAxes i) -> ns !! "fig" = Some (VFigure f) ->
  axes f !! i = Some a ->
  ns !! "epochs" = Some (VRange x) -> ns !! "frame" = Some (VFrame fr) ->
  pd.getitem fr key = Raise e ->
  exec (plot_column key lbl :: ss) ns = Raise e.
Proof.
  intros Hi Hf Ha Hx Hfr Hy. cbn [exec]. unfold plot_column, axes_call.
  rewrite (get_axes_lookup _ _ _ Hi), (get_figure_lookup _ _ _ Hf). cbn [mbind result_bind].
  unfold plt.on_axes. rewrite Ha.
  rewrite (get_range_lookup _ _ _ Hx), (get_frame_lookup _ _ _ Hfr). cbn [mbind result_bind].
  rewrite Hy. reflexivity.
Qed.

Lemma run_plot_frame_raises L ns h e :
  installed L "pandas" = true -> installed L "numpy" = true ->
  installed L "matplotlib.pyplot" = true ->
  ns !! "history" = Some (VHistory h) ->
  pd.DataFrame (history h) = Raise e ->
  run_cells L [PlotCurves] ns = Raise e.
Proof.
  intros Hpd Hnp Hplt Hh Hframe. rewrite run_cell. cbn [cell_source].
  rewrite !exec_import, Hpd, Hnp, Hplt. cbn [foldr].
  rewrite exec_cons. unfold assign. eval_getters. rewrite Hframe. reflexivity.
Qed.

(** The plotting cell on a frame that lacks one of the four columns. *)
Lemma run_plot_column_raises L ns h f before key after :
  installed L "pandas" = true -> installed L "numpy" = true ->
  installed L "matplotlib.pyplot" = true ->
  ns !! "history" = Some (VHistory h) ->
  pd.DataFrame (history h) = Ok f ->
  ["loss"; "val_loss"; "mae"; "val_mae"] = before ++ key :: after ->
  Forall (fun k => is_Some (columns f !! k)) before ->
  columns f !! key = None ->
  run_cells L [PlotCurves] ns = Raise (KeyError key).
Proof.
  intros Hpd Hnp Hplt Hh Hframe Hkeys Hbefore Hkey.
  assert (Hget : pd.getitem f key = Raise (KeyError key))
    by (unfold pd.getitem; rewrite Hkey; reflexivity).
  pose proof (DataFrame_Ok _ _ Hframe) as [Hcols Hall]. rewrite <- Hcols in Hall.
  assert (Hlen : forall k col, columns f !! k = Some col ->
                   length (np.arange (pd.len f)) = length col).
  { intros k col Hk. unfold np.arange, pd.len. rewrite length_seq. symmetry. eapply Hall, Hk. }
  rewrite run_cell. cbn [cell_source].
  rewrite !exec_import, Hpd, Hnp, Hplt. cbn [foldr].
  rewrite exec_assign. eval_getters. rewrite Hframe. cbn [mbind result_bind].
  rewrite exec_assign. eval_getters.
  rewrite exec_assign. eval_getters.
  erewrite exec_add_subplot by lookup_solve. fig_simpl.
  destruct before as [|k1 before]; cbn [app] in Hkeys.
  { injection Hkeys as <- _.
    eapply exec_plot_column_raises; first [lookup_solve | exact Hget]. }
  injection Hkeys as <- Hkeys. apply Forall_cons in Hbefore as [[c1 Hc1] Hbefore].
  erewrite (exec_plot_column "loss") by first [lookup_solve | eapply Hlen, Hc1]. fig_simpl.
  destruct before as [|k2 before]; cbn [app] in Hkeys.
  { injection Hkeys as <- _.
    eapply exec_plot_column_raises; first [lookup_solve | exact Hget]. }
  injection Hkeys as <- Hkeys. apply Forall_cons in Hbefore as [[c2 Hc2] Hbefore].
  erewrite (exec_plot_column "val_loss") by first [lookup_solve | eapply Hlen, Hc2]. fig_simpl.
  do 4 (erewrite exec_axes_call by lookup_solve; fig_simpl).
  erewrite exec_add_subplot by lookup_solve. fig_simpl.
  destruct before as [|k3 before]; cbn [app] in Hkeys.
  { injection Hkeys as <- _.
    eapply exec_plot_column_raises; first [lookup_solve | exact Hget]. }
  injection Hkeys as <- Hkeys. apply Forall_cons in Hbefore as [[c3 Hc3] Hbefore].
  erewrite (exec_plot_column "mae") by first [lookup_solve | eapply Hlen, Hc3]. fig_simpl.
  destruct before as [|k4 before]; cbn [app] in Hkeys.
  { injection Hkeys as <- _.
    eapply exec_plot_column_raises; first [lookup_solve | exact Hget]. }
  injection Hkeys as <- Hkeys. destruct before; discriminate Hkeys.
Qed.

(** A cell whose first import that is not installed is [p]. *)
Lemma run_import_raises L id before p after ns :
  cell_imports id = before ++ p :: after ->
  Forall (fun q => installed L q = true) before -> installed L p = false ->
  run_cells L [id] ns = Raise (ModuleNotFoundError p).
Proof.
  intros Himports Hbefore Hp. rewrite run_cell.
  destruct id; cbn [cell_imports] in Himports;
    try (destruct before; discriminate Himports);
    cbn [cell_source];
    repeat (destruct before as [|? before]; cbn [app] in Himports;
            [ injection Himports as <- _; rewrite exec_import, Hp; reflexivity
            | injection Himports as <- Himports;
              apply Forall_cons in Hbefore as [Hq Hbefore];
              rewrite exec_import, Hq; clear Hq ]);
    destruct before; discriminate Himports.
Qed.

(** An exception of [fit]'s training loop is the outcome of [fit]. *)
Lemma fit_epoch_raises L m c x y xt yt xv yv vs bs n k wk hk e :
  compiled m = Some c -> length y = length (rows x) -> keras.input_compatible m x = true ->
  keras.train_validation_split x y vs = Ok ((xt, yt), (xv, yv)) ->
  (k < n)%nat ->
  keras.fit_loop L (layers m) c xt yt xv yv bs k 0
    (default (initial_weights L (layers m)) (weights m)) ∅ = Ok (wk, hk) ->
  train_epoch L (layers m) c wk xt yt bs k = Raise e ->
  keras.fit L m x y n vs bs = Raise e.
Proof.
  intros Hc Hlen Hin Hsplit Hk Hfirst Hstep. unfold keras.fit. rewrite Hc, Hsplit.
  cbn [mbind result_bind]. rewrite Hin. destruct (decide _); [|done].
  rewrite (fit_loop_epoch_raises _ _ _ _ _ _ _ _ _ _ _ _ _ _ _ Hk Hfirst Hstep). reflexivity.
Qed.

(** The cell that saves the two arrays of the dataset. *)
Lemma run_save_Ok L ns ns' :
  run_cells L [SaveVariables] ns = Ok ns' ->
  exists b, ns !! "diabetes_dataset" = Some (VBunch b) /\
    ns' = <["targets" := VArray1 (bunch_target b)]>
          (<["data" := VArray2 (bunch_data b)]>
           (<["train_test_split" := VImported "sklearn.model_selection"]> ns)).
Proof.
  rewrite run_cell. cbn [cell_source]. intros H.
  import_step H.
  exec_step H Hs. apply assign_Ok in Hs as (v & Hv & ->).
  apply bind_Ok in Hv as (b & Hb%get_bunch_Ok & Hv).
  ns_lookup_in Hb. unfold bunch_getitem in Hv. simpl in Hv. apply Ok_inj in Hv as <-.
  exec_step H Hs. apply assign_Ok in Hs as (v & Hv & ->).
  apply bind_Ok in Hv as (b' & Hb'%get_bunch_Ok & Hv).
  ns_lookup_in Hb'. rewrite Hb in Hb'. some_inj Hb'. injection Hb' as <-.
  unfold bunch_getitem in Hv. simpl in Hv. apply Ok_inj in Hv as <-.
  apply exec_nil_Ok in H as ->. eauto.
Qed.

(** * The claims *)

(** ** C1: the normalised targets *)




(** ** C2: the divisions of the data *)

(** C2, as amended.  The notebook has one split cell, and the run of this
    cell is one call of [train_test_split] on the whole of [data] and
    [targets], which binds the four parts and, with a shuffle of all
    positions, puts every sample in exactly one of the two splits.  No
    other cell uses the shuffle, and no other cell binds a part of an
    array: the cell that saves the variables binds the two whole arrays
    of the dataset, the normalisation cell a vector of the length of
    [targets], and every other cell no array at all.  But the data is
    divided again inside [model.fit], which the training cell calls on
    the whole of [train_data]: [fit] holds out the last rows for
    validation, and every one of the 100 epochs is a training step over
    the rows before them with the batch size 64, for the mini-batches the
    step draws.  Neither part of the hold-out is bound to a name. *)
Theorem one_split_call_and_the_divisions_of_fit (L : Library) :
  length (filter (fun id => id = SplitDataset) notebook) = 1%nat /\
  (forall ns ns', run_cells L [SplitDataset] ns = Ok ns' ->
     exists X y X_train X_test y_train y_test,
       ns !! "data" = Some (VArray2 X) /\ ns !! "targets" = Some (VArray1 y) /\
       sklearn.train_test_split (permutation L (length (rows X))) X y 0.1
         = Ok (X_train, X_test, y_train, y_test) /\
       ns' = with_split X_train X_test y_train y_test ns /\
       (permutation L (length (rows X)) ≡ₚ seq 0 (length (rows X)) ->
        zip (rows X_train) y_train ++ zip (rows X_test) y_test ≡ₚ zip (rows X) y)) /\
  (forall id p ns, id <> SplitDataset ->
     run_cells (with_permutation p L) [id] ns = run_cells L [id] ns) /\
  (forall id ns ns' k v,
     id ∉ [SaveVariables; NormaliseTargets; SplitDataset] ->
     run_cells L [id] ns = Ok ns' -> ns' !! k = Some v -> is_array v = true ->
     ns !! k = Some v) /\
  (forall ns ns', run_cells L [SaveVariables] ns = Ok ns' ->
     exists b, ns !! "diabetes_dataset" = Some (VBunch b) /\
       ns' = <["targets" := VArray1 (bunch_target b)]>
             (<["data" := VArray2 (bunch_data b)]>
              (<["train_test_split" := VImported "sklearn.model_selection"]> ns))) /\
  (forall ns ns', run_cells L [NormaliseTargets] ns = Ok ns' ->
     exists t, ns !! "targets" = Some (VArray1 t) /\
       ns' = <["targets" := VArray1 (normalise t)]> ns /\
       length (normalise t) = length t) /\
  (forall ns ns', run_cells L [TrainModel] ns = Ok ns' ->
     exists m X y c A yA B yB w h,
       ns !! "model" = Some (VModel m) /\
       ns !! "train_data" = Some (VArray2 X) /\
       ns !! "train_targets" = Some (VArray1 y) /\
       keras.train_validation_split X y 0.15 = Ok ((A, yA), (B, yB)) /\
       rows A ++ rows B = rows X /\ yA ++ yB = y /\ rows A <> [] /\ rows B <> [] /\
       keras.fit_loop L (layers m) c A yA B yB 64 100 0
         (default (initial_weights L (layers m)) (weights m)) ∅ = Ok (w, history h) /\
       (forall k, (k < 100)%nat ->
          exists wk hk wk' tv,
            keras.fit_loop L (layers m) c A yA B yB 64 k 0
              (default (initial_weights L (layers m)) (weights m)) ∅ = Ok (wk, hk) /\
            train_epoch L (layers m) c wk A yA 64 k = Ok (wk', tv)) /\
       ns' !! "history" = Some (VHistory h) /\
       forall k, k ∉ ["model"; "history"] -> ns' !! k = ns !! k).
Proof.
  split; [reflexivity|]. split; [|split; [|split; [|split; [|split]]]].
  - intros ns ns' Hrun. apply run_split_Ok in Hrun
      as (X & y & X_train & X_test & y_train & y_test & HX & Hy & Hsplit & ->).
    exists X, y, X_train, X_test, y_train, y_test.
    repeat (split; [done|]). intros Hperm. eapply split_pairs; eassumption.
  - intros id p ns Hid. apply cell_with_permutation, Hid.
  - intros id ns ns' k v Hid Hrun. rewrite run_cell in Hrun.
    eapply binds_no_array_exec; [|exact Hrun]. apply binds_no_array_cell, Hid.
  - apply run_save_Ok.
  - intros ns ns' (t & t' & Ht & <- & ->)%run_normalise_Ok.
    exists t. split; [exact Ht|]. split; [reflexivity|apply normalise_length].
  - intros ns ns' (m & X & y & m' & h & Hm & HX & Hy & Hfit & ->)%run_train_Ok.
    apply fit_loop_of_fit in Hfit
      as (c & [A yA] & [B yB] & w & _ & Hsplit & Hloop). cbn [fst snd] in Hloop.
    exists m, X, y, c, A, yA, B, yB, w, h.
    assert (Hvs : (0 <= 0.15)%Q) by discriminate.
    pose proof (train_validation_split_Ok _ _ _ _ _ Hvs Hsplit)
      as (Hrows & Htargets & Hne1 & Hne2 & _). cbn [fst snd] in *.
    repeat (split; [done|]).
    split; [intros k Hk; eapply fit_loop_epoch; eassumption|].
    split; [ns_lookup; reflexivity|].
    intros k Hk. apply not_elem_of_cons in Hk as [? Hk].
    apply not_elem_of_cons in Hk as [? _].
    rewrite !lookup_insert_ne by congruence. reflexivity.
Qed.

(** C2, as stated, fails: in the run on the small library the training
    cell, which is not the split cell, hands the nine rows of
    [train_data] to [fit], whose hold-out divides them into seven rows to
    train on and two other rows to validate on. *)
Lemma training_cell_divides_train_data :
  exists ns X y A yA B yB,
    run_cells demo (take 11 notebook) ∅ = Ok ns /\
    is_ok (run_cells demo [TrainModel] ns) = true /\
    In TrainModel notebook /\ TrainModel <> SplitDataset /\
    ns !! "train_data" = Some (VArray2 X) /\
    ns !! "train_targets" = Some (VArray1 y) /\
    keras.train_validation_split X y 0.15 = Ok ((A, yA), (B, yB)) /\
    length (rows X) = 9%nat /\ length (rows A) = 7%nat /\ length (rows B) = 2%nat /\
    rows A ++ rows B = rows X.
Proof.
  destruct (demo_run_prefix 12) as [ns12 Hns12].
  change (take 12 notebook) with (take 11 notebook ++ [TrainModel]) in Hns12.
  apply run_cells_app_Ok in Hns12 as (ns & Hns & Htrain). pose proof Hns as Hrun.
  apply run_to_compile_Ok in Hrun
    as (b & t' & X_train & X_test & y_train & y_test & m & Hb & Hnorm & Hsplit & _ & _ &
        _ & HX & _ & Hy & _).
  apply Ok_inj in Hb as <-.
  apply train_test_split_Ok in Hsplit as (_ & _ & Hnc & _ & Hrows & _ & Hytrain & _).
  apply safe_indexing_Ok, Forall2_length in Hrows.
  assert (Hlen : length (rows X_train) = 9%nat) by (rewrite <- Hrows; reflexivity).
  clear Hrows Hytrain.
  assert (Hval : keras.train_validation_split X_train y_train 0.15 =
            Ok (({| rows := take 7 (rows X_train); ncols := ncols X_train |}, take 7 y_train),
                ({| rows := drop 7 (rows X_train); ncols := ncols X_train |}, drop 7 y_train))).
  { unfold keras.train_validation_split. rewrite Hlen. reflexivity. }
  eexists ns, X_train, y_train, _, _, _, _.
  split; [exact Hns|]. split; [rewrite Htrain; reflexivity|].
  split; [simpl; auto 15|]. split; [discriminate|].
  split; [exact HX|]. split; [exact Hy|]. split; [exact Hval|].
  split; [exact Hlen|]. simpl.
  rewrite length_take, length_drop, Hlen, take_drop. auto.
Qed.

(** ** C3: the order of the steps *)

(** C3. In every run that gets through the split cell, the split has been
    given the targets the normalisation cell returned for the whole target
    vector of the dataset, and nothing of the model, its training or the
    plot exists yet.  In the notebook the normalisation cell comes before
    the split cell, and the split cell before the cells that build,
    compile and train the model and plot the curves. *)
Theorem split_receives_normalised_targets L ns :
  run_cells L (take 5 notebook) ∅ = Ok ns ->
  (exists b t' X_train X_test y_train y_test,
     load_diabetes L = Ok b /\
     normalise (bunch_target b) = t' /\
     sklearn.train_test_split (permutation L (length (rows (bunch_data b))))
       (bunch_data b) t' 0.1 = Ok (X_train, X_test, y_train, y_test) /\
     ns !! "targets" = Some (VArray1 t') /\
     ns !! "train_data" = Some (VArray2 X_train) /\
     ns !! "test_data" = Some (VArray2 X_test) /\
     ns !! "train_targets" = Some (VArray1 y_train) /\
     ns !! "test_targets" = Some (VArray1 y_test)) /\
  ns !! "model" = None /\ ns !! "history" = None /\
  ns !! "frame" = None /\ ns !! "fig" = None /\
  precedes NormaliseTargets SplitDataset /\
  Forall (precedes SplitDataset)
    [BuildModel; AddBatchNorm; AddOutputLayer; CompileModel; TrainModel; PlotCurves] /\
  NoDup notebook.
Proof.
  change (take 5 notebook)
    with ([ImportTensorflow; LoadDataset; SaveVariables] ++ [NormaliseTargets] ++
          [SplitDataset]).
  intros H.
  apply run_cells_app_Ok in H as (ns1 & H1 & H).
  apply run_cells_app_Ok in H as (ns2 & H2 & H3).
  apply run_load_Ok in H1 as (b & Hb & ->).
  apply run_normalise_Ok in H2 as (t & t' & Ht & Hnorm & ->).
  ns_lookup_in Ht. some_inj Ht. injection Ht as <-.
  apply run_split_Ok in H3 as (X & y & X_train & X_test & y_train & y_test & HX & Hy & Hsplit & ->).
  ns_lookup_in HX. ns_lookup_in Hy. some_inj HX. some_inj Hy.
  injection HX as <-. injection Hy as <-.
  split.
  { exists b, t', X_train, X_test, y_train, y_test.
    repeat (split; [first [assumption | ns_lookup; reflexivity]|]).
    ns_lookup. reflexivity. }
  repeat (split; [ns_lookup; reflexivity|]).
  split; [exists 3%nat, 4%nat; repeat split; lia|].
  split.
  - repeat constructor.
    + exists 4%nat, 6%nat. repeat split; lia.
    + exists 4%nat, 8%nat. repeat split; lia.
    + exists 4%nat, 9%nat. repeat split; lia.
    + exists 4%nat, 10%nat. repeat split; lia.
    + exists 4%nat, 11%nat. repeat split; lia.
    + exists 4%nat, 12%nat. repeat split; lia.
  - apply (bool_decide_unpack (NoDup notebook)). vm_compute. exact I.
Qed.

Lemma split_receives_normalised_targets_witness :
  exists ns t',
    run_cells demo (take 5 notebook) ∅ = Ok ns /\
    normalise demo_targets = t' /\
    ns !! "targets" = Some (VArray1 t') /\
    ns !! "model" = None.
Proof.
  destruct (demo_run_prefix 5) as [ns Hns].
  destruct (split_receives_normalised_targets demo ns Hns)
    as ((b & t' & X_train & X_test & y_train & y_test & Hb & Hnorm & _ & Ht & _) & Hm & _).
  apply Ok_inj in Hb as <-.
  exists ns, t'. auto.
Defined.

(** ** C4: the layers of the model *)

(** C4. In every complete run the model holds a batch-normalisation layer
    with the default arguments (momentum 0.99, epsilon 0.001, beta
    initialised to zeros, gamma to ones) and one with the customised
    arguments (momentum 0.95, epsilon 0.005, axis -1, beta drawn from a
    normal distribution, gamma the constant 0.9). *)
Theorem model_has_default_and_custom_batch_norm L ns :
  run_notebook L = Ok ns ->
  exists m,
    ns !! "model" = Some (VModel m) /\
    BatchNormalization {| axis := -1; momentum := 0.99; epsilon := 0.001;
                          beta_initializer := Zeros; gamma_initializer := Ones |}
      ∈ layers m /\
    BatchNormalization {| axis := -1; momentum := 0.95; epsilon := 0.005;
                          beta_initializer := RandomNormal 0.0 0.05;
                          gamma_initializer := Constant 0.9 |}
      ∈ layers m.
Proof.
  intros (ns' & Hrun & Hplot)%run_notebook_Ok.
  apply run_to_train_Ok in Hrun
    as (b & t' & X_train & X_test & y_train & y_test & m & m' & h & _ & _ & _ &
        Hlayers & _ & Hfit & _ & _ & _ & _ & _ & Hm' & _).
  apply run_plot_Ok in Hplot
    as (_ & _ & _ & _ & _ & _ & _ & _ & _ & _ & _ & _ & _ & _ & _ & Hframe).
  apply fit_Ok in Hfit as (c & train & val & _ & _ & _ & _ & Hl & _).
  exists m'. rewrite Hframe by notin. split; [exact Hm'|].
  rewrite Hl, Hlayers.
  split; [apply list_elem_of_In; simpl; auto 10|apply list_elem_of_In; simpl; auto 10].
Qed.

Lemma model_has_default_and_custom_batch_norm_witness :
  exists ns m,
    run_notebook demo = Ok ns /\
    ns !! "model" = Some (VModel m) /\
    BatchNormalization batch_norm_defaults ∈ layers m /\
    BatchNormalization custom_batch_norm ∈ layers m.
Proof.
  destruct demo_run as [ns Hns].
  destruct (model_has_default_and_custom_batch_norm demo ns Hns) as (m & Hm & Hd & Hc).
  exists ns, m. auto.
Defined.

(** ** C5: the width of the input *)

(** C5. When the loaded feature matrix has 10 columns, the training
    matrix that every complete run has handed to [fit] has 10 columns as
    well (and rows of 10 entries, if the loaded rows have), the first
    layer of the model declares the input shape [[train_data.shape[1]]],
    and that shape is the width [fit] accepted. *)
Theorem input_shape_is_feature_width L ns b :
  run_notebook L = Ok ns ->
  load_diabetes L = Ok b ->
  ncols (bunch_data b) = 10%nat ->
  exists X y m0 m h,
    ns !! "train_data" = Some (VArray2 X) /\
    ns !! "model" = Some (VModel m) /\
    keras.fit L m0 X y 100 0.15 64 = Ok (m, h) /\
    snd (shape X) = 10%nat /\
    (well_shaped (bunch_data b) -> Forall (fun r => length r = 10%nat) (rows X)) /\
    keras.declared_input_shape m0 = Some [snd (shape X)] /\
    keras.declared_input_shape m = Some [snd (shape X)] /\
    keras.input_compatible m0 X = true.
Proof.
  intros (ns' & Hrun & Hplot)%run_notebook_Ok Hb Hcols.
  apply run_to_train_Ok in Hrun
    as (b' & t' & X_train & X_test & y_train & y_test & m & m' & h & Hb' & _ & Hsplit &
        Hlayers & _ & Hfit & _ & HX & _ & _ & _ & Hm' & _).
  rewrite Hb in Hb'. apply Ok_inj in Hb' as <-.
  apply run_plot_Ok in Hplot
    as (_ & _ & _ & _ & _ & _ & _ & _ & _ & _ & _ & _ & _ & _ & _ & Hframe).
  pose proof Hfit as (c & train & val & _ & _ & Hcompat & _ & Hl & _)%fit_Ok.
  apply train_test_split_Ok in Hsplit as (_ & _ & Hnc & _ & Hrows & _).
  exists X_train, y_train, m, m', h.
  rewrite !Hframe by notin.
  split; [exact HX|]. split; [exact Hm'|]. split; [exact Hfit|].
  assert (Hw : snd (shape X_train) = 10%nat) by (simpl; congruence).
  split; [exact Hw|].
  split.
  { intros Hwell. unfold well_shaped in Hwell. rewrite Hcols in Hwell.
    eapply safe_indexing_Forall; [exact Hrows|exact Hwell]. }
  unfold keras.declared_input_shape. rewrite Hl, Hlayers. auto.
Qed.

Lemma input_shape_is_feature_width_witness :
  exists ns X,
    run_notebook demo = Ok ns /\
    ncols demo_data = 10%nat /\
    ns !! "train_data" = Some (VArray2 X) /\
    snd (shape X) = 10%nat.
Proof.
  destruct demo_run as [ns Hns].
  destruct (input_shape_is_feature_width demo ns
              {| bunch_data := demo_data; bunch_target := demo_targets |}
              Hns eq_refl eq_refl)
    as (X & y & m0 & m & h & HX & _ & _ & Hw & _).
  exists ns, X. auto.
Defined.

(** ** C6: exceptions *)

(** C6. No cell catches, checks or retries anything: an exception of a
    library call is the outcome of the cell that makes the call.  This
    holds for every import of a package that is not installed, for the
    loader, for [train_test_split], for [fit], also when it is a training
    step inside [fit] that raises, for [pd.DataFrame], and for a column
    the frame lacks.  And when a cell raises, the run ends with this very
    exception, whatever cells come after it: so does the run of the
    notebook. *)
Theorem library_exceptions_end_the_run (L : Library) (e : exn) :
  (forall id before p after ns,
     cell_imports id = before ++ p :: after ->
     Forall (fun q => installed L q = true) before -> installed L p = false ->
     run_cells L [id] ns = Raise (ModuleNotFoundError p)) /\
  (forall ns,
     installed L "sklearn.datasets" = true -> load_diabetes L = Raise e ->
     run_cells L [LoadDataset] ns = Raise e) /\
  (forall ns q X y,
     ns !! "train_test_split" = Some (VImported q) ->
     ns !! "data" = Some (VArray2 X) -> ns !! "targets" = Some (VArray1 y) ->
     sklearn.train_test_split (permutation L (length (rows X))) X y 0.1 = Raise e ->
     run_cells L [SplitDataset] ns = Raise e) /\
  (forall ns m X y,
     ns !! "model" = Some (VModel m) ->
     ns !! "train_data" = Some (VArray2 X) -> ns !! "train_targets" = Some (VArray1 y) ->
     keras.fit L m X y 100 0.15 64 = Raise e ->
     run_cells L [TrainModel] ns = Raise e) /\
  (forall m c X y A yA B yB k wk hk,
     compiled m = Some c -> length y = length (rows X) ->
     keras.input_compatible m X = true ->
     keras.train_validation_split X y 0.15 = Ok ((A, yA), (B, yB)) ->
     (k < 100)%nat ->
     keras.fit_loop L (layers m) c A yA B yB 64 k 0
       (default (initial_weights L (layers m)) (weights m)) ∅ = Ok (wk, hk) ->
     train_epoch L (layers m) c wk A yA 64 k = Raise e ->
     keras.fit L m X y 100 0.15 64 = Raise e) /\
  (forall ns h,
     installed L "pandas" = true -> installed L "numpy" = true ->
     installed L "matplotlib.pyplot" = true ->
     ns !! "history" = Some (VHistory h) ->
     pd.DataFrame (history h) = Raise e ->
     run_cells L [PlotCurves] ns = Raise e) /\
  (forall ns h f before key after,
     installed L "pandas" = true -> installed L "numpy" = true ->
     installed L "matplotlib.pyplot" = true ->
     ns !! "history" = Some (VHistory h) ->
     pd.DataFrame (history h) = Ok f ->
     ["loss"; "val_loss"; "mae"; "val_mae"] = before ++ key :: after ->
     Forall (fun k => is_Some (columns f !! k)) before ->
     pd.getitem f key = Raise e ->
     run_cells L [PlotCurves] ns = Raise e) /\
  (forall pre id post ns0 ns,
     run_cells L pre ns0 = Ok ns -> run_cells L [id] ns = Raise e ->
     run_cells L (pre ++ id :: post) ns0 = Raise e) /\
  (forall k id ns,
     notebook !! k = Some id -> run_cells L (take k notebook) ∅ = Ok ns ->
     run_cells L [id] ns = Raise e ->
     run_notebook L = Raise e).
Proof.
  assert (Habort : forall pre id post ns0 ns,
            run_cells L pre ns0 = Ok ns -> run_cells L [id] ns = Raise e ->
            run_cells L (pre ++ id :: post) ns0 = Raise e).
  { intros pre id post ns0 ns Hpre Hid.
    change (id :: post) with ([id] ++ post).
    rewrite run_cells_app, Hpre. cbn [mbind result_bind].
    rewrite run_cells_app, Hid. reflexivity. }
  split; [intros *; apply run_import_raises|].
  split; [intros *; apply run_load_raises|].
  split; [intros *; apply run_split_raises|].
  split; [intros *; apply run_train_raises|].
  split; [intros *; apply fit_epoch_raises|].
  split; [intros *; apply run_plot_frame_raises|].
  split.
  { intros ns h f before key after Hpd Hnp Hplt Hh Hf Hkeys Hbefore Hget.
    unfold pd.getitem in Hget. destruct (columns f !! key) eqn:Hkey; [discriminate|].
    injection Hget as <-. eapply run_plot_column_raises; eassumption. }
  split; [exact Habort|].
  intros k id ns Hk Hpre Hid. unfold run_notebook.
  rewrite <- (take_drop_middle notebook k id Hk). eapply Habort; eassumption.
Qed.

Lemma library_exceptions_end_the_run_witness :
  run_notebook demo_unreadable = Raise (OSError "diabetes_data_raw.csv.gz not found").
Proof.
  destruct (library_exceptions_end_the_run demo_unreadable
              (OSError "diabetes_data_raw.csv.gz not found"))
    as (_ & Hload & _ & _ & _ & _ & _ & _ & Hrun).
  apply (Hrun 1%nat LoadDataset (<["tf" := VImported "tensorflow"]> ∅)).
  - reflexivity.
  - reflexivity.
  - apply Hload; reflexivity.
Defined.

(** ** C7: the history and the curves *)

(** C7. In every complete run the history of the fit lists the epochs 0
    to 99 and holds exactly four series, the training loss, the validation
    loss, the training metric and the validation metric, each with one
    value for each of the 100 epochs; the frame of the plotting cell has
    these series as its columns and 100 rows; the epochs axis is 0 to 99;
    and the four curves drawn are these four series over that axis. *)
Theorem history_holds_one_value_per_epoch L ns :
  run_notebook L = Ok ns ->
  exists h f loss val_loss mae val_mae,
    ns !! "history" = Some (VHistory h) /\
    epoch h = seq 0 100 /\
    history h !! "loss" = Some loss /\ history h !! "val_loss" = Some val_loss /\
    history h !! "mae" = Some mae /\ history h !! "val_mae" = Some val_mae /\
    length loss = 100%nat /\ length val_loss = 100%nat /\
    length mae = 100%nat /\ length val_mae = 100%nat /\
    (forall k, k ∉ ["loss"; "mae"; "val_loss"; "val_mae"] -> history h !! k = None) /\
    ns !! "frame" = Some (VFrame f) /\
    columns f = history h /\ pd.len f = 100%nat /\
    ns !! "epochs" = Some (VRange (seq 0 100)) /\
    ns !! "fig" = Some (VFigure
      {| figsize := (12, 4)%nat;
         axes :=
           [ {| position := 121;
                lines := [ {| xdata := seq 0 100; ydata := loss; label := "Train" |};
                           {| xdata := seq 0 100; ydata := val_loss; label := "Validation" |} ];
                xlabel := "Epochs"; ylabel := "Loss"; title := "Loss vs Epochs";
                legend := true |};
             {| position := 122;
                lines := [ {| xdata := seq 0 100; ydata := mae; label := "Train" |};
                           {| xdata := seq 0 100; ydata := val_mae; label := "Validation" |} ];
                xlabel := "Epochs"; ylabel := "Mean Absolute Error";
                title := "Mean Absolute Error vs Epochs"; legend := true |} ] |}).
Proof.
  intros (ns' & Hrun & Hplot)%run_notebook_Ok.
  apply run_to_train_Ok in Hrun
    as (b & t' & X_train & X_test & y_train & y_test & m & m' & h & _ & _ & _ &
        _ & Hcompiled & Hfit & _ & _ & _ & _ & _ & _ & Hh).
  apply run_plot_Ok in Hplot
    as (h' & f & loss & val_loss & mae & val_mae & Hh' & Hf & Hloss & Hval_loss & Hmae &
        Hval_mae & Hframe & Hepochs & Hfig & Hrest).
  rewrite Hh in Hh'. some_inj Hh'. injection Hh' as <-.
  apply fit_Ok in Hfit as (c & train & val & Hc & _ & _ & _ & _ & _ & Hepoch & Hin & Hout).
  rewrite Hcompiled in Hc. some_inj Hc. subst c.
  apply DataFrame_Ok in Hf as [Hcols Hlen]. rewrite Hcols in *.
  assert (Hseries : forall k col,
            k ∈ ["loss"; "mae"; "val_loss"; "val_mae"] -> history h !! k = Some col ->
            length col = 100%nat).
  { intros k col Hk Hcol. destruct (Hin k Hk) as [Hl _]. rewrite Hcol in Hl. exact Hl. }
  assert (Hidx : pd.len f = 100%nat).
  { unfold pd.len. rewrite <- (Hlen _ _ Hloss). apply (Hseries "loss"); [|exact Hloss].
    apply list_elem_of_In; simpl; auto. }
  rewrite Hidx in Hepochs, Hfig. unfold np.arange in Hepochs, Hfig.
  exists h, f, loss, val_loss, mae, val_mae.
  rewrite Hrest by notin.
  repeat (split; [first [assumption | reflexivity
                        | eapply Hseries; [|eassumption]; apply list_elem_of_In; simpl; auto 10]|]).
  assumption.
Qed.

Lemma history_holds_one_value_per_epoch_witness :
  exists ns h loss,
    run_notebook demo = Ok ns /\
    ns !! "history" = Some (VHistory h) /\
    history h !! "loss" = Some loss /\ length loss = 100%nat.
Proof.
  destruct demo_run as [ns Hns].
  destruct (history_holds_one_value_per_epoch demo ns Hns)
    as (h & f & loss & val_loss & mae & val_mae & Hh & _ & Hloss & _ & _ & _ & Hlen & _).
  exists ns, h, loss. auto.
Defined.

(** ** C8: the training targets and the test rows *)




(** ** C9: the test split *)

(** C9. The split cell is the fifth cell, and the cells after it neither
    read nor change [test_data] and [test_targets]: whatever the two names
    are bound to, the rest of the notebook has the same outcome and leaves
    them bound to that. *)
Theorem test_split_is_never_used L ns v :
  notebook !! 4%nat = Some SplitDataset /\
  run_cells L (drop 5 notebook) (<["test_data" := v]> ns)
    = (insert "test_data" v) <$> run_cells L (drop 5 notebook) ns /\
  run_cells L (drop 5 notebook) (<["test_targets" := v]> ns)
    = (insert "test_targets" v) <$> run_cells L (drop 5 notebook) ns.
Proof.
  split; [reflexivity|].
  split; apply ignores_exec, ignores_after_split; auto.
Qed.

(** ** C10: the unguarded division *)

(** C10, as amended.  The normalisation divides by [targets.std()] with
    no guard, and a zero divisor is no error: for every target vector the
    cell returns, binds [targets] to a vector of the same length, and the
    cells after it run on that vector.  When the computed standard
    deviation is zero, every element of that vector is an infinity or
    nan.  A zero standard deviation and a constant vector are not the
    same thing in float64. *)
Theorem normalise_divides_without_guard (L : Library) (ns : namespace) (t : list float64) :
  ns !! "targets" = Some (VArray1 t) ->
  (forall cells, run_cells L (NormaliseTargets :: cells) ns =
                 run_cells L cells (<["targets" := VArray1 (normalise t)]> ns)) /\
  length (normalise t) = length t /\
  (f64.is_zero (np.std t) = true ->
   Forall (fun x => f64.is_finite x = false) (normalise t)).
Proof.
  intros Ht. split; [|split; [apply normalise_length|apply normalise_zero_std]].
  intros cells. change (NormaliseTargets :: cells) with ([NormaliseTargets] ++ cells).
  rewrite run_cells_app, (run_normalise_eq _ _ _ Ht). reflexivity.
Qed.

Lemma normalise_divides_without_guard_witness :
  run_cells demo [NormaliseTargets] (<["targets" := VArray1 tiny_opposites]> ∅) =
    Ok (<["targets" := VArray1 [S754_infinity false; S754_infinity true]]> ∅) /\
  Forall (fun x => f64.is_finite x = false) (normalise tiny_opposites).
Proof.
  destruct (normalise_divides_without_guard demo (<["targets" := VArray1 tiny_opposites]> ∅)
              tiny_opposites) as (Hrun & _ & Hinf).
  - reflexivity.
  - split; [|apply Hinf; reflexivity].
    rewrite (Hrun []). reflexivity.
Defined.

(** C10, as stated, fails: the constant vector of three times 0.1 has a
    computed mean above 0.1 and a standard deviation of 2^-56, and its
    normalisation is the vector of three times -1; the two opposite
    numbers of magnitude 2^-700 are not a constant vector, their computed
    standard deviation is zero, and the cell returns, with the two
    infinities. *)
Lemma constant_targets_are_normalised :
  constant three_tenths /\
  np.std three_tenths = f64.pow2 (-56) /\
  normalise three_tenths = [SFopp (f64.of_Z 1); SFopp (f64.of_Z 1); SFopp (f64.of_Z 1)] /\
  ~ constant tiny_opposites /\
  np.std tiny_opposites = f64.zero /\
  run_cells demo [NormaliseTargets] (<["targets" := VArray1 tiny_opposites]> ∅) =
    Ok (<["targets" := VArray1 [S754_infinity false; S754_infinity true]]> ∅).
Proof.
  split.
  { intros x y Hx Hy. simpl in Hx, Hy. intuition congruence. }
  split; [vm_compute; reflexivity|]. split; [vm_compute; reflexivity|].
  split.
  { intros Hc. specialize (Hc (f64.pow2 (-700)) (SFopp (f64.pow2 (-700)))).
    simpl in Hc. discriminate Hc; auto. }
  split; [vm_compute; reflexivity|]. reflexivity.
Qed.

(** * Further properties of the notebook *)

(** ** The split *)

(** X4. When the split returns, raises, and how many rows each part gets:
    arrays of different lengths and datasets of fewer than two samples
    raise [ValueError]; with two samples or more and a shuffle of all
    positions the split returns, the test part has a tenth of the rows
    rounded up and the training part the rest, each with its targets. *)
Theorem split_outcome (perm : list nat) (X : ndarray2) (y : list float64) (n : nat) :
  length (rows X) = n ->
  perm ≡ₚ seq 0 n ->
  (length y <> n ->
   sklearn.train_test_split perm X y 0.1 =
   Raise (ValueError "Found input variables with inconsistent numbers of samples")) /\
  (length y = n -> (n <= 1)%nat ->
   sklearn.train_test_split perm X y 0.1 =
   Raise (ValueError "the resulting train set will be empty")) /\
  (length y = n -> (2 <= n)%nat ->
   exists X_train X_test y_train y_test,
     sklearn.train_test_split perm X y 0.1 = Ok (X_train, X_test, y_train, y_test) /\
     length (rows X_test) = ((n + 9) / 10)%nat /\
     length (rows X_train) = (n - (n + 9) / 10)%nat /\
     length y_test = length (rows X_test) /\
     length y_train = length (rows X_train) /\
     (1 <= length y_test)%nat /\ (1 <= length y_train)%nat /\
     ncols X_train = ncols X /\ ncols X_test = ncols X).
Proof.
  intros HX Hperm. split; [|split].
  - intros Hne. unfold sklearn.train_test_split. rewrite HX.
    destruct (decide (length y = n)); [done|reflexivity].
  - intros Hlen Hn. unfold sklearn.train_test_split. rewrite HX.
    destruct (decide (length y = n)); [|done].
    destruct (n_test_tenth_bounds n) as [Hsmall _].
    destruct (decide _) as [|Hne]; [reflexivity|]. specialize (Hsmall Hn). lia.
  - intros Hlen Hn. apply split_returns; assumption.
Qed.

Lemma split_outcome_witness :
  exists X_train X_test y_train y_test,
    sklearn.train_test_split (seq 0 11) demo_data demo_targets 0.1
      = Ok (X_train, X_test, y_train, y_test) /\
    length (rows X_test) = 2%nat /\ length (rows X_train) = 9%nat.
Proof.
  destruct (split_outcome (seq 0 11) demo_data demo_targets 11) as (_ & _ & H);
    [reflexivity|reflexivity|].
  destruct H as (Xtr & Xte & ytr & yte & Heq & Hte & Htr & _);
    [reflexivity|lia|].
  exists Xtr, Xte, ytr, yte. split; [exact Heq|]. split; [exact Hte|exact Htr].
Defined.

(** X5. The split loses nothing, duplicates nothing and keeps every row
    with its own target: with a shuffle of all positions, the pairs
    (row, target) of the training part and of the test part together are
    the pairs of the dataset, rearranged; so are the rows alone and the
    targets alone. *)
Theorem split_partitions_the_pairs (perm : list nat) (X : ndarray2) (y : list float64)
    (test_size : Q) X_train X_test y_train y_test :
  perm ≡ₚ seq 0 (length (rows X)) ->
  sklearn.train_test_split perm X y test_size = Ok (X_train, X_test, y_train, y_test) ->
  zip (rows X_train) y_train ++ zip (rows X_test) y_test ≡ₚ zip (rows X) y /\
  rows X_train ++ rows X_test ≡ₚ rows X /\
  y_train ++ y_test ≡ₚ y /\
  length y_train = length (rows X_train) /\ length y_test = length (rows X_test).
Proof.
  intros Hperm Hsplit. split; [eapply split_pairs; eassumption|].
  apply train_test_split_Ok in Hsplit as (Hlen & Hn & _ & _ & HXtr & HXte & Hytr & Hyte).
  set (nt := sklearn.n_test test_size (length (rows X))) in *.
  split; [|split; [|split]].
  - apply (split_parts perm (rows X) nt); assumption.
  - rewrite <- Hlen in Hperm, Hn, Hytr. apply (split_parts perm y nt); assumption.
  - rewrite (safe_indexing_length _ _ _ Hytr), (safe_indexing_length _ _ _ HXtr). reflexivity.
  - rewrite (safe_indexing_length _ _ _ Hyte), (safe_indexing_length _ _ _ HXte). reflexivity.
Qed.

Lemma split_partitions_the_pairs_witness :
  exists X_train X_test y_train y_test,
    zip (rows X_train) y_train ++ zip (rows X_test) y_test
      ≡ₚ zip (rows demo_data) demo_targets /\
    rows X_train ++ rows X_test ≡ₚ rows demo_data /\
    y_train ++ y_test ≡ₚ demo_targets.
Proof.
  destruct demo_split as (Xtr & Xte & ytr & yte & H).
  exists Xtr, Xte, ytr, yte.
  destruct (split_partitions_the_pairs (seq 0 11) demo_data demo_targets 0.1 _ _ _ _
              (reflexivity _) H) as (H1 & H2 & H3 & _).
  auto.
Defined.

(** X6. Normalising before the split is splitting first and rescaling the
    two target parts afterwards: a split of rescaled targets is, in every
    outcome, the split of the targets with both target parts rescaled.
    The training targets of the notebook are therefore the raw training
    targets less the mean and over the deviation of all targets. *)
Theorem split_commutes_with_rescaling (perm : list nat) (X : ndarray2) (t : list float64)
    (test_size : Q) (f : float64 -> float64) :
  sklearn.train_test_split perm X (map f t) test_size =
  (fun '(X_train, X_test, y_train, y_test) => (X_train, X_test, map f y_train, map f y_test))
    <$> sklearn.train_test_split perm X t test_size.
Proof.
  unfold sklearn.train_test_split. rewrite length_map.
  destruct (decide (length t = length (rows X))); [|reflexivity].
  destruct (decide _); [reflexivity|].
  destruct (sklearn.safe_indexing (rows X) (sklearn.ind_train _ _ _)); [|reflexivity..].
  destruct (sklearn.safe_indexing (rows X) (sklearn.ind_test _ _)); [|reflexivity..].
  cbn [mbind result_bind]. rewrite !safe_indexing_map.
  destruct (sklearn.safe_indexing t (sklearn.ind_train _ _ _)); [|reflexivity..].
  destruct (sklearn.safe_indexing t (sklearn.ind_test _ _)); reflexivity.
Qed.

(** ** The hold-out and the training loop *)

(** X8. The hold-out of the training call: [fit] with
    [validation_split=0.15] raises [ValueError] on fewer than two samples;
    on two or more it trains on the first 17/20 of the samples, rounded
    down, and validates on the rest, and both parts are non-empty. *)
Theorem hold_out_of_fit (x : ndarray2) (y : list float64) :
  ((length (rows x) <= 1)%nat ->
   keras.train_validation_split x y 0.15 =
   Raise (ValueError "Training data is not sufficient to split into training and validation")) /\
  ((2 <= length (rows x))%nat ->
   keras.train_validation_split x y 0.15 =
   Ok (({| rows := take (17 * length (rows x) / 20) (rows x); ncols := ncols x |},
        take (17 * length (rows x) / 20) y),
       ({| rows := drop (17 * length (rows x) / 20) (rows x); ncols := ncols x |},
        drop (17 * length (rows x) / 20) y)) /\
   (1 <= 17 * length (rows x) / 20 < length (rows x))%nat).
Proof.
  unfold keras.train_validation_split. rewrite split_at_fifteen.
  destruct (split_at_fifteen_bounds (length (rows x))) as [Hsmall Hlarge].
  split; intros Hn.
  - destruct (decide _) as [|Hne]; [reflexivity|]. exfalso. apply Hne. left. auto.
  - specialize (Hlarge Hn). split; [|exact Hlarge].
    destruct (decide _) as [[H0|Hk]|_]; [lia..|reflexivity].
Qed.

(** ** Complete runs *)

Section CompleteRuns.

Variable L : Library.
Hypothesis modules_installed : forall p, p ∈ imported_modules -> installed L p = true.
Hypothesis shuffle : forall n, permutation L n ≡ₚ seq 0 n.
Hypothesis epochs_return :
  forall ls c w x y bs e, is_ok (train_epoch L ls c w x y bs e) = true.

Lemma installed_module p : bool_decide (p ∈ imported_modules) = true -> installed L p = true.
Proof. intros H. apply modules_installed. apply bool_decide_eq_true in H. exact H. Qed.

Lemma run_notebook_total b :
  load_diabetes L = Ok b ->
  length (bunch_target b) = length (rows (bunch_data b)) ->
  (3 <= length (bunch_target b))%nat ->
  exists ns, run_notebook L = Ok ns.
Proof.
  intros Hload Hlen Hn. unfold run_notebook.
  change notebook
    with ([ImportTensorflow; LoadDataset; SaveVariables] ++ [NormaliseTargets] ++
          [SplitDataset] ++
          [ImportLayers; BuildModel; PrintSummary; AddBatchNorm; AddOutputLayer;
           CompileModel] ++ [TrainModel] ++ [PlotCurves]).
  rewrite run_cells_app, run_load_eq, Hload, !installed_module by reflexivity.
  cbn [mbind result_bind].
  pose proof (normalise_length (bunch_target b)) as Hlen'.
  set (t' := normalise (bunch_target b)) in *.
  rewrite run_cells_app, (run_normalise_eq _ _ (bunch_target b)) by reflexivity.
  fold t'. cbn [mbind result_bind].
  destruct (split_returns (permutation L (length (rows (bunch_data b)))) (bunch_data b) t'
              (length (rows (bunch_data b))))
    as (Xtr & Xte & ytr & yte & Hsplit & _ & HXtr & _ & Hytr & _ & _ & Hcols & _);
    [reflexivity|apply shuffle|lia|lia|].
  rewrite run_cells_app.
  rewrite (run_split_eq _ _ "sklearn.model_selection" (bunch_data b) t') by (unfold loaded; lookup_solve).
  rewrite Hsplit. cbn [mbind result_bind].
  rewrite run_cells_app.
  rewrite (run_build_eq _ _ "tensorflow" Xtr) by (unfold with_split, loaded; lookup_solve).
  rewrite !installed_module by reflexivity. cbn [mbind result_bind].
  rewrite run_cells_app.
  rewrite (run_train_eq _ _ (compiled_model (ncols Xtr)) Xtr ytr)
    by (unfold with_model, with_split, loaded; lookup_solve).
  assert (Hfit : is_ok (keras.fit L (compiled_model (ncols Xtr)) Xtr ytr 100 0.15 64) = true).
  { eapply fit_total; [reflexivity|exact Hytr|apply input_compatible_compiled| |exact epochs_return].
    rewrite HXtr. apply n_train_bounds. lia. }
  destruct (keras.fit _ _ _ _ _ _ _) as [[m' h]|] eqn:Efit; [|discriminate..].
  cbn [mbind result_bind].
  destruct (fit_history L (compiled_model (ncols Xtr)) _ _ _ _ _ _ _ eq_refl (Nat.lt_0_succ 99) Efit)
    as (Hall & loss & val_loss & mae & val_mae & H1 & H2 & H3 & H4).
  rewrite (run_plot_eq _ _ h 100 loss val_loss mae val_mae) by (first [lookup_solve | assumption]).
  rewrite !installed_module by reflexivity. eauto.
Qed.

Lemma run_notebook_needs ns :
  run_notebook L = Ok ns ->
  exists b, load_diabetes L = Ok b /\
    length (bunch_target b) = length (rows (bunch_data b)) /\
    (3 <= length (bunch_target b))%nat.
Proof.
  intros (ns' & Hrun & _)%run_notebook_Ok.
  apply run_to_train_Ok in Hrun
    as (b & t' & Xtr & Xte & ytr & yte & m & m' & h & Hload & Hnorm & Hsplit & _ & _ & Hfit & _).
  exists b. split; [exact Hload|].
  apply train_test_split_Ok in Hsplit as (Hlen & Hn & _ & _ & HXtr & _).
  rewrite <- Hnorm, normalise_length in Hlen. split; [exact Hlen|].
  apply fit_Ok in Hfit as (c & train & val & _ & _ & _ & Hval & _).
  destruct (Nat.le_gt_cases 2 (length (rows Xtr))) as [Hrows|Hrows].
  - apply safe_indexing_length in HXtr. unfold sklearn.ind_train in HXtr.
    rewrite length_take in HXtr. rewrite n_test_tenth in HXtr.
    rewrite Hlen. destruct (n_train_bounds (length (rows (bunch_data b)))) as [_ Hsmall]. lia.
  - rewrite hold_out_Raise in Hval by lia. discriminate.
Qed.

End CompleteRuns.

(** X9. When the notebook runs to its end.  With the imported modules
    installed, a shuffle that is a permutation and a training step that
    returns, the notebook run from a fresh kernel completes exactly when
    the loader returns a dataset with as many targets as rows and at
    least three samples, whatever numbers the targets are. *)
Theorem notebook_completes_iff (L : Library) :
  (forall p, p ∈ imported_modules -> installed L p = true) ->
  (forall n, permutation L n ≡ₚ seq 0 n) ->
  (forall ls c w x y bs e, is_ok (train_epoch L ls c w x y bs e) = true) ->
  (exists ns, run_notebook L = Ok ns) <->
  (exists b, load_diabetes L = Ok b /\
     length (bunch_target b) = length (rows (bunch_data b)) /\
     (3 <= length (bunch_target b))%nat).
Proof.
  intros Hmod Hperm Hepochs. split.
  - intros [ns Hrun]. eapply run_notebook_needs, Hrun.
  - intros (b & Hload & Hlen & Hn). eapply run_notebook_total; eassumption.
Qed.

Lemma notebook_completes_iff_witness :
  (exists ns, run_notebook demo = Ok ns) <->
  (exists b, load_diabetes demo = Ok b /\
     length (bunch_target b) = length (rows (bunch_data b)) /\
     (3 <= length (bunch_target b))%nat).
Proof.
  apply (notebook_completes_iff demo).
  - intros p _. reflexivity.
  - intros n. reflexivity.
  - intros ls c w x y bs e. reflexivity.
Defined.

(** ** The exceptions of a run *)

(** X10. The exceptions of a run from a fresh kernel.  Whatever the
    libraries do, a run of the notebook raises only: [ModuleNotFoundError]
    for an imported module that is not installed; what the loader raises;
    [ValueError] from the split or the training call; [IndexError] from
    a shuffle that is no permutation; and what a training step raises.
    Of its own the notebook raises no [NameError], [TypeError],
    [KeyError] or [RuntimeError]: every name is bound, to a value of the
    right kind, before a cell reads it, and the model is compiled before
    it is trained. *)
Theorem fresh_run_exceptions (L : Library) (e : exn) :
  run_notebook L = Raise e ->
  (exists p, p ∈ imported_modules /\ installed L p = false /\ e = ModuleNotFoundError p) \/
  load_diabetes L = Raise e \/
  (exists msg, e = ValueError msg) \/
  (exists i, e = IndexError i) \/
  (exists ls c w x y bs ep, train_epoch L ls c w x y bs ep = Raise e).
Proof.
  assert (Hmissing : forall p, bool_decide (p ∈ imported_modules) = true ->
            installed L p = false ->
            @Raise namespace (ModuleNotFoundError p) = Raise e ->
            exists p, p ∈ imported_modules /\ installed L p = false /\ e = ModuleNotFoundError p).
  { intros p Hp%bool_decide_eq_true Hinst [= <-]. eauto. }
  unfold run_notebook.
  change notebook
    with ([ImportTensorflow; LoadDataset; SaveVariables] ++ [NormaliseTargets] ++
          [SplitDataset] ++
          [ImportLayers; BuildModel; PrintSummary; AddBatchNorm; AddOutputLayer;
           CompileModel] ++ [TrainModel] ++ [PlotCurves]).
  rewrite run_cells_app, run_load_eq.
  destruct (installed L "tensorflow") eqn:I1; [|intros H; left; eapply Hmissing, H; done].
  destruct (installed L "sklearn.datasets") eqn:I2; [|intros H; left; eapply Hmissing, H; done].
  destruct (load_diabetes L) as [b|e'] eqn:Hload; [|intros [= <-]; auto].
  cbn [mbind result_bind].
  destruct (installed L "sklearn.model_selection") eqn:I3;
    [|intros H; left; eapply Hmissing, H; done].
  cbn [mbind result_bind].
  rewrite run_cells_app, (run_normalise_eq _ _ (bunch_target b)) by reflexivity.
  set (t' := normalise (bunch_target b)).
  cbn [mbind result_bind]. rewrite run_cells_app.
  rewrite (run_split_eq _ _ "sklearn.model_selection" (bunch_data b) t')
    by (unfold loaded; lookup_solve).
  destruct (sklearn.train_test_split _ _ _ _) as [[[[Xtr Xte] ytr] yte]|e'] eqn:Hsplit.
  2:{ intros [= <-]. apply train_test_split_raises in Hsplit as [H|H]; auto. }
  cbn [mbind result_bind]. rewrite run_cells_app.
  rewrite (run_build_eq _ _ "tensorflow" Xtr) by (unfold with_split, loaded; lookup_solve).
  destruct (installed L "tensorflow.keras.models") eqn:I4;
    [|intros H; left; eapply Hmissing, H; done].
  destruct (installed L "tensorflow.keras.layers") eqn:I5;
    [|intros H; left; eapply Hmissing, H; done].
  cbn [mbind result_bind]. rewrite run_cells_app.
  rewrite (run_train_eq _ _ (compiled_model (ncols Xtr)) Xtr ytr)
    by (unfold with_model, with_split, loaded; lookup_solve).
  destruct (keras.fit _ _ _ _ _ _ _) as [[m' h]|e'] eqn:Efit.
  2:{ intros [= <-]. apply (fit_raises L (compiled_model (ncols Xtr)) _ _ _ _ _ _ _ eq_refl) in Efit as [H|H];
      auto 10. }
  cbn [mbind result_bind].
  destruct (fit_history L (compiled_model (ncols Xtr)) _ _ _ _ _ _ _ eq_refl
              (Nat.lt_0_succ 99) Efit)
    as (Hall & loss & val_loss & mae & val_mae & H1 & H2 & H3 & H4).
  rewrite (run_plot_eq _ _ h 100 loss val_loss mae val_mae) by (first [lookup_solve | assumption]).
  destruct (installed L "pandas") eqn:I6; [|intros H; left; eapply Hmissing, H; done].
  destruct (installed L "numpy") eqn:I7; [|intros H; left; eapply Hmissing, H; done].
  destruct (installed L "matplotlib.pyplot") eqn:I8;
    [discriminate|intros H; left; eapply Hmissing, H; done].
Qed.

Lemma fresh_run_exceptions_witness :
  load_diabetes demo_unreadable = Raise (OSError "diabetes_data_raw.csv.gz not found").
Proof.
  destruct (fresh_run_exceptions demo_unreadable
              (OSError "diabetes_data_raw.csv.gz not found"))
    as [(p & _ & Hp & _)|[H|[[msg H]|[[i H]|(ls & c & w & x & y & bs & ep & H)]]]];
    [reflexivity|discriminate Hp|exact H|discriminate H..].
Defined.

(** ** The learning curves *)

(** X11. What the plotting cell draws.  At the end of every complete run
    the history holds four series of 100 values; the frame has them as
    its columns and 100 rows; [epochs] is 0, 1, ..., 99; and the figure
    has two axes side by side, the loss and the validation loss on the
    first, the mean absolute error and its validation counterpart on the
    second, each against the epochs, labelled, titled and with a
    legend. *)
Theorem learning_curves (L : Library) (ns : namespace) :
  run_notebook L = Ok ns ->
  exists h loss val_loss mae val_mae,
    ns !! "history" = Some (VHistory h) /\
    history h !! "loss" = Some loss /\ history h !! "val_loss" = Some val_loss /\
    history h !! "mae" = Some mae /\ history h !! "val_mae" = Some val_mae /\
    Forall (fun series => length series = 100%nat) [loss; val_loss; mae; val_mae] /\
    ns !! "frame" = Some (VFrame {| columns := history h; index := 100 |}) /\
    ns !! "epochs" = Some (VRange (seq 0 100)) /\
    ns !! "fig" = Some (VFigure (curves 100 loss val_loss mae val_mae)).
Proof.
  intros (ns' & Hrun & Hplot)%run_notebook_Ok.
  apply run_to_train_Ok in Hrun
    as (b & t' & Xtr & Xte & ytr & yte & m & m' & h & _ & _ & _ & _ & Hc & Hfit & _ & _ & _ & _
        & _ & _ & Hh).
  destruct (fit_history _ _ _ _ _ _ _ _ _ Hc (Nat.lt_0_succ 99) Hfit)
    as (Hall & loss & val_loss & mae & val_mae & H1 & H2 & H3 & H4).
  rewrite (run_plot_eq _ _ h 100 loss val_loss mae val_mae) in Hplot by assumption.
  destruct (installed L "pandas"); [|discriminate].
  destruct (installed L "numpy"); [|discriminate].
  destruct (installed L "matplotlib.pyplot"); [|discriminate].
  apply Ok_inj in Hplot as <-.
  exists h, loss, val_loss, mae, val_mae.
  split; [ns_lookup; exact Hh|]. do 4 (split; [assumption|]).
  split; [repeat constructor; eapply Hall; eassumption|].
  repeat split; ns_lookup; reflexivity.
Qed.

Lemma learning_curves_witness :
  exists (ns : namespace) h loss val_loss mae val_mae,
    ns !! "history" = Some (VHistory h) /\
    ns !! "fig" = Some (VFigure (curves 100 loss val_loss mae val_mae)).
Proof.
  destruct demo_run as [ns Hns].
  destruct (learning_curves demo ns Hns)
    as (h & loss & val_loss & mae & val_mae & Hh & _ & _ & _ & _ & _ & _ & _ & Hfig).
  exists ns, h, loss, val_loss, mae, val_mae. split; [exact Hh|exact Hfig].
Defined.

(** ** Training again *)

(** X12. Running the training cell a second time trains the trained
    model further and starts the record anew: the second call starts from
    the weights the first call ended with, not from the initial weights,
    on the same hold-out; [history] is rebound to the record of the second
    call alone, whose series have 100 values and whose epochs are again
    0, ..., 99. *)
Theorem training_again_continues (L : Library) (ns ns' : namespace) :
  run_cells L [TrainModel; TrainModel] ns = Ok ns' ->
  exists m X y c train val w1 w2 h1 h2,
    ns !! "model" = Some (VModel m) /\
    ns !! "train_data" = Some (VArray2 X) /\
    ns !! "train_targets" = Some (VArray1 y) /\
    compiled m = Some c /\
    keras.train_validation_split X y 0.15 = Ok (train, val) /\
    keras.fit_loop L (layers m) c (fst train) (snd train) (fst val) (snd val) 64 100 0
      (default (initial_weights L (layers m)) (weights m)) ∅ = Ok (w1, history h1) /\
    keras.fit_loop L (layers m) c (fst train) (snd train) (fst val) (snd val) 64 100 0
      w1 ∅ = Ok (w2, history h2) /\
    ns' !! "model" = Some (VModel {| layers := layers m; compiled := Some c;
                                     weights := Some w2 |}) /\
    ns' !! "history" = Some (VHistory h2) /\
    epoch h2 = seq 0 100 /\
    (forall k col, history h2 !! k = Some col -> length col = 100%nat).
Proof.
  change [TrainModel; TrainModel] with ([TrainModel] ++ [TrainModel]).
  intros (ns1 & Hrun1 & Hrun2)%run_cells_app_Ok.
  apply run_train_Ok in Hrun1 as (m & X & y & m1 & h1 & Hm & HX & Hy & Hfit1 & ->).
  apply run_train_Ok in Hrun2 as (m1' & X' & y' & m2 & h2 & Hm1 & HX' & Hy' & Hfit2 & ->).
  ns_lookup_in Hm1. ns_lookup_in HX'. ns_lookup_in Hy'.
  rewrite HX in HX'. rewrite Hy in Hy'.
  injection Hm1 as <-. injection HX' as <-. injection Hy' as <-.
  pose proof (fun k col => fit_series_length _ _ _ _ _ _ _ _ _ k col Hfit2) as Hlen.
  apply fit_weights in Hfit1 as (c & train & val & w1 & Hc & Hval & Hloop1 & -> & _).
  apply fit_weights in Hfit2 as (c' & train' & val' & w2 & Hc' & Hval' & Hloop2 & -> & Hepoch).
  cbn [compiled layers weights default] in Hc', Hloop2.
  injection Hc' as <-. rewrite Hval in Hval'. injection Hval' as <- <-.
  exists m, X, y, c, train, val, w1, w2, h1, h2.
  repeat split; try assumption; try (ns_lookup; reflexivity).
Qed.

Lemma training_again_continues_witness :
  exists (ns' : namespace) h2,
    ns' !! "history" = Some (VHistory h2) /\ epoch h2 = seq 0 100.
Proof.
  destruct (is_ok_Ok (run_cells demo [TrainModel; TrainModel] two_samples)) as [ns' Hns'];
    [vm_compute; reflexivity|].
  destruct (training_again_continues demo two_samples ns' Hns')
    as (m & X & y & c & train & val & w1 & w2 & h1 & h2 & _ & _ & _ & _ & _ & _ & _ & _
        & Hh & Hepoch & _).
  exists ns', h2. split; [exact Hh|exact Hepoch].
Defined.

(** ** The names a cell changes *)

Lemma touches_only_mono ks ks' s : ks ⊆ ks' -> touches_only ks s -> touches_only ks' s.
Proof.
  intros Hsub Hs ns ns' Hrun. destruct (Hs ns ns' Hrun) as [Hframe Hdom].
  split; [|exact Hdom]. intros k Hk. apply Hframe. intros Hin. apply Hk, Hsub, Hin.
Qed.

Lemma insert_touches x (v : value) (ns : namespace) (ks : list string) :
  x ∈ ks ->
  (forall k, k ∉ ks -> <[x := v]> ns !! k = ns !! k) /\
  (forall k, is_Some (ns !! k) -> is_Some (<[x := v]> ns !! k)).
Proof.
  intros Hx. split.
  - intros k Hk. apply lookup_insert_ne. intros ->. exact (Hk Hx).
  - intros k Hk. apply lookup_insert_is_Some'. auto.
Qed.

Lemma touches_only_step (ks : list string) (ns ns1 ns2 : namespace) :
  ((forall k, k ∉ ks -> ns1 !! k = ns !! k) /\
   (forall k, is_Some (ns !! k) -> is_Some (ns1 !! k))) ->
  ((forall k, k ∉ ks -> ns2 !! k = ns1 !! k) /\
   (forall k, is_Some (ns1 !! k) -> is_Some (ns2 !! k))) ->
  (forall k, k ∉ ks -> ns2 !! k = ns !! k) /\
  (forall k, is_Some (ns !! k) -> is_Some (ns2 !! k)).
Proof.
  intros [F1 D1] [F2 D2]. split.
  - intros k Hk. rewrite F2, F1 by exact Hk. reflexivity.
  - intros k Hk. apply D2, D1, Hk.
Qed.

Lemma touches_only_import L p names : touches_only names (import L p names).
Proof.
  intros ns ns' [_ ->]%import_Ok.
  assert (Hgen : forall ks : list string, names ⊆ ks ->
    (forall k, k ∉ ks ->
       foldr (fun name ns => <[name := VImported p]> ns) ns names !! k = ns !! k) /\
    (forall k, is_Some (ns !! k) ->
       is_Some (foldr (fun name ns => <[name := VImported p]> ns) ns names !! k))).
  { intros ks. induction names as [|x names IH]; intros Hsub; [auto|].
    cbn [foldr]. eapply touches_only_step; [apply IH|apply insert_touches].
    - intros k Hk. apply Hsub. right. exact Hk.
    - apply Hsub. left. }
  apply Hgen. reflexivity.
Qed.

Lemma touches_only_assign x e : touches_only [x] (assign x e).
Proof. intros ns ns' (v & _ & ->)%assign_Ok. apply insert_touches. left. Qed.

Lemma touches_only_expression {A} (e : namespace -> result A) : touches_only [] (expression e).
Proof.
  intros ns ns' H. unfold expression in H. apply bind_Ok in H as (a & _ & [= ->]). auto.
Qed.

Lemma touches_only_split L :
  touches_only ["train_data"; "test_data"; "train_targets"; "test_targets"] (split_dataset L).
Proof.
  intros ns ns' H.
  assert (Hrun : run_cells L [SplitDataset] ns = Ok ns').
  { unfold run_cells, statements. cbn [fmap list_fmap cell_source concat app exec].
    rewrite H. reflexivity. }
  apply run_split_Ok in Hrun as (X & y & Xtr & Xte & ytr & yte & _ & _ & _ & ->).
  repeat (eapply touches_only_step; [|apply insert_touches; rewrite !elem_of_cons; auto 10]).
  auto.
Qed.

Lemma touches_only_train L : touches_only ["model"; "history"] (train_model L).
Proof.
  intros ns ns' H.
  assert (Hrun : run_cells L [TrainModel] ns = Ok ns').
  { unfold run_cells, statements. cbn [fmap list_fmap cell_source concat app exec].
    rewrite H. reflexivity. }
  apply run_train_Ok in Hrun as (m & X & y & m' & h & _ & _ & _ & _ & ->).
  repeat (eapply touches_only_step; [|apply insert_touches; rewrite !elem_of_cons; auto 10]).
  auto.
Qed.

Lemma touches_only_add_subplot pos : touches_only ["fig"; "ax"] (add_subplot pos).
Proof.
  intros ns ns' (f & _ & ->)%add_subplot_Ok.
  repeat (eapply touches_only_step; [|apply insert_touches; rewrite !elem_of_cons; auto 10]).
  auto.
Qed.

Lemma touches_only_axes_call method : touches_only ["fig"] (axes_call method).
Proof.
  intros ns ns' (i & f & a & a' & _ & _ & _ & _ & ->)%axes_call_Ok.
  apply insert_touches. left.
Qed.

Lemma touches_only_exec ks ss :
  Forall (touches_only ks) ss -> touches_only ks (exec ss).
Proof.
  induction 1 as [|s ss Hs _ IH]; intros ns ns' Hrun.
  - apply exec_nil_Ok in Hrun as ->. auto.
  - apply exec_cons_Ok in Hrun as (ns1 & Hs1 & Hrun).
    eapply touches_only_step; [apply (Hs _ _ Hs1)|apply (IH _ _ Hrun)].
Qed.

Lemma touches_only_cell L id :
  Forall (touches_only (written_names id)) (cell_source L id).
Proof.
  destruct id; cbn [cell_source written_names]; unfold build_model, plot_column;
    repeat apply Forall_cons_2; try apply Forall_nil_2;
    (eapply touches_only_mono;
     [|first [ apply touches_only_import | apply touches_only_assign
             | apply touches_only_expression | apply touches_only_split
             | apply touches_only_train | apply touches_only_add_subplot
             | apply touches_only_axes_call ]]);
    intros k; rewrite ?elem_of_cons; intros Hk;
    repeat (destruct Hk as [->|Hk]; [auto 10|]); by apply elem_of_nil in Hk.
Qed.

(** X13. Cells change only their own names and delete none.  When cells
    run and return, every name that none of them writes (the targets of
    its assignments and imports, and the objects its calls change) is
    bound as before, and every name that was bound is still bound. *)
Theorem cells_change_only_their_names (L : Library) (cells : list cell_id)
    (ns ns' : namespace) :
  run_cells L cells ns = Ok ns' ->
  (forall k, (forall id, id ∈ cells -> k ∉ written_names id) -> ns' !! k = ns !! k) /\
  (forall k, is_Some (ns !! k) -> is_Some (ns' !! k)).
Proof.
  revert ns. induction cells as [|id cells IH]; intros ns Hrun.
  - apply exec_nil_Ok in Hrun as ->. auto.
  - change (id :: cells) with ([id] ++ cells) in Hrun.
    apply run_cells_app_Ok in Hrun as (ns1 & Hid & Hrest).
    assert (Hcell : touches_only (written_names id) (exec (cell_source L id))).
    { apply touches_only_exec, touches_only_cell. }
    unfold run_cells, statements in Hid. cbn [fmap list_fmap concat] in Hid.
    rewrite app_nil_r in Hid.
    destruct (Hcell _ _ Hid) as [F1 D1]. destruct (IH _ Hrest) as [F2 D2].
    split.
    + intros k Hk. trans (ns1 !! k).
      * apply F2. intros id' Hid'. apply Hk. right. exact Hid'.
      * apply F1, Hk. left.
    + intros k Hk. apply D2, D1, Hk.
Qed.

Lemma cells_change_only_their_names_witness :
  exists ns : namespace,
    ns !! "diabetes_dataset" =
      Some (VBunch {| bunch_data := demo_data; bunch_target := demo_targets |}) /\
    ns !! "data" = Some (VArray2 demo_data).
Proof.
  destruct (demo_run_prefix 13) as [ns Hns]. cbn [take notebook] in Hns.
  change [ImportTensorflow; LoadDataset; SaveVariables; NormaliseTargets; SplitDataset;
          ImportLayers; BuildModel; PrintSummary; AddBatchNorm; AddOutputLayer;
          CompileModel; TrainModel; PlotCurves]
    with ([ImportTensorflow; LoadDataset; SaveVariables] ++ drop 3 notebook) in Hns.
  apply run_cells_app_Ok in Hns as (ns3 & Hload & Hrest).
  change demo with (demo_with demo_targets) in Hload.
  rewrite demo_load_run in Hload. apply Ok_inj in Hload as <-.
  destruct (cells_change_only_their_names demo _ _ _ Hrest) as [Hframe _].
  exists ns. split.
  - rewrite Hframe; [reflexivity|].
    intros id Hid. apply (bool_decide_unpack _).
    revert id Hid. apply Forall_forall. vm_compute. repeat constructor.
  - rewrite Hframe; [reflexivity|].
    intros id Hid. apply (bool_decide_unpack _).
    revert id Hid. apply Forall_forall. vm_compute. repeat constructor.
Defined.

(** ** The three parts of the dataset *)

(** X14. Every sample is used once.  In a run through the training cell,
    with a shuffle that is a permutation, the samples the training loop
    trains on, those it validates on and the test samples are together
    the samples of the dataset, each row with its own normalised target;
    of [n] samples the test part has a tenth rounded up, and the loop
    trains on 17/20 of the rest, rounded down. *)
Theorem every_sample_used_once (L : Library) (ns : namespace) :
  (forall n, permutation L n ≡ₚ seq 0 n) ->
  run_cells L (take 12 notebook) ∅ = Ok ns ->
  exists b t' ls c x y x_val y_val w0 w h X_test y_test,
    load_diabetes L = Ok b /\ normalise (bunch_target b) = t' /\
    keras.fit_loop L ls c x y x_val y_val 64 100 0 w0 ∅ = Ok (w, history h) /\
    ns !! "history" = Some (VHistory h) /\
    ns !! "test_data" = Some (VArray2 X_test) /\
    ns !! "test_targets" = Some (VArray1 y_test) /\
    zip (rows x) y ++ zip (rows x_val) y_val ++ zip (rows X_test) y_test
      ≡ₚ zip (rows (bunch_data b)) t' /\
    let n := length (rows (bunch_data b)) in
    length (rows X_test) = ((n + 9) / 10)%nat /\
    length (rows x) = (17 * (n - (n + 9) / 10) / 20)%nat /\
    (length (rows x) + length (rows x_val) + length (rows X_test))%nat = n.
Proof.
  intros Hperm Hrun.
  apply run_to_train_Ok in Hrun
    as (b & t' & Xtr & Xte & ytr & yte & m & m' & h & Hload & Hnorm & Hsplit & _ & _ & Hfit
        & _ & _ & HXte & _ & Hyte & _ & Hh).
  apply fit_weights in Hfit as (c & train & val & w & _ & Hval & Hloop & _ & _).
  pose proof (split_pairs _ _ _ _ _ _ _ _ (Hperm _) Hsplit) as Hpairs.
  apply train_test_split_Ok in Hsplit as (Hlen & Hn & _ & _ & HXtr & HXte' & Hytr & Hyte').
  apply safe_indexing_length in HXtr, HXte', Hytr, Hyte'.
  assert (Hplen : length (permutation L (length (rows (bunch_data b))))
                  = length (rows (bunch_data b))) by (rewrite Hperm; apply length_seq).
  unfold sklearn.ind_train in HXtr, Hytr. unfold sklearn.ind_test in HXte', Hyte'.
  rewrite length_take, length_drop, Hplen, n_test_tenth in HXtr, Hytr.
  rewrite length_take, Hplen, n_test_tenth in HXte', Hyte'.
  rewrite n_test_tenth in Hn.
  destruct (hold_out_pairs Xtr ytr train val) as (Hzip & Hk & _ & _ & Hsum);
    [congruence|exact Hval|].
  exists b, t', (layers m), c, (fst train), (snd train), (fst val), (snd val),
    (default (initial_weights L (layers m)) (weights m)), w, h, Xte, yte.
  do 6 (split; [assumption|]).
  split; [rewrite app_assoc, Hzip; exact Hpairs|].
  cbn zeta. set (n := length (rows (bunch_data b))) in *.
  pose proof (Nat.div_mod_eq (n + 9) 10) as Hdiv.
  pose proof (Nat.mod_upper_bound (n + 9) 10) as Hmod.
  split; [lia|]. split; [|lia].
  rewrite Hk, HXtr. f_equal. f_equal. lia.
Qed.

Lemma every_sample_used_once_witness :
  exists (x x_val X_test : ndarray2),
    (length (rows x) + length (rows x_val) + length (rows X_test))%nat = 11%nat.
Proof.
  destruct (demo_run_prefix 12) as [ns Hns].
  destruct (every_sample_used_once demo ns (fun n => reflexivity _) Hns)
    as (b & t' & ls & c & x & y & x_val & y_val & w0 & w & h & X_test & y_test & Hload & _ & _
        & _ & _ & _ & _ & _ & _ & Hsum).
  injection Hload as <-. exists x, x_val, X_test. exact Hsum.
Defined.

(** ** Running a cell again *)

Section Rerun.

Variable L : Library.

Lemma rerun_import_tensorflow ns ns1 :
  run_cells L [ImportTensorflow] ns = Ok ns1 -> run_cells L [ImportTensorflow] ns1 = Ok ns1.
Proof.
  rewrite !run_cell. cbn [cell_source]. intros H.
  import_step H. exec_step H Hs. apply expression_Ok in Hs as (_ & ->).
  apply exec_nil_Ok in H as ->.
  rewrite exec_import, Hinst. cbn [foldr]. rewrite exec_expression. eval_getters.
  cbn [exec]. f_equal. chain_eq.
Qed.

Lemma rerun_load_dataset ns ns1 :
  run_cells L [LoadDataset] ns = Ok ns1 -> run_cells L [LoadDataset] ns1 = Ok ns1.
Proof.
  rewrite !run_cell. cbn [cell_source]. intros H.
  import_step H. exec_step H Hs. apply assign_Ok in Hs as (v & Hv & ->).
  apply exec_nil_Ok in H as ->.
  apply bind_Ok in Hv as (u & _ & Hv). apply bind_Ok in Hv as (b & Hb & [= <-]).
  rewrite exec_import, Hinst. cbn [foldr]. rewrite exec_assign. eval_getters.
  rewrite Hb. cbn [mbind result_bind exec]. f_equal. chain_eq.
Qed.

Lemma rerun_save_variables ns ns1 :
  run_cells L [SaveVariables] ns = Ok ns1 -> run_cells L [SaveVariables] ns1 = Ok ns1.
Proof.
  rewrite !run_cell. cbn [cell_source]. intros H.
  import_step H.
  exec_step H Hs. apply assign_Ok in Hs as (v1 & Hv1 & ->).
  exec_step H Hs. apply assign_Ok in Hs as (v2 & Hv2 & ->).
  apply exec_nil_Ok in H as ->.
  apply bind_Ok in Hv1 as (b & Hb%get_bunch_Ok & Hv1).
  apply bind_Ok in Hv2 as (b' & Hb'%get_bunch_Ok & Hv2).
  ns_lookup_in Hb. ns_lookup_in Hb'. rewrite Hb in Hb'. injection Hb' as <-.
  rewrite exec_import, Hinst. cbn [foldr].
  rewrite exec_assign. eval_getters. rewrite Hv1. cbn [mbind result_bind].
  rewrite exec_assign. eval_getters. rewrite Hv2. cbn [mbind result_bind exec].
  f_equal. chain_eq.
Qed.

Lemma rerun_import_layers ns ns1 :
  run_cells L [ImportLayers] ns = Ok ns1 -> run_cells L [ImportLayers] ns1 = Ok ns1.
Proof.
  rewrite !run_cell. cbn [cell_source]. intros H.
  import_step H. import_step H. apply exec_nil_Ok in H as ->.
  rewrite exec_import, Hinst. rewrite exec_import, Hinst0. cbn [foldr exec].
  f_equal. chain_eq.
Qed.

Lemma rerun_build_model ns ns1 :
  run_cells L [BuildModel] ns = Ok ns1 -> run_cells L [BuildModel] ns1 = Ok ns1.
Proof.
  rewrite !run_cell. cbn [cell_source]. unfold build_model. intros H.
  exec_step H Hs. apply assign_Ok in Hs as (v & Hv & ->). apply exec_nil_Ok in H as ->.
  apply bind_Ok in Hv as (u1 & (q1 & H1)%get_imported_Ok & Hv).
  apply bind_Ok in Hv as (u2 & (q2 & H2)%get_imported_Ok & Hv).
  apply bind_Ok in Hv as (X & HX%get_array2_Ok & Hv).
  apply bind_Ok in Hv as (u3 & (q3 & H3)%get_imported_Ok & Hv).
  apply bind_Ok in Hv as (u4 & (q4 & H4)%get_imported_Ok & [= <-]).
  rewrite exec_assign. eval_getters. cbn [exec]. f_equal. chain_eq.
Qed.

Lemma rerun_print_summary ns ns1 :
  run_cells L [PrintSummary] ns = Ok ns1 -> run_cells L [PrintSummary] ns1 = Ok ns1.
Proof.
  rewrite !run_cell. cbn [cell_source]. intros H.
  exec_step H Hs. pose proof Hs as Hs'. apply expression_Ok in Hs as (_ & ->).
  apply exec_nil_Ok in H as ->. cbn [exec]. rewrite Hs'. reflexivity.
Qed.

Lemma rerun_compile_model ns ns1 :
  run_cells L [CompileModel] ns = Ok ns1 -> run_cells L [CompileModel] ns1 = Ok ns1.
Proof.
  rewrite !run_cell. cbn [cell_source]. intros H.
  exec_step H Hs. apply assign_Ok in Hs as (v & Hv & ->). apply exec_nil_Ok in H as ->.
  apply bind_Ok in Hv as (m & Hm%get_model_Ok & [= <-]).
  rewrite exec_assign. eval_getters. cbn [exec]. f_equal. chain_eq.
Qed.

Lemma rerun_plot_curves ns ns1 :
  run_cells L [PlotCurves] ns = Ok ns1 -> run_cells L [PlotCurves] ns1 = Ok ns1.
Proof.
  intros H. pose proof H as H'.
  apply run_plot_Ok in H'
    as (h & f & loss & val_loss & mae & val_mae & Hh & Hf & H1 & H2 & H3 & H4 & _).
  apply DataFrame_Ok in Hf as [Hcols Hall]. rewrite Hcols in H1, H2, H3, H4.
  rewrite (run_plot_eq _ _ h (index f) loss val_loss mae val_mae) in H by assumption.
  destruct (installed L "pandas") eqn:I1; [|discriminate].
  destruct (installed L "numpy") eqn:I2; [|discriminate].
  destruct (installed L "matplotlib.pyplot") eqn:I3; [|discriminate].
  apply Ok_inj in H as <-.
  rewrite (run_plot_eq _ _ h (index f) loss val_loss mae val_mae)
    by first [lookup_solve | assumption].
  rewrite I1, I2, I3. f_equal. chain_eq.
Qed.

End Rerun.

(** X15. The cells that can be run again.  The import cells, the cell
    that loads the dataset, the cell that saves its variables, the cell
    that builds the model, the summary, the compile cell and the plotting
    cell have, run twice in a row, the outcome they have run once. *)
Theorem rerunning_a_cell (L : Library) (id : cell_id) (ns : namespace) :
  id ∈ [ImportTensorflow; LoadDataset; SaveVariables; ImportLayers; BuildModel;
        PrintSummary; CompileModel; PlotCurves] ->
  run_cells L [id; id] ns = run_cells L [id] ns.
Proof.
  intros Hid. change [id; id] with ([id] ++ [id]). rewrite run_cells_app.
  destruct (run_cells L [id] ns) as [ns1|] eqn:H; [|reflexivity..].
  cbn [mbind result_bind]. revert H.
  rewrite !elem_of_cons in Hid.
  destruct Hid as [->|[->|[->|[->|[->|[->|[->|[->|Hid]]]]]]]];
    [ apply rerun_import_tensorflow | apply rerun_load_dataset | apply rerun_save_variables
    | apply rerun_import_layers | apply rerun_build_model | apply rerun_print_summary
    | apply rerun_compile_model | apply rerun_plot_curves | by apply elem_of_nil in Hid ].
Qed.

Lemma rerunning_a_cell_witness :
  run_cells demo [CompileModel; CompileModel] two_samples =
  run_cells demo [CompileModel] two_samples.
Proof.
  apply (rerunning_a_cell demo CompileModel two_samples).
  rewrite !elem_of_cons. auto 10.
Defined.

(** X16. The cell that adds the output layer adds it each time it runs:
    after the cell has run [k] times in a row the model has [k] more
    layers, all [Dense(1)], and is otherwise as it was, and no other name
    has changed. *)
Theorem adding_the_output_layer_again (L : Library) (k : nat) (ns ns' : namespace) (m : Model) :
  ns !! "model" = Some (VModel m) ->
  run_cells L (replicate k AddOutputLayer) ns = Ok ns' ->
  ns' = <["model" := VModel {| layers := layers m ++ replicate k (Dense 1 None linear);
                               compiled := compiled m; weights := weights m |}]> ns.
Proof.
  revert ns m. induction k as [|k IH]; intros ns m Hm Hrun.
  - apply exec_nil_Ok in Hrun as ->. cbn [replicate]. rewrite app_nil_r.
    symmetry. apply insert_id. rewrite Hm. by destruct m.
  - change (replicate (S k) AddOutputLayer)
      with ([AddOutputLayer] ++ replicate k AddOutputLayer) in Hrun.
    apply run_cells_app_Ok in Hrun as (ns1 & H1 & Hrest).
    rewrite run_cell in H1. cbn [cell_source] in H1.
    exec_step H1 Hs. apply assign_Ok in Hs as (v & Hv & ->). apply exec_nil_Ok in H1 as ->.
    apply bind_Ok in Hv as (m0 & Hm0%get_model_Ok & Hv).
    apply bind_Ok in Hv as (u & _ & [= <-]).
    rewrite Hm in Hm0. injection Hm0 as <-.
    rewrite (IH _ (keras.add m (Dense 1 None linear)) (lookup_insert_eq _ _ _) Hrest).
    rewrite insert_insert_eq. cbn [keras.add layers compiled weights replicate].
    rewrite <- app_assoc. reflexivity.
Qed.

Lemma adding_the_output_layer_again_witness :
  exists ns' : namespace,
    ns' !! "model" =
    Some (VModel {| layers := layers (compiled_model 1) ++ replicate 2 (Dense 1 None linear);
                    compiled := compiled (compiled_model 1);
                    weights := weights (compiled_model 1) |}).
Proof.
  destruct (is_ok_Ok (run_cells demo (replicate 2 AddOutputLayer)
              (<["Dense" := VImported "tensorflow.keras.layers"]> two_samples)))
    as [ns' Hns']; [vm_compute; reflexivity|].
  exists ns'.
  assert (Hm : (<["Dense" := VImported "tensorflow.keras.layers"]> two_samples) !! "model"
               = Some (VModel (compiled_model 1))) by (unfold two_samples; lookup_solve).
  rewrite (adding_the_output_layer_again demo 2 _ ns' (compiled_model 1) Hm Hns').
  apply lookup_insert_eq.
Defined.

(** ** The names a cell needs *)

Lemma get_is_Some x ns v : get x ns = Ok v -> is_Some (ns !! x).
Proof. intros H%get_Ok. eauto. Qed.

(** Reading a name through one of the typed readers. *)
Ltac reader_is_Some H :=
  first
    [ apply get_imported_Ok in H as [? H] | apply get_bunch_Ok in H
    | apply get_array1_Ok in H | apply get_array2_Ok in H | apply get_range_Ok in H
    | apply get_model_Ok in H | apply get_history_Ok in H | apply get_frame_Ok in H
    | apply get_figure_Ok in H | apply get_axes_Ok in H ];
  ns_lookup_in H.

(** The reads at the head of an expression that returned. *)
Ltac reads_of H :=
  repeat (let a := fresh "a" in let Hread := fresh "Hread" in
          apply bind_Ok in H as (a & Hread & H); try reader_is_Some Hread).

Ltac bound_names Hk :=
  rewrite ?elem_of_cons in Hk;
  repeat (destruct Hk as [->|Hk]; [eauto|]);
  by apply elem_of_nil in Hk.

(** X17. A cell that returns has found every name it reads: when a cell
    runs and returns, each name the cell reads without binding it itself
    was bound before.  Run before the cells that bind these names, the
    cell cannot return. *)
Theorem cells_need_their_names (L : Library) (id : cell_id) (ns ns' : namespace) (k : string) :
  run_cells L [id] ns = Ok ns' -> k ∈ read_names id -> is_Some (ns !! k).
Proof.
  rewrite run_cell. intros Hrun Hk.
  destruct id; cbn [cell_source read_names] in Hrun, Hk.
  - bound_names Hk.
  - bound_names Hk.
  - import_step Hrun. exec_step Hrun Hs. apply assign_Ok in Hs as (v & Hv & ->).
    reads_of Hv. bound_names Hk.
  - exec_step Hrun Hs. apply assign_Ok in Hs as (v & Hv & ->).
    reads_of Hv. bound_names Hk.
  - exec_step Hrun Hs. unfold split_dataset in Hs. reads_of Hs. bound_names Hk.
  - bound_names Hk.
  - exec_step Hrun Hs. apply assign_Ok in Hs as (v & Hv & ->).
    reads_of Hv. bound_names Hk.
  - exec_step Hrun Hs. apply expression_Ok in Hs as ((m & Hm) & ->).
    reader_is_Some Hm. bound_names Hk.
  - exec_step Hrun Hs. apply assign_Ok in Hs as (v & Hv & ->).
    reads_of Hv. bound_names Hk.
  - exec_step Hrun Hs. apply assign_Ok in Hs as (v & Hv & ->).
    reads_of Hv. bound_names Hk.
  - exec_step Hrun Hs. apply assign_Ok in Hs as (v & Hv & ->).
    reads_of Hv. bound_names Hk.
  - exec_step Hrun Hs. unfold train_model in Hs. reads_of Hs. bound_names Hk.
  - do 3 import_step Hrun. exec_step Hrun Hs. apply assign_Ok in Hs as (v & Hv & ->).
    reads_of Hv. bound_names Hk.
Qed.

Lemma cells_need_their_names_witness : is_Some (two_samples !! "train_data").
Proof.
  destruct (is_ok_Ok (run_cells demo [TrainModel] two_samples)) as [ns' Hns'];
    [vm_compute; reflexivity|].
  apply (cells_need_their_names demo TrainModel two_samples ns' "train_data" Hns').
  cbn [read_names]. rewrite !elem_of_cons. auto.
Defined.

(** ** The names a cell depends on *)

(** Two namespaces written as chains of bindings, one of a name that is
    known to differ from the others. *)
Ltac chain_eq_ne :=
  let j := fresh "j" in
  apply map_eq; intros j;
  repeat match goal with
    | |- context [<[?x := _]> _ !! j] =>
        destruct (decide (j = x)) as [->|?];
        [ repeat first [rewrite lookup_insert_eq | rewrite lookup_insert_ne by congruence];
          reflexivity
        | repeat (rewrite lookup_insert_ne by congruence) ]
    end;
  reflexivity.

Ltac no_read_ne :=
  intros;
  unfold get_imported, get_bunch, get_array1, get_array2, get_range, get_model,
    get_history, get_frame, get_figure, get_axes;
  rewrite ?get_insert_ne by congruence; reflexivity.

Section Depends.

Variable L : Library.
Variable k : string.

Lemma ignores_split_dataset :
  k ∉ ["train_test_split"; "data"; "targets"; "train_data"; "test_data"; "train_targets";
       "test_targets"] ->
  ignores k (split_dataset L).
Proof.
  rewrite !not_elem_of_cons. intros (? & ? & ? & ? & ? & ? & ? & _) ns v.
  unfold split_dataset.
  assert (Hget1 : get_imported "train_test_split" (<[k := v]> ns)
               = get_imported "train_test_split" ns) by no_read_ne.
  assert (Hget2 : get_array2 "data" (<[k := v]> ns) = get_array2 "data" ns) by no_read_ne.
  assert (Hget3 : get_array1 "targets" (<[k := v]> ns) = get_array1 "targets" ns) by no_read_ne.
  rewrite Hget1, Hget2, Hget3.
  destruct (get_imported "train_test_split" ns); simpl; [|reflexivity..].
  destruct (get_array2 "data" ns) as [X|]; simpl; [|reflexivity..].
  destruct (get_array1 "targets" ns) as [y|]; simpl; [|reflexivity..].
  destruct (sklearn.train_test_split _ _ _ _) as [[[[Xtr Xte] ytr] yte]|]; simpl;
    [|reflexivity..].
  f_equal. chain_eq_ne.
Qed.

Lemma ignores_train :
  k ∉ ["model"; "train_data"; "train_targets"; "history"] -> ignores k (train_model L).
Proof.
  rewrite !not_elem_of_cons. intros (? & ? & ? & ? & _) ns v.
  unfold train_model.
  assert (Hget1 : get_model "model" (<[k := v]> ns) = get_model "model" ns) by no_read_ne.
  assert (Hget2 : get_array2 "train_data" (<[k := v]> ns) = get_array2 "train_data" ns)
    by no_read_ne.
  assert (Hget3 : get_array1 "train_targets" (<[k := v]> ns) = get_array1 "train_targets" ns)
    by no_read_ne.
  rewrite Hget1, Hget2, Hget3.
  destruct (get_model "model" ns) as [m|]; simpl; [|reflexivity..].
  destruct (get_array2 "train_data" ns) as [X|]; simpl; [|reflexivity..].
  destruct (get_array1 "train_targets" ns) as [y|]; simpl; [|reflexivity..].
  destruct (keras.fit L m X y 100 0.15 64) as [[m' h]|]; simpl; [|reflexivity..].
  f_equal. chain_eq_ne.
Qed.

Lemma ignores_subplot pos : k ∉ ["fig"; "ax"] -> ignores k (add_subplot pos).
Proof.
  rewrite !not_elem_of_cons. intros (? & ? & _) ns v. unfold add_subplot.
  assert (Hget1 : get_figure "fig" (<[k := v]> ns) = get_figure "fig" ns) by no_read_ne.
  rewrite Hget1. destruct (get_figure "fig" ns) as [f|]; simpl; [|reflexivity..].
  f_equal. chain_eq_ne.
Qed.

Lemma ignores_axes method :
  k ∉ ["fig"; "ax"] ->
  (forall ns v a, method (<[k := v]> ns) a = method ns a) -> ignores k (axes_call method).
Proof.
  rewrite !not_elem_of_cons. intros (? & ? & _) Hmethod ns v. unfold axes_call.
  assert (Hget1 : get_axes "ax" (<[k := v]> ns) = get_axes "ax" ns) by no_read_ne.
  assert (Hget2 : get_figure "fig" (<[k := v]> ns) = get_figure "fig" ns) by no_read_ne.
  rewrite Hget1, Hget2.
  destruct (get_axes "ax" ns) as [i|]; simpl; [|reflexivity..].
  destruct (get_figure "fig" ns) as [f|]; simpl; [|reflexivity..].
  unfold plt.on_axes. destruct (axes f !! i) as [a|]; simpl; [|reflexivity].
  rewrite Hmethod. destruct (method ns a) as [a'|]; simpl; [|reflexivity..].
  f_equal. chain_eq_ne.
Qed.

Lemma ignores_plot key lbl :
  k ∉ ["fig"; "ax"; "epochs"; "frame"] -> ignores k (plot_column key lbl).
Proof.
  rewrite !not_elem_of_cons. intros (? & ? & ? & ? & _).
  apply ignores_axes; [rewrite !not_elem_of_cons; auto using not_elem_of_nil|].
  intros ns v a.
  assert (Hget1 : get_range "epochs" (<[k := v]> ns) = get_range "epochs" ns) by no_read_ne.
  assert (Hget2 : get_frame "frame" (<[k := v]> ns) = get_frame "frame" ns) by no_read_ne.
  rewrite Hget1, Hget2. reflexivity.
Qed.

Lemma ignores_cell id :
  k ∉ read_names id -> k ∉ written_names id -> Forall (ignores k) (cell_source L id).
Proof.
  intros Hr Hw.
  destruct id; cbn [cell_source read_names written_names] in *; unfold build_model;
    rewrite ?not_elem_of_cons in Hr; rewrite ?not_elem_of_cons in Hw; destruct_and?;
    repeat apply Forall_cons_2; try apply Forall_nil_2;
    first
      [ apply ignores_import; rewrite ?not_elem_of_cons; auto 10 using not_elem_of_nil
      | apply ignores_split_dataset; rewrite ?not_elem_of_cons; auto 10 using not_elem_of_nil
      | apply ignores_train; rewrite ?not_elem_of_cons; auto 10 using not_elem_of_nil
      | apply ignores_subplot; rewrite ?not_elem_of_cons; auto 10 using not_elem_of_nil
      | apply ignores_plot; rewrite ?not_elem_of_cons; auto 10 using not_elem_of_nil
      | apply ignores_axes;
        [rewrite ?not_elem_of_cons; auto 10 using not_elem_of_nil|reflexivity]
      | apply ignores_expression; no_read_ne
      | apply ignores_assign; [congruence|no_read_ne] ].
Qed.

End Depends.

(** X18. Of the names the cells of the notebook bind, a cell depends on
    no others than those it reads and those it writes: whatever another
    of these names is bound to, and whether it is bound at all, the cell
    has the same outcome and leaves that name as it was. *)
Theorem cells_depend_only_on_their_names (L : Library) (id id' : cell_id) (k : string)
    (ns : namespace) (v : value) :
  k ∈ written_names id' ->
  k ∉ read_names id -> k ∉ written_names id ->
  run_cells L [id] (<[k := v]> ns) = (insert k v) <$> run_cells L [id] ns.
Proof.
  intros _ Hr Hw. rewrite !run_cell. apply ignores_exec, ignores_cell; assumption.
Qed.

Lemma cells_depend_only_on_their_names_witness :
  run_cells demo [TrainModel] (<["test_data" := VArray2 demo_data]> two_samples) =
  (insert "test_data" (VArray2 demo_data)) <$> run_cells demo [TrainModel] two_samples.
Proof.
  apply (cells_depend_only_on_their_names demo TrainModel SplitDataset "test_data");
    cbn [read_names written_names];
    [ rewrite !elem_of_cons; auto
    | rewrite !not_elem_of_cons; repeat split; try discriminate; apply not_elem_of_nil.. ].
Defined.

(** ** Training without compiling *)

(** X19. The compile cell cannot be left out: when the cells before the
    compile cell have run from a fresh kernel and returned, the training
    cell run next raises the exception the framework has for a model that
    is not compiled, whatever the data are, and before any training step
    is taken. *)
Theorem training_needs_the_compile_cell (L : Library) (ns : namespace) :
  run_cells L (take 10 notebook) ∅ = Ok ns ->
  run_cells L [TrainModel] ns = Raise (uncompiled_error L).
Proof.
  change (take 10 notebook)
    with ([ImportTensorflow; LoadDataset; SaveVariables; NormaliseTargets] ++ [SplitDataset] ++
          [ImportLayers; BuildModel; PrintSummary; AddBatchNorm; AddOutputLayer]).
  intros (ns4 & _ & Hrun)%run_cells_app_Ok.
  apply run_cells_app_Ok in Hrun as (ns5 & Hsplit & Hrun).
  apply run_split_Ok in Hsplit as (X & y & Xtr & Xte & ytr & yte & _ & _ & _ & ->).
  unfold run_cells, statements in Hrun. cbn [fmap list_fmap cell_source concat app] in Hrun.
  do 2 import_step Hrun.
  unfold build_model in Hrun.
  exec_step Hrun Hs. apply assign_Ok in Hs as (v1 & Hv1 & ->).
  do 5 (let a := fresh "a" in let Ha := fresh "Ha" in apply bind_Ok in Hv1 as (a & Ha & Hv1)).
  injection Hv1 as <-.
  exec_step Hrun Hs. apply expression_Ok in Hs as (_ & ->).
  exec_step Hrun Hs. apply assign_Ok in Hs as (v2 & Hv2 & ->).
  apply bind_Ok in Hv2 as (m2 & Hm2%get_model_Ok & Hv2). apply bind_Ok in Hv2 as (u2 & _ & Hv2).
  injection Hv2 as <-. ns_lookup_in Hm2. injection Hm2 as <-.
  exec_step Hrun Hs. apply assign_Ok in Hs as (v3 & Hv3 & ->).
  apply bind_Ok in Hv3 as (m3 & Hm3%get_model_Ok & Hv3). apply bind_Ok in Hv3 as (u3 & _ & Hv3).
  injection Hv3 as <-. ns_lookup_in Hm3. injection Hm3 as <-.
  apply exec_nil_Ok in Hrun as ->.
  erewrite run_train_eq by lookup_solve.
  reflexivity.
Qed.

Lemma training_needs_the_compile_cell_witness :
  exists ns : namespace,
    run_cells demo [TrainModel] ns = Raise (uncompiled_error demo).
Proof.
  destruct (demo_run_prefix 10) as [ns Hns].
  exists ns. exact (training_needs_the_compile_cell demo ns Hns).
Defined.

